(** * Calendar pickers of mbanda1/date-picker: model and properties

    The development follows the TypeScript sources:

    - [Cal]: the part of the JavaScript [Date] object and of date-fns that
      the components call (local time at a fixed offset: no daylight
      saving; the Invalid Date object is left out).
    - [Ev]: the setter calls and callbacks of one event handler.
    - [Basic]: [src/Basic/DateOverlay.tsx], the single-date overlay.
    - [Range]: [src/Range/DateRangeOverlay.tsx], the two-calendar overlay.
    - [Presets]: [src/Range/DateRangePresets.tsx].
    - [RangeInput]: the range input ([DateRangePickerInput]).
    - [DateInput]: the date input ([DatePickerInput]).
    - [TimeSpec]: the time options in the words of the specification.

    React state is a record. A handler is a sequence of setter calls over
    the pending state of one event, written with [;;]; it reads the state of
    the render it was created in and is followed by the effects whose
    dependencies it touched. [new Date()] is an argument.

    [CalFacts], [BasicFacts], [RangeFacts] and [ShellFacts] hold the
    properties; [BasicMore], [RangeMore] and [ShellMore] hold further ones
    of the navigation, the cells, the presets and the two inputs. *)

From Stdlib Require Import ZArith List String Ascii Bool Lia.
From Stdlib Require Import Decimal DecimalString.
Import ListNotations.
Open Scope Z_scope.

(* ================================================================== *)
(** * Dates: JavaScript [Date] and date-fns *)
(* ================================================================== *)

Module Cal.

Definition msPerSecond : Z := 1000.
Definition msPerMinute : Z := 60000.
Definition msPerHour : Z := 3600000.
Definition msPerDay : Z := 86400000.

(** A valid [Date], seen through its local-time getters: full year, month
    index (0 = January), day of the month and milliseconds since local
    midnight. The time value of ECMAScript is recovered by [getTime]. *)
Record Date : Type := mkDate
  { dYear : Z; dMonth : Z; dDate : Z; dTime : Z }.

Definition isLeapYear (y : Z) : bool :=
  ((y mod 4 =? 0) && negb (y mod 100 =? 0)) || (y mod 400 =? 0).

Definition daysInMonth (y m : Z) : Z :=
  match m with
  | 1 => if isLeapYear y then 29 else 28
  | 3 | 5 | 8 | 10 => 30
  | _ => 31
  end.

(** Days of the year before the first of month [m]. *)
Definition daysBeforeMonth (y m : Z) : Z :=
  match m with
  | 0 => 0 | 1 => 31
  | 2 => 59 | 3 => 90 | 4 => 120 | 5 => 151 | 6 => 181 | 7 => 212
  | 8 => 243 | 9 => 273 | 10 => 304 | _ => 334
  end + (if isLeapYear y && (2 <=? m) then 1 else 0).

(** ECMAScript [DayFromYear]: day number of January 1st of [y]. *)
Definition dayFromYear (y : Z) : Z :=
  365 * (y - 1970) + (y - 1969) / 4 - (y - 1901) / 100 + (y - 1601) / 400.

Definition dayNumber (y m d : Z) : Z :=
  dayFromYear y + daysBeforeMonth y m + d - 1.

Definition dayOf (d : Date) : Z := dayNumber (dYear d) (dMonth d) (dDate d).

Definition getTime (d : Date) : Z := dayOf d * msPerDay + dTime d.

Definition getFullYear (d : Date) : Z := dYear d.
Definition getYear (d : Date) : Z := dYear d.
Definition getMonth (d : Date) : Z := dMonth d.
Definition getDate (d : Date) : Z := dDate d.
Definition getHours (d : Date) : Z := dTime d / msPerHour.
Definition getMinutes (d : Date) : Z := (dTime d / msPerMinute) mod 60.
Definition getSeconds (d : Date) : Z := (dTime d / msPerSecond) mod 60.
Definition getMilliseconds (d : Date) : Z := dTime d mod msPerSecond.

(** ECMAScript [WeekDay]: 0 = Sunday; day number 0 was a Thursday. *)
Definition getDay (d : Date) : Z := (dayOf d + 4) mod 7.

Definition validDate (d : Date) : bool :=
  (0 <=? dMonth d) && (dMonth d <? 12) &&
  (1 <=? dDate d) && (dDate d <=? daysInMonth (dYear d) (dMonth d)) &&
  (0 <=? dTime d) && (dTime d <? msPerDay).

Definition Valid (d : Date) : Prop :=
  0 <= dMonth d < 12 /\
  1 <= dDate d <= daysInMonth (dYear d) (dMonth d) /\
  0 <= dTime d < msPerDay.

Definition withTime (d : Date) (t : Z) : Date :=
  mkDate (dYear d) (dMonth d) (dDate d) t.

Definition nextDay (d : Date) : Date :=
  if dDate d <? daysInMonth (dYear d) (dMonth d)
  then mkDate (dYear d) (dMonth d) (dDate d + 1) (dTime d)
  else if dMonth d <? 11
       then mkDate (dYear d) (dMonth d + 1) 1 (dTime d)
       else mkDate (dYear d + 1) 0 1 (dTime d).

Definition prevDay (d : Date) : Date :=
  if 1 <? dDate d
  then mkDate (dYear d) (dMonth d) (dDate d - 1) (dTime d)
  else if 0 <? dMonth d
       then mkDate (dYear d) (dMonth d - 1)
                   (daysInMonth (dYear d) (dMonth d - 1)) (dTime d)
       else mkDate (dYear d - 1) 11 31 (dTime d).

(** The date [n] days away, at the same time of day. *)
Definition addDays (d : Date) (n : Z) : Date :=
  match n with
  | Z0 => d
  | Zpos p => Pos.iter nextDay d p
  | Zneg p => Pos.iter prevDay d p
  end.

Definition subDays (d : Date) (n : Z) : Date := addDays d (- n).

(** ECMAScript [MakeDay] followed by [MakeDate] at midnight: month and day
    arguments out of range carry into the year and the following (or
    preceding) months. *)
Definition makeDay (y m dt : Z) : Date :=
  addDays (mkDate (y + m / 12) (m mod 12) 1 0) (dt - 1).

(** [MakeDate (day, time)]: a time of day out of range carries into days. *)
Definition makeDate (day : Date) (time : Z) : Date :=
  withTime (addDays day (time / msPerDay)) (time mod msPerDay).

(** [new Date(year, monthIndex, day)]: years 0 to 99 denote 1900 to 1999. *)
Definition newDateYMD (y m dt : Z) : Date :=
  makeDay (if (0 <=? y) && (y <=? 99) then 1900 + y else y) m dt.

(** [Date.prototype.setMonth], [setFullYear], [setDate]. *)
Definition setMonth (d : Date) (m : Z) : Date :=
  withTime (makeDay (dYear d) m (dDate d)) (dTime d).

Definition setFullYear (d : Date) (y : Z) : Date :=
  withTime (makeDay y (dMonth d) (dDate d)) (dTime d).

Definition setDate (d : Date) (dt : Z) : Date :=
  withTime (makeDay (dYear d) (dMonth d) dt) (dTime d).

(** date-fns [setHours] and [setMinutes] (the other fields are kept). *)
Definition setHours (d : Date) (h : Z) : Date :=
  makeDate (withTime d 0) (h * msPerHour + dTime d mod msPerHour).

Definition setMinutes (d : Date) (mi : Z) : Date :=
  makeDate (withTime d 0)
           (getHours d * msPerHour + mi * msPerMinute + dTime d mod msPerMinute).

Definition isBefore (a b : Date) : bool := getTime a <? getTime b.
Definition isAfter (a b : Date) : bool := getTime b <? getTime a.

Definition startOfDay (d : Date) : Date := withTime d 0.
Definition endOfDay (d : Date) : Date := withTime d (msPerDay - 1).

Definition isSameDay (a b : Date) : bool :=
  getTime (startOfDay a) =? getTime (startOfDay b).

Definition startOfMonth (d : Date) : Date := mkDate (dYear d) (dMonth d) 1 0.
Definition endOfMonth (d : Date) : Date :=
  mkDate (dYear d) (dMonth d) (daysInMonth (dYear d) (dMonth d)) (msPerDay - 1).

Definition startOfYear (d : Date) : Date := mkDate (dYear d) 0 1 0.
Definition endOfYear (d : Date) : Date := mkDate (dYear d) 11 31 (msPerDay - 1).

(** Months since year 0: the calendar month a date is displayed in. *)
Definition monthIndex (d : Date) : Z := dYear d * 12 + dMonth d.

(** date-fns [addMonths]: the same day of the month [n] months away, or the
    last day of that month when it is shorter; the time of day is kept. *)
Definition addMonths (d : Date) (n : Z) : Date :=
  let mi := monthIndex d + n in
  let y := mi / 12 in
  let m := mi mod 12 in
  mkDate y m (Z.min (dDate d) (daysInMonth y m)) (dTime d).

Definition subMonths (d : Date) (n : Z) : Date := addMonths d (- n).
Definition addYears (d : Date) (n : Z) : Date := addMonths d (n * 12).
Definition subYears (d : Date) (n : Z) : Date := addYears d (- n).

(** date-fns [startOfWeek] and [endOfWeek] with [weekStartsOn: 0]. *)
Definition startOfWeek (d : Date) : Date :=
  let day := getDay d in
  let diff := (if day <? 0 then 7 else 0) + day - 0 in
  withTime (setDate d (getDate d - diff)) 0.

Definition endOfWeek (d : Date) : Date :=
  let day := getDay d in
  let diff := (if day <? 0 then -7 else 0) + 6 - (day - 0) in
  withTime (setDate d (getDate d + diff)) (msPerDay - 1).

(** Day number of the first day of the month [mi] months after January of
    year 0. *)
Definition monthStartDay (mi : Z) : Z := dayNumber (mi / 12) (mi mod 12) 1.

(** The calendar day of [d] at [h] hours [mi] minutes sharp. *)
Definition atTime (d : Date) (h mi : Z) : Date :=
  withTime d (h * msPerHour + mi * msPerMinute).

Definition validOpt (d : option Date) : bool :=
  match d with Some m => validDate m | None => true end.

(** date-fns [isWithinInterval (date, { start, end })] for an interval
    whose start is not after its end (as at every call here). *)
Definition isWithinInterval (date start finish : Date) : bool :=
  (getTime start <=? getTime date) && (getTime date <=? getTime finish).

(** ** Text *)

(** [Number.prototype.toString] on an integer. *)
Definition toString (n : Z) : string := NilZero.string_of_int (Z.to_int n).

Fixpoint repeatChar (c : ascii) (n : nat) : string :=
  match n with
  | O => EmptyString
  | S k => String c (repeatChar c k)
  end.

(** [String.prototype.padStart] with a one-character filler. *)
Definition padStart (s : string) (len : nat) (c : ascii) : string :=
  (repeatChar c (len - String.length s) ++ s)%string.

Definition pad2 (n : Z) : string := padStart (toString n) 2 "0"%char.

(** ** Numbers

    A JavaScript number is a double. The time loop meets whole numbers and,
    through a fractional [timeInterval], fractions: the model has the binary
    fractions [mant / 2 ^ expo]. A whole number is taken as it is. On a
    fraction of at most 13 binary places with a numerator below [2 ^ 40] the
    sums, comparisons, [Math.floor (a / 60)], [a % 60] and [toString] below
    are exactly those of the doubles (no sum is rounded, and the decimal
    expansion has at most 15 digits); [representable] says so, and the time
    loop gives up on every other fraction. *)

Record number : Type := mkNumber { mant : Z; expo : nat }.

Definition whole (n : Z) : number := mkNumber n 0.
Coercion whole : Z >-> number.

(** Lowest terms: an odd numerator, or no binary place. *)
Fixpoint reduce (m : Z) (e : nat) : number :=
  match e with
  | O => mkNumber m O
  | S e' => if Z.even m then reduce (m / 2) e' else mkNumber m e
  end.

Definition scale (a : number) : Z := 2 ^ Z.of_nat (expo a).

Definition representable (a : number) : bool :=
  let r := reduce (mant a) (expo a) in
  match expo r with
  | O => true
  | S _ => (expo r <=? 13)%nat && (Z.abs (mant r) <? 2 ^ 40)
  end.

(** [a + b] *)
Definition numPlus (a b : number) : number :=
  reduce (mant a * scale b + mant b * scale a) (expo a + expo b).

(** [a <= b] *)
Definition numLeb (a b : number) : bool :=
  mant a * scale b <=? mant b * scale a.

(** [Math.floor (a / d)] for a whole [d] above 0. *)
Definition numFloorDiv (a : number) (d : Z) : Z := mant a / (d * scale a).

(** [a % d] for a whole [d]: the sign is that of [a]. *)
Definition numRem (a : number) (d : Z) : number :=
  mkNumber (Z.rem (mant a) (d * scale a)) (expo a).

(** [Number.prototype.toString]: the digits of a whole number; for a
    fraction the decimal expansion, which has as many decimal places as the
    fraction in lowest terms has binary ones. *)
Definition numToString (a : number) : string :=
  let r := reduce (mant a) (expo a) in
  match expo r with
  | O => toString (mant r)
  | S _ =>
      let m := Z.abs (mant r) in
      let sign := if mant r <? 0 then "-"%string else EmptyString in
      let fraction := toString ((m mod scale r) * 5 ^ Z.of_nat (expo r)) in
      (sign ++ toString (m / scale r) ++ "." ++
       padStart fraction (expo r) "0"%char)%string
  end.

(** date-fns [format (d, 'HH:mm')]. *)
Definition formatHHmm (d : Date) : string :=
  (pad2 (getHours d) ++ ":" ++ pad2 (getMinutes d))%string.

(** [String.prototype.split] on one separator character. *)
Fixpoint splitOn (sep : ascii) (s : string) : list string :=
  match s with
  | EmptyString => [EmptyString]
  | String c rest =>
      if Ascii.eqb c sep then EmptyString :: splitOn sep rest
      else match splitOn sep rest with
           | [] => [String c EmptyString]
           | w :: ws => String c w :: ws
           end
  end.

(** [Number] on a string of decimal digits (the empty string is 0). Other
    strings, for most of which JavaScript answers NaN, are outside the model:
    [None]. *)
Definition Number (s : string) : option Z :=
  option_map Z.of_uint (NilEmpty.uint_of_string s).

(** [const [h, m] = timeString.split(':').map(Number)] *)
Definition parseTime (timeString : string) : option (Z * Z) :=
  match map Number (splitOn ":"%char timeString) with
  | Some h :: Some m :: _ => Some (h, m)
  | _ => None
  end.

End Cal.

(* ================================================================== *)
(** * Events: setter calls and notifications of one handler *)
(* ================================================================== *)

Module Ev.

Section Act.
Context {S N : Type}.

(** The pending state of the event and the callbacks made so far. *)
Definition Act : Type := S * list N -> S * list N.

Definition update (f : S -> S) : Act := fun p => (f (fst p), snd p).
Definition emit (n : N) : Act := fun p => (fst p, snd p ++ [n]).
Definition skip : Act := fun p => p.
Definition andThen (a b : Act) : Act := fun p => b (a p).
Definition when (c : bool) (a : Act) : Act := if c then a else skip.
Definition run (a : Act) (s : S) : S * list N := a (s, []).
End Act.

Arguments Act : clear implicits.

End Ev.

Notation "a ;; b" := (Ev.andThen a b) (at level 61, right associativity).

(** A prop of type [Date | null] that may be left out. Every [Date] of the
    model is a valid instant ([isValid] holds of it); the Invalid Date object
    is outside the model. *)
Inductive DateProp : Type :=
| Undefined
| Null
| Given (d : Cal.Date).

(** [prop || null] *)
Definition orNull (p : DateProp) : option Cal.Date :=
  match p with
  | Given d => Some d
  | _ => None
  end.

Definition validProp (p : DateProp) : bool :=
  match p with Given d => Cal.validDate d | _ => true end.

Inductive CalendarView : Type := days | months | years.

Record YearRange : Type := mkYearRange { rangeStart : Z; rangeEnd : Z }.

(** [Math.floor(year / 12) * 12] and the eleven years after it. *)
Definition getYearRange (date : Cal.Date) : YearRange :=
  let year := Cal.getYear date in
  let start := year / 12 * 12 in
  mkYearRange start (start + 11).

(* ================================================================== *)
(** * The single-date overlay ([DateOverlay]) *)
(* ================================================================== *)

Module Basic.
Import Cal Ev.

Record Props : Type := mkProps
  { value : DateProp;
    defaultValue : option Date;      (* left out: [new Date()] *)
    minDate : option Date;
    maxDate : option Date;
    showTimeSelect : bool;
    timeInterval : number;
    minTime : string;
    maxTime : string }.

Record State : Type := mkState
  { currentDate : Date;
    selectedDate : option Date;
    view : CalendarView;
    yearRange : YearRange;
    selectedTime : option string }.

Record TimeOption : Type := mkTimeOption
  { optValue : string; displayText : string }.

(** What a computation of the overlay comes to. *)
Inductive Outcome (A : Type) : Type :=
| Done (a : A)
| OutOfFuel            (* the loop was still running *)
| Unmodelled.          (* a time string that is not digits ':' digits, or a
                          fraction that is not [representable] *)
Arguments Done {A} a.
Arguments OutOfFuel {A}.
Arguments Unmodelled {A}.

Definition normalizedMinDate (p : Props) : option Date :=
  option_map startOfDay (minDate p).
Definition normalizedMaxDate (p : Props) : option Date :=
  option_map endOfDay (maxDate p).

(** [normalized && isBefore (date, normalized)] *)
Definition beforeMin (lo : option Date) (date : Date) : bool :=
  match lo with Some m => isBefore date m | None => false end.
Definition afterMax (hi : option Date) (date : Date) : bool :=
  match hi with Some m => isAfter date m | None => false end.

Definition isDateInRange (p : Props) (date : Date) : bool :=
  if beforeMin (normalizedMinDate p) date then false
  else if afterMax (normalizedMaxDate p) date then false
  else true.

(** The initial [currentDate]; [now] is [new Date()] at mount. *)
Definition initCurrentDate (p : Props) (now : Date) : Date :=
  match value p with
  | Given v => v
  | _ =>
      let defaultValue := match defaultValue p with Some d => d | None => now end in
      if beforeMin (normalizedMinDate p) defaultValue
      then match normalizedMinDate p with Some m => m | None => defaultValue end
      else if afterMax (normalizedMaxDate p) defaultValue
      then match normalizedMaxDate p with Some m => m | None => defaultValue end
      else defaultValue
  end.

Definition init (p : Props) (now : Date) : State :=
  let currentDate := initCurrentDate p now in
  {| currentDate := currentDate;
     selectedDate := orNull (value p);
     view := days;
     yearRange := getYearRange currentDate;
     selectedTime := option_map formatHHmm (orNull (value p)) |}.

(** ** Setters *)

Definition Notice : Type := option Date.     (* [onChange (date | null)] *)
Definition Handler : Type := Act State Notice.

Definition setSelectedDate (v : option Date) : Handler :=
  update (fun s => mkState (currentDate s) v (view s) (yearRange s) (selectedTime s)).
Definition setCurrentDate (v : Date) : Handler :=
  update (fun s => mkState v (selectedDate s) (view s) (yearRange s) (selectedTime s)).
Definition setView (v : CalendarView) : Handler :=
  update (fun s => mkState (currentDate s) (selectedDate s) v (yearRange s) (selectedTime s)).
Definition setSelectedTime (v : option string) : Handler :=
  update (fun s => mkState (currentDate s) (selectedDate s) (view s) (yearRange s) v).
Definition onChange (v : option Date) : Handler := emit v.

(** ** The effect on [value] *)

Definition syncValue (v : DateProp) : Handler :=
  match v with
  | Given d =>
      setSelectedDate (Some d) ;;
      setCurrentDate d ;;
      setSelectedTime (Some (formatHHmm d))
  | Null =>
      setSelectedDate None ;;
      setSelectedTime None
  | Undefined => skip
  end.

(** ** Handlers; each reads the state [s] of the render it was created in *)

Definition handleDateSelect (p : Props) (s : State) (date : Date) : Handler :=
  if isDateInRange p date then
    setSelectedDate (Some date) ;;
    setCurrentDate date ;;
    when (negb (showTimeSelect p)) (onChange (Some date))
  else skip.

Definition combineDateAndTime (date : Date) (timeString : string) : option Date :=
  match parseTime timeString with
  | Some (hours, minutes) => Some (setMinutes (setHours date hours) minutes)
  | None => None
  end.

Definition handleTimeSelect (p : Props) (s : State) (timeString : string)
  : option Handler :=
  match selectedDate s with
  | Some d =>
      match combineDateAndTime d timeString with
      | Some dateTime =>
          Some (setSelectedTime (Some timeString) ;; onChange (Some dateTime))
      | None => None
      end
  | None => Some (setSelectedTime (Some timeString))
  end.

(** [today] is [new Date()] at the click. *)
Definition handleSelectToday (p : Props) (s : State) (today : Date) : Handler :=
  if isDateInRange p today then
    setSelectedDate (Some today) ;;
    setCurrentDate today ;;
    setView days ;;
    when (negb (showTimeSelect p)) (onChange (Some today))
  else skip.

(** ** Time options *)

Definition timeOption (i : number) : TimeOption :=
  let hours := numFloorDiv i 60 in
  let minutes := numRem i 60 in
  let period := if 12 <=? hours then "pm"%string else "am"%string in
  let hours12 := if Z.rem hours 12 =? 0 then 12 else Z.rem hours 12 in
  let formatted :=
    (toString hours12 ++ ":" ++ padStart (numToString minutes) 2 "0"%char ++ " " ++
     period)%string in
  {| optValue := (padStart (toString hours) 2 "0"%char ++ ":" ++
                  padStart (numToString minutes) 2 "0"%char)%string;
     displayText := formatted |}.

(** [for (let i = startMinutes; i <= endMinutes; i += timeInterval)] *)
Fixpoint timeLoop (fuel : nat) (i endMinutes timeInterval : number)
         (options : list TimeOption) : Outcome (list TimeOption) :=
  if negb (representable i) then Unmodelled
  else if numLeb i endMinutes then
    match fuel with
    | O => OutOfFuel
    | S fuel' =>
        timeLoop fuel' (numPlus i timeInterval) endMinutes timeInterval
                 (options ++ [timeOption i])
    end
  else Done options.

Definition generateTimeOptions (fuel : nat) (minTime maxTime : string)
           (timeInterval : number) : Outcome (list TimeOption) :=
  match parseTime minTime, parseTime maxTime with
  | Some (minHours, minMinutes), Some (maxHours, maxMinutes) =>
      let startMinutes := minHours * 60 + minMinutes in
      let endMinutes := maxHours * 60 + maxMinutes in
      timeLoop fuel (whole startMinutes) (whole endMinutes) timeInterval []
  | _, _ => Unmodelled
  end.

(** ** Events of the overlay, in sequence *)

Inductive Event : Type :=
| DateSelect (date : Date)
| TimeSelect (timeString : string)
| SelectToday (today : Date)
| ValueChange (v : DateProp).

Definition handle (p : Props) (s : State) (e : Event) : option Handler :=
  match e with
  | DateSelect date => Some (handleDateSelect p s date)
  | TimeSelect t => handleTimeSelect p s t
  | SelectToday today => Some (handleSelectToday p s today)
  | ValueChange v => Some (syncValue v)
  end.

(** The state after the events and every [onChange] call they made. *)
Fixpoint runEvents (p : Props) (s : State) (es : list Event)
  : option (State * list Notice) :=
  match es with
  | [] => Some (s, [])
  | e :: es' =>
      match handle p s e with
      | Some h =>
          let (s1, out1) := run h s in
          match runEvents p s1 es' with
          | Some (s2, out2) => Some (s2, out1 ++ out2)
          | None => None
          end
      | None => None
      end
  end.

(** The value the consumer holds: the argument of the last [onChange]. *)
Definition committed (out : list Notice) : option Notice := last (map Some out) None.

(** Iterations of the loop of [generateTimeOptions] from [i]. *)
Definition iterations (i endMinutes timeInterval : Z) : nat :=
  if endMinutes <? i then O else S (Z.to_nat ((endMinutes - i) / timeInterval)).

(** The floored minimum is not after the raised maximum. *)
Definition boundsOrdered (p : Props) : bool :=
  match normalizedMinDate p, normalizedMaxDate p with
  | Some lo, Some hi => negb (isAfter lo hi)
  | _, _ => true
  end.

(** ** Navigation, views, month and year cells *)

Definition updateCurrentDate (f : Date -> Date) : Handler :=
  update (fun s => mkState (f (currentDate s)) (selectedDate s) (view s)
                           (yearRange s) (selectedTime s)).
Definition setYearRange (f : YearRange -> YearRange) : Handler :=
  update (fun s => mkState (currentDate s) (selectedDate s) (view s)
                           (f (yearRange s)) (selectedTime s)).

Definition canNavigateToPrevMonth (p : Props) (s : State) : bool :=
  match normalizedMinDate p with
  | None => true
  | Some m =>
      let prevMonth := subMonths (currentDate s) 1 in
      negb (isBefore (endOfMonth prevMonth) m)
  end.

Definition canNavigateToNextMonth (p : Props) (s : State) : bool :=
  match normalizedMaxDate p with
  | None => true
  | Some m =>
      let nextMonth := addMonths (currentDate s) 1 in
      negb (isAfter (startOfMonth nextMonth) m)
  end.

Definition canNavigateToPrevYearRange (p : Props) (s : State) : bool :=
  match normalizedMinDate p with
  | None => true
  | Some m => getYear m <=? rangeStart (yearRange s) - 12
  end.

Definition canNavigateToNextYearRange (p : Props) (s : State) : bool :=
  match normalizedMaxDate p with
  | None => true
  | Some m => rangeEnd (yearRange s) + 1 <=? getYear m
  end.

Definition nextMonth (p : Props) (s : State) : Handler :=
  when (canNavigateToNextMonth p s) (updateCurrentDate (fun date => addMonths date 1)).

Definition prevMonth (p : Props) (s : State) : Handler :=
  when (canNavigateToPrevMonth p s) (updateCurrentDate (fun date => subMonths date 1)).

Definition nextYearRange (p : Props) (s : State) : Handler :=
  when (canNavigateToNextYearRange p s)
       (setYearRange (fun r =>
          let newStart := rangeEnd r + 1 in
          mkYearRange newStart (newStart + 11))).

Definition prevYearRange (p : Props) (s : State) : Handler :=
  when (canNavigateToPrevYearRange p s)
       (setYearRange (fun r =>
          let newStart := rangeStart r - 12 in
          mkYearRange newStart (newStart + 11))).

Definition toggleViewMonths : Handler := setView months.

Definition toggleViewYears (s : State) : Handler :=
  setYearRange (fun _ => getYearRange (currentDate s)) ;;
  setView years.

Definition isYearSelectable (p : Props) (year : Z) : bool :=
  if match normalizedMinDate p with Some m => year <? getYear m | None => false end
  then false
  else if match normalizedMaxDate p with Some m => getYear m <? year | None => false end
  then false
  else true.

(** "Ensure the new date is within min/max range" *)
Definition clampToBounds (p : Props) (d : Date) : Date :=
  if beforeMin (normalizedMinDate p) d
  then match normalizedMinDate p with Some m => m | None => d end
  else if afterMax (normalizedMaxDate p) d
  then match normalizedMaxDate p with Some m => m | None => d end
  else d.

Definition handleYearSelect (p : Props) (s : State) (year : Z) : Handler :=
  if isYearSelectable p year then
    let newDate := clampToBounds p (setFullYear (currentDate s) year) in
    setCurrentDate newDate ;;
    setView days
  else skip.

Definition handleMonthSelect (p : Props) (s : State) (monthIndex : Z) : Handler :=
  let newDate := clampToBounds p (setMonth (currentDate s) monthIndex) in
  setCurrentDate newDate ;;
  setView days.

(** The arrows of the header, by view. *)
Definition handlePrev (p : Props) (s : State) : Handler :=
  match view s with
  | days => prevMonth p s
  | months =>
      let prevYear := getYear (currentDate s) - 1 in
      if match normalizedMinDate p with
         | None => true
         | Some m => getYear m <=? prevYear
         end
      then setCurrentDate (newDateYMD prevYear 0 1)
      else skip
  | years => prevYearRange p s
  end.

Definition handleNext (p : Props) (s : State) : Handler :=
  match view s with
  | days => nextMonth p s
  | months =>
      let nextYear := getYear (currentDate s) + 1 in
      if match normalizedMaxDate p with
         | None => true
         | Some m => nextYear <=? getYear m
         end
      then setCurrentDate (newDateYMD nextYear 0 1)
      else skip
  | years => nextYearRange p s
  end.

Definition isTodayDisabled (p : Props) (today : Date) : bool :=
  negb (isDateInRange p today).

(** Clicks on the calendar. *)
Inductive Click : Type :=
| ClickPrev
| ClickNext
| ClickMonths                    (* the month button of the header *)
| ClickYears                     (* the year button of the header *)
| ClickMonth (monthIndex : Z)
| ClickYear (year : Z)
| ClickDay (date : Date)
| ClickToday (today : Date).

Definition click (p : Props) (s : State) (c : Click) : Handler :=
  match c with
  | ClickPrev => handlePrev p s
  | ClickNext => handleNext p s
  | ClickMonths => toggleViewMonths
  | ClickYears => toggleViewYears s
  | ClickMonth monthIndex => handleMonthSelect p s monthIndex
  | ClickYear year => handleYearSelect p s year
  | ClickDay date => handleDateSelect p s date
  | ClickToday today => handleSelectToday p s today
  end.

Definition afterClick (p : Props) (s : State) (c : Click) : State :=
  fst (run (click p s c) s).

Fixpoint afterClicks (p : Props) (s : State) (cs : list Click) : State :=
  match cs with
  | [] => s
  | c :: cs' => afterClicks p (afterClick p s c) cs'
  end.

(** The year window is one of the twelve-year pages. *)
Definition alignedWindow (r : YearRange) : Prop :=
  rangeStart r mod 12 = 0 /\ rangeEnd r = rangeStart r + 11.

(** The displayed date is a date of the calendar, in a selectable year. *)
Definition yearShown (p : Props) (s : State) : Prop :=
  Valid (currentDate s) /\ isYearSelectable p (getYear (currentDate s)) = true.

(** Month cells carry the indices 0 to 11, day cells and today are dates of
    the calendar, and [new Date (y, 0, 1)] reads the years 0 to 99 as 1900
    to 1999: the year arrows of the months view are followed from the year
    101 on. *)
Definition clickGuard (s : State) (c : Click) : bool :=
  match c with
  | ClickPrev | ClickNext =>
      match view s with
      | months => 101 <=? getYear (currentDate s)
      | _ => true
      end
  | ClickMonth monthIndex => (0 <=? monthIndex) && (monthIndex <? 12)
  | ClickDay date => validDate date
  | ClickToday today => validDate today
  | _ => true
  end.

Fixpoint clicksGuard (p : Props) (s : State) (cs : list Click) : bool :=
  match cs with
  | [] => true
  | c :: cs' => clickGuard s c && clicksGuard p (afterClick p s c) cs'
  end.

(** Is the time string an hour up to 23 and a minute up to 59? *)
Definition isTimeOfDay (timeString : string) : bool :=
  match parseTime timeString with
  | Some (h, mi) => (h <=? 23) && (mi <=? 59)
  | None => false
  end.

(** Events of the user (the [value] prop does not change), with dates of
    the calendar and times of the day. *)
Definition eventGuard (e : Event) : bool :=
  match e with
  | ValueChange _ => false
  | DateSelect date => validDate date
  | SelectToday today => validDate today
  | TimeSelect t => isTimeOfDay t
  end.

Definition inBoundsOrNull (p : Props) (d : option Date) : bool :=
  match d with
  | Some d' => validDate d' && isDateInRange p d'
  | None => true
  end.

End Basic.

(* ================================================================== *)
(** * The range overlay ([DateRangeOverlay]) *)
(* ================================================================== *)

Module Range.
Import Cal Ev.

Inductive SelectionPhase : Type := phaseStart | phaseEnd.
Inductive Side : Type := left | right.
Inductive Direction : Type := prev | next.

(** [SpecialView = 'left' | 'right' | null] is [option Side]. *)

Record Props : Type := mkProps
  { startDate : DateProp;
    endDate : DateProp;
    defaultStartDate : option Date;  (* left out: [new Date()] *)
    minDate : option Date;
    maxDate : option Date;
    isDisabled : bool }.

Record State : Type := mkState
  { leftCurrentDate : Date;
    rightCurrentDate : Date;
    selectedStartDate : option Date;
    selectedEndDate : option Date;
    hoverDate : option Date;
    selectionPhase : SelectionPhase;
    leftView : CalendarView;
    rightView : CalendarView;
    leftYearRange : YearRange;
    rightYearRange : YearRange;
    activeSpecialView : option Side }.

(** [onChange ({ startDate, endDate })] *)
Record DateRange : Type := mkRange
  { rStart : option Date; rEnd : option Date }.

Definition normalizeDate (date : option Date) (isEnd : bool) : option Date :=
  match date with
  | None => None
  | Some d => Some (if isEnd then endOfDay d else startOfDay d)
  end.

Definition normalizedMinDate (p : Props) : option Date := normalizeDate (minDate p) false.
Definition normalizedMaxDate (p : Props) : option Date := normalizeDate (maxDate p) true.

Definition beforeMin (lo : option Date) (date : Date) : bool :=
  match lo with Some m => isBefore date m | None => false end.
Definition afterMax (hi : option Date) (date : Date) : bool :=
  match hi with Some m => isAfter date m | None => false end.

(** The clamp of the month and year handlers:
    [if (min && isBefore (d, min)) d = new Date (min);
     else if (max && isAfter (d, max)) d = new Date (max)]. *)
Definition clampToBounds (p : Props) (d : Date) : Date :=
  if beforeMin (normalizedMinDate p) d
  then match normalizedMinDate p with Some m => m | None => d end
  else if afterMax (normalizedMaxDate p) d
  then match normalizedMaxDate p with Some m => m | None => d end
  else d.

Definition initLeftDate (p : Props) (now : Date) : Date :=
  match startDate p with
  | Given d => d
  | _ =>
      let defaultStartDate :=
        match defaultStartDate p with Some d => d | None => now end in
      clampToBounds p defaultStartDate
  end.

Definition isTruthy (d : DateProp) : bool :=
  match d with Given _ => true | _ => false end.

Definition init (p : Props) (now : Date) : State :=
  let initLeftDate := initLeftDate p now in
  {| leftCurrentDate := initLeftDate;
     rightCurrentDate := addMonths initLeftDate 1;
     selectedStartDate := orNull (startDate p);
     selectedEndDate := orNull (endDate p);
     hoverDate := None;
     selectionPhase := if isTruthy (startDate p) then phaseEnd else phaseStart;
     leftView := days;
     rightView := days;
     leftYearRange := getYearRange initLeftDate;
     rightYearRange := getYearRange (addMonths initLeftDate 1);
     activeSpecialView := None |}.

(** ** Setters *)

(** The pending state of an event, and whether [setLeftCurrentDate] was
    called: every call passes a fresh [Date] object, so the effect that
    depends on [leftCurrentDate] then runs after the render. *)
Record Pending : Type := mkPending { pending : State; leftSet : bool }.

Definition Handler : Type := Act Pending DateRange.

Definition onState (f : State -> State) : Handler :=
  update (fun q => mkPending (f (pending q)) (leftSet q)).

Definition setLeftCurrentDate (f : Date -> Date) : Handler :=
  update (fun q =>
    let s := pending q in
    mkPending
      (mkState (f (leftCurrentDate s)) (rightCurrentDate s) (selectedStartDate s)
               (selectedEndDate s) (hoverDate s) (selectionPhase s) (leftView s)
               (rightView s) (leftYearRange s) (rightYearRange s)
               (activeSpecialView s))
      true).

Definition setRightCurrentDate (f : Date -> Date) : Handler :=
  onState (fun s =>
    mkState (leftCurrentDate s) (f (rightCurrentDate s)) (selectedStartDate s)
            (selectedEndDate s) (hoverDate s) (selectionPhase s) (leftView s)
            (rightView s) (leftYearRange s) (rightYearRange s)
            (activeSpecialView s)).

Definition setSelectedStartDate (v : option Date) : Handler :=
  onState (fun s =>
    mkState (leftCurrentDate s) (rightCurrentDate s) v
            (selectedEndDate s) (hoverDate s) (selectionPhase s) (leftView s)
            (rightView s) (leftYearRange s) (rightYearRange s)
            (activeSpecialView s)).

Definition setSelectedEndDate (v : option Date) : Handler :=
  onState (fun s =>
    mkState (leftCurrentDate s) (rightCurrentDate s) (selectedStartDate s)
            v (hoverDate s) (selectionPhase s) (leftView s)
            (rightView s) (leftYearRange s) (rightYearRange s)
            (activeSpecialView s)).

Definition setHoverDate (v : option Date) : Handler :=
  onState (fun s =>
    mkState (leftCurrentDate s) (rightCurrentDate s) (selectedStartDate s)
            (selectedEndDate s) v (selectionPhase s) (leftView s)
            (rightView s) (leftYearRange s) (rightYearRange s)
            (activeSpecialView s)).

Definition setSelectionPhase (v : SelectionPhase) : Handler :=
  onState (fun s =>
    mkState (leftCurrentDate s) (rightCurrentDate s) (selectedStartDate s)
            (selectedEndDate s) (hoverDate s) v (leftView s)
            (rightView s) (leftYearRange s) (rightYearRange s)
            (activeSpecialView s)).

Definition setLeftView (v : CalendarView) : Handler :=
  onState (fun s =>
    mkState (leftCurrentDate s) (rightCurrentDate s) (selectedStartDate s)
            (selectedEndDate s) (hoverDate s) (selectionPhase s) v
            (rightView s) (leftYearRange s) (rightYearRange s)
            (activeSpecialView s)).

Definition setRightView (v : CalendarView) : Handler :=
  onState (fun s =>
    mkState (leftCurrentDate s) (rightCurrentDate s) (selectedStartDate s)
            (selectedEndDate s) (hoverDate s) (selectionPhase s) (leftView s)
            v (leftYearRange s) (rightYearRange s)
            (activeSpecialView s)).

Definition setLeftYearRange (f : YearRange -> YearRange) : Handler :=
  onState (fun s =>
    mkState (leftCurrentDate s) (rightCurrentDate s) (selectedStartDate s)
            (selectedEndDate s) (hoverDate s) (selectionPhase s) (leftView s)
            (rightView s) (f (leftYearRange s)) (rightYearRange s)
            (activeSpecialView s)).

Definition setRightYearRange (f : YearRange -> YearRange) : Handler :=
  onState (fun s =>
    mkState (leftCurrentDate s) (rightCurrentDate s) (selectedStartDate s)
            (selectedEndDate s) (hoverDate s) (selectionPhase s) (leftView s)
            (rightView s) (leftYearRange s) (f (rightYearRange s))
            (activeSpecialView s)).

Definition setActiveSpecialView (v : option Side) : Handler :=
  onState (fun s =>
    mkState (leftCurrentDate s) (rightCurrentDate s) (selectedStartDate s)
            (selectedEndDate s) (hoverDate s) (selectionPhase s) (leftView s)
            (rightView s) (leftYearRange s) (rightYearRange s) v).

Definition onChange (startDate endDate : option Date) : Handler :=
  emit (mkRange startDate endDate).

Definition const {A : Type} (a : A) : A -> A := fun _ => a.

(** ** Navigation constraints *)

Record CanNavigate : Type := mkCanNavigate
  { canPrevMonth : bool; canNextMonth : bool;
    canPrevYear : bool; canNextYear : bool;
    canPrevYearRange : bool; canNextYearRange : bool }.

Definition canNavigate (p : Props) (s : State) : CanNavigate :=
  let prevMonth := subMonths (leftCurrentDate s) 1 in
  let nextMonth := addMonths (rightCurrentDate s) 1 in
  let prevYear := subYears (leftCurrentDate s) 1 in
  let nextYear := addYears (rightCurrentDate s) 1 in
  {| canPrevMonth := negb (beforeMin (normalizedMinDate p) (endOfMonth prevMonth));
     canNextMonth := negb (afterMax (normalizedMaxDate p) (startOfMonth nextMonth));
     canPrevYear := negb (beforeMin (normalizedMinDate p) prevYear);
     canNextYear := negb (afterMax (normalizedMaxDate p) nextYear);
     canPrevYearRange :=
       match normalizedMinDate p with
       | None => true
       | Some m => getYear m <=? rangeStart (leftYearRange s) - 12
       end;
     canNextYearRange :=
       match normalizedMaxDate p with
       | None => true
       | Some m => rangeEnd (leftYearRange s) + 12 <=? getYear m
       end |}.

Definition isDateInRange (p : Props) (date : Date) : bool :=
  if beforeMin (normalizedMinDate p) date then false
  else if afterMax (normalizedMaxDate p) date then false
  else true.

Definition isYearSelectable (p : Props) (year : Z) : bool :=
  if match normalizedMinDate p with Some m => year <? getYear m | None => false end
  then false
  else if match normalizedMaxDate p with Some m => getYear m <? year | None => false end
  then false
  else true.

(** ** Handlers; each reads the state [s] of the render it was created in *)

Definition shiftRange (k : Z) (range : YearRange) : YearRange :=
  mkYearRange (rangeStart range + k) (rangeEnd range + k).

Definition handleNavigation (p : Props) (s : State) (direction : Direction)
  : Handler :=
  let can := canNavigate p s in
  match activeSpecialView s with
  | Some side =>
      let view := match side with left => leftView s | right => rightView s end in
      match view with
      | months =>
          match direction with
          | prev =>
              when (canPrevYear can)
                match side with
                | left => setLeftCurrentDate (fun date => subYears date 1)
                | right => setRightCurrentDate (fun date => subYears date 1)
                end
          | next =>
              when (canNextYear can)
                match side with
                | left => setLeftCurrentDate (fun date => addYears date 1)
                | right => setRightCurrentDate (fun date => addYears date 1)
                end
          end
      | years =>
          match direction with
          | prev =>
              when (canPrevYearRange can)
                match side with
                | left => setLeftYearRange (shiftRange (-12))
                | right => setRightYearRange (shiftRange (-12))
                end
          | next =>
              when (canNextYearRange can)
                match side with
                | left => setLeftYearRange (shiftRange 12)
                | right => setRightYearRange (shiftRange 12)
                end
          end
      | days => skip
      end
  | None =>
      match direction with
      | prev => when (canPrevMonth can) (setLeftCurrentDate (fun date => subMonths date 1))
      | next => when (canNextMonth can) (setLeftCurrentDate (fun date => addMonths date 1))
      end
  end.

Definition toggleView (s : State) (side : Side) : Handler :=
  match side with
  | left =>
      match leftView s with
      | days => setLeftView months ;; setActiveSpecialView (Some left)
      | months =>
          setLeftYearRange (const (getYearRange (leftCurrentDate s))) ;;
          setLeftView years ;;
          setActiveSpecialView (Some left)
      | years => setLeftView days ;; setActiveSpecialView None
      end
  | right =>
      match rightView s with
      | days => setRightView months ;; setActiveSpecialView (Some right)
      | months =>
          setRightYearRange (const (getYearRange (rightCurrentDate s))) ;;
          setRightView years ;;
          setActiveSpecialView (Some right)
      | years => setRightView days ;; setActiveSpecialView None
      end
  end.

Definition handleDateSelect (p : Props) (s : State) (date : Date) : Handler :=
  if negb (isDateInRange p date) then skip
  else
    match selectionPhase s with
    | phaseStart =>
        setSelectedStartDate (Some date) ;;
        setSelectedEndDate None ;;
        setSelectionPhase phaseEnd ;;
        onChange (Some date) None
    | phaseEnd =>
        match selectedStartDate s with
        | Some start =>
            if isBefore date start then
              setSelectedStartDate (Some date) ;;
              onChange (Some date) (selectedEndDate s) ;;
              setSelectionPhase phaseStart
            else
              setSelectedEndDate (Some date) ;;
              onChange (Some start) (Some date) ;;
              setSelectionPhase phaseStart
        | None =>
            setSelectedStartDate (Some date) ;;
            setSelectionPhase phaseEnd ;;
            onChange (Some date) None
        end
    end.

Definition handleDateHover (s : State) (date : Date) : Handler :=
  match selectionPhase s, selectedStartDate s with
  | phaseEnd, Some _ => setHoverDate (Some date)
  | _, _ => skip
  end.

Definition handleMonthSelect (p : Props) (s : State) (side : Side)
           (monthIndex : Z) : Handler :=
  match side with
  | left =>
      let newDate := clampToBounds p (setMonth (leftCurrentDate s) monthIndex) in
      setLeftCurrentDate (const newDate) ;;
      setLeftView days ;;
      setActiveSpecialView None
  | right =>
      let newDate := clampToBounds p (setMonth (rightCurrentDate s) monthIndex) in
      when (isBefore
              (newDateYMD (getFullYear newDate) (getMonth newDate) 1)
              (newDateYMD (getFullYear (leftCurrentDate s))
                          (getMonth (leftCurrentDate s) + 1) 1))
           (setLeftCurrentDate
              (const (newDateYMD (getFullYear newDate) (getMonth newDate - 1) 1))) ;;
      setRightCurrentDate (const newDate) ;;
      setRightView days ;;
      setActiveSpecialView None
  end.

Definition handleYearSelect (p : Props) (s : State) (side : Side) (year : Z)
  : Handler :=
  if negb (isYearSelectable p year) then skip
  else
    match side with
    | left =>
        let newDate := clampToBounds p (setFullYear (leftCurrentDate s) year) in
        setLeftCurrentDate (const newDate) ;;
        setLeftView days ;;
        setActiveSpecialView None
    | right =>
        if match selectedStartDate s with
           | Some start => year <? getYear start
           | None => false
           end
        then skip
        else
          let newDate := clampToBounds p (setFullYear (rightCurrentDate s) year) in
          let newDate :=
            if isBefore newDate (addMonths (leftCurrentDate s) 1)
            then addMonths (leftCurrentDate s) 1
            else newDate in
          setRightCurrentDate (const newDate) ;;
          setRightView days ;;
          setActiveSpecialView None
    end.

(** ** Effects *)

(** The effects on the props [startDate] and [endDate]. *)
Definition syncStartDate (v : DateProp) : Handler :=
  match v with
  | Given d => setSelectedStartDate (Some d) ;; setSelectionPhase phaseEnd
  | Null => setSelectedStartDate None ;; setSelectionPhase phaseStart
  | Undefined => skip
  end.

Definition syncEndDate (v : DateProp) : Handler :=
  match v with
  | Given d => setSelectedEndDate (Some d)
  | Null => setSelectedEndDate None
  | Undefined => skip
  end.

(** "Keep right calendar in sync with left": the effect on
    [leftCurrentDate], run after the render when the handler set it. *)
Definition syncRight (q : Pending) : State :=
  let s := pending q in
  if leftSet q
  then mkState (leftCurrentDate s) (addMonths (leftCurrentDate s) 1)
               (selectedStartDate s) (selectedEndDate s) (hoverDate s)
               (selectionPhase s) (leftView s) (rightView s)
               (leftYearRange s) (rightYearRange s) (activeSpecialView s)
  else s.

(** ** The machine *)

Inductive Op : Type :=
| Navigate (direction : Direction)
| ToggleView (side : Side)
| DateSelect (date : Date)
| DateHover (date : Date)
| MouseLeave
| MonthSelect (side : Side) (monthIndex : Z)
| YearSelect (side : Side) (year : Z)
| StartDateChange (v : DateProp)
| EndDateChange (v : DateProp).

Definition handler (p : Props) (s : State) (op : Op) : Handler :=
  match op with
  | Navigate direction => handleNavigation p s direction
  | ToggleView side => toggleView s side
  | DateSelect date => handleDateSelect p s date
  | DateHover date => handleDateHover s date
  | MouseLeave => setHoverDate None
  | MonthSelect side monthIndex => handleMonthSelect p s side monthIndex
  | YearSelect side year => handleYearSelect p s side year
  | StartDateChange v => syncStartDate v
  | EndDateChange v => syncEndDate v
  end.

(** One event: the handler, the render, the effects. *)
Definition dispatch (p : Props) (s : State) (op : Op) : State * list DateRange :=
  let r := run (handler p s op) (mkPending s false) in
  (syncRight (fst r), snd r).

Definition step (p : Props) (s : State) (op : Op) : State := fst (dispatch p s op).

Fixpoint runOps (p : Props) (s : State) (ops : list Op) : State :=
  match ops with
  | [] => s
  | op :: ops' => runOps p (step p s op) ops'
  end.

(** ** Predicates on states and runs *)

(** Neither calendar shows months or years. *)
Definition bothInDays (s : State) : bool :=
  match leftView s, rightView s with
  | days, days => true
  | _, _ => false
  end.

(** Both calendars stand on dates of the calendar. *)
Definition calendarsValid (s : State) : Prop :=
  Valid (leftCurrentDate s) /\ Valid (rightCurrentDate s).

(** The right calendar shows a later month than the left one. *)
Definition rightAhead (s : State) : Prop :=
  monthIndex (leftCurrentDate s) + 1 <= monthIndex (rightCurrentDate s).

(** The arrows act on the year of the right calendar (its months view). *)
Definition isRightYearNavigation (s : State) (op : Op) : bool :=
  match op, activeSpecialView s, rightView s with
  | Navigate _, Some right, months => true
  | _, _, _ => false
  end.

(** The operation moves the right calendar and leaves the left one. *)
Definition movesRightAlone (s : State) (op : Op) : bool :=
  match op with
  | MonthSelect right _ | YearSelect right _ => true
  | _ => isRightYearNavigation s op
  end.

Definition fourDigitYear (d : Date) : bool := 100 <=? dYear d.

Definition fourDigitBound (d : option Date) : bool :=
  match d with Some m => fourDigitYear m | None => true end.

(** Month cells carry the indices 0 to 11, and [new Date (y, m, 1)] reads the
    years 0 to 99 as 1900 to 1999: the right-side month selection is
    followed for later years only. *)
Definition monthSelectGuard (p : Props) (s : State) (monthIndex : Z) : bool :=
  (0 <=? monthIndex) && (monthIndex <? 12) &&
  fourDigitYear (leftCurrentDate s) && fourDigitYear (rightCurrentDate s) &&
  fourDigitBound (minDate p) && fourDigitBound (maxDate p).

Definition admits (p : Props) (s : State) (op : Op) : bool :=
  match op with
  | Navigate prev => negb (isRightYearNavigation s op)
  | MonthSelect right monthIndex => monthSelectGuard p s monthIndex
  | _ => true
  end.

Fixpoint admissible (p : Props) (s : State) (ops : list Op) : bool :=
  match ops with
  | [] => true
  | op :: ops' => admits p s op && admissible p (step p s op) ops'
  end.

Fixpoint leftDriven (p : Props) (s : State) (ops : list Op) : bool :=
  match ops with
  | [] => true
  | op :: ops' => negb (movesRightAlone s op) && leftDriven p (step p s op) ops'
  end.

Definition validProps (p : Props) : bool :=
  validProp (startDate p) && validOpt (defaultStartDate p) &&
  validOpt (minDate p) && validOpt (maxDate p).

(** [newDate] of a right-side month selection: the date of the right
    calendar with its month set ([setMonth]: past the last day of that month
    the days run over into the next one), brought within the bounds. *)
Definition monthSelectDate (p : Props) (s : State) (monthIndex : Z) : Date :=
  clampToBounds p (setMonth (rightCurrentDate s) monthIndex).

(** What a right-side year selection asks for. *)
Definition requestedYear (p : Props) (s : State) (year : Z) : Date :=
  clampToBounds p (setFullYear (rightCurrentDate s) year).

Definition yearRejected (p : Props) (s : State) (year : Z) : bool :=
  negb (isYearSelectable p year) ||
  match selectedStartDate s with
  | Some start => year <? getYear start
  | None => false
  end.

(** ** The selected range and the cells of the grids *)

Definition isInSelectedRange (s : State) (day : Date) : bool :=
  match selectedStartDate s with
  | None => false
  | Some start =>
      match selectedEndDate s with
      | Some finish =>
          let normalizedDay := startOfDay day in
          let normalizedStart := startOfDay start in
          let normalizedEnd := startOfDay finish in
          (isAfter normalizedDay normalizedStart || isSameDay day start) &&
          (isBefore normalizedDay normalizedEnd || isSameDay day finish)
      | None =>
          match selectionPhase s, hoverDate s with
          | phaseEnd, Some hover =>
              if isBefore hover start
              then isWithinInterval day hover start
              else isWithinInterval day start hover
          | _, _ => isSameDay day start
          end
      end
  end.

Definition isRight (side : Side) : bool :=
  match side with right => true | left => false end.

Definition sameSide (a b : Side) : bool :=
  match a, b with
  | left, left | right, right => true
  | _, _ => false
  end.

Definition currentOf (s : State) (side : Side) : Date :=
  match side with left => leftCurrentDate s | right => rightCurrentDate s end.

Definition viewOf (s : State) (side : Side) : CalendarView :=
  match side with left => leftView s | right => rightView s end.

Definition yearRangeOf (s : State) (side : Side) : YearRange :=
  match side with left => leftYearRange s | right => rightYearRange s end.

(** The calendars on screen: both, or the one in its months or years view. *)
Definition rendered (s : State) (side : Side) : bool :=
  match activeSpecialView s with
  | None => true
  | Some a => sameSide a side
  end.

(** [isDisabled] of a button of [MonthsGrid]. *)
Definition monthCellDisabled (p : Props) (s : State) (side : Side) (index : Z) : bool :=
  let currentYear := getYear (currentOf s side) in
  let leftYear := getYear (leftCurrentDate s) in
  let leftMonth := getMonth (leftCurrentDate s) in
  let monthDate := newDateYMD currentYear index 1 in
  let isMonthDisabled := isDisabled p || negb (isDateInRange p monthDate) in
  let isBeforeLeftCalendar :=
    isRight side &&
    (((currentYear =? leftYear) && (index <=? leftMonth)) || (currentYear <? leftYear)) in
  isMonthDisabled || isBeforeLeftCalendar.

(** [isDisabled] of a button of [YearsGrid]. *)
Definition yearCellDisabled (p : Props) (s : State) (side : Side) (year : Z) : bool :=
  let leftYear := getYear (leftCurrentDate s) in
  let isYearDisabled := isDisabled p || negb (isYearSelectable p year) in
  let isBeforeLeftYear := isRight side && (year <? leftYear) in
  isYearDisabled || isBeforeLeftYear.

(** [isDisabled] of a button of [DaysGrid]. *)
Definition dayCellDisabled (p : Props) (s : State) (side : Side) (day : Date) : bool :=
  let isDateDisabled := isDisabled p || negb (isDateInRange p day) in
  let isDisabledInRightCalendar :=
    isRight side &&
    match selectionPhase s, selectedStartDate s with
    | phaseEnd, Some start => isBefore day start
    | _, _ => false
    end in
  isDateDisabled || isDisabledInRightCalendar.

(** [eachDayOfInterval] over the month on display: its days at midnight. *)
Definition isDayCell (s : State) (side : Side) (day : Date) : bool :=
  let currentDate := currentOf s side in
  (dYear day =? dYear currentDate) && (dMonth day =? dMonth currentDate) &&
  (1 <=? dDate day) && (dDate day <=? daysInMonth (dYear currentDate) (dMonth currentDate)) &&
  (dTime day =? 0).

Definition isDays (v : CalendarView) : bool :=
  match v with days => true | _ => false end.
Definition isMonths (v : CalendarView) : bool :=
  match v with months => true | _ => false end.
Definition isYears (v : CalendarView) : bool :=
  match v with years => true | _ => false end.

Definition dayClickable (p : Props) (s : State) (side : Side) (day : Date) : bool :=
  rendered s side && isDays (viewOf s side) && isDayCell s side day &&
  negb (dayCellDisabled p s side day).

(** What the screen lets the user do: a control is there when its calendar
    is rendered in the view that shows it, and is not disabled. *)
Definition available (p : Props) (s : State) (op : Op) : bool :=
  match op with
  | Navigate _ => negb (isDisabled p)
  | ToggleView side => rendered s side && negb (isDisabled p)
  | DateSelect date => dayClickable p s left date || dayClickable p s right date
  | DateHover date =>
      (rendered s left && isDays (leftView s) && isDayCell s left date) ||
      (rendered s right && isDays (rightView s) && isDayCell s right date)
  | MouseLeave => true
  | MonthSelect side index =>
      rendered s side && isMonths (viewOf s side) &&
      (0 <=? index) && (index <? 12) &&
      negb (monthCellDisabled p s side index)
  | YearSelect side year =>
      rendered s side && isYears (viewOf s side) &&
      (rangeStart (yearRangeOf s side) <=? year) &&
      (year <? rangeStart (yearRangeOf s side) + 12) &&
      negb (yearCellDisabled p s side year)
  | StartDateChange _ => true
  | EndDateChange _ => true
  end.

Fixpoint availableRun (p : Props) (s : State) (ops : list Op) : bool :=
  match ops with
  | [] => true
  | op :: ops' => available p s op && availableRun p (step p s op) ops'
  end.

(** At most one calendar is out of its days view, and the marker names it. *)
Definition viewsConsistent (s : State) : Prop :=
  match activeSpecialView s with
  | None => leftView s = days /\ rightView s = days
  | Some left => leftView s <> days /\ rightView s = days
  | Some right => rightView s <> days /\ leftView s = days
  end.

(** In phase 'end' there is an anchor. *)
Definition anchored (s : State) : Prop :=
  selectionPhase s = phaseEnd -> selectedStartDate s <> None.

(** The selected end, when there is one, is not before the selected start. *)
Definition rangeOrdered (s : State) : Prop :=
  forall a b, selectedStartDate s = Some a -> selectedEndDate s = Some b ->
              getTime a <= getTime b.

Definition orderedRange (r : DateRange) : Prop :=
  forall a b, rStart r = Some a -> rEnd r = Some b -> getTime a <= getTime b.

Definition isPropChange (op : Op) : bool :=
  match op with
  | StartDateChange _ | EndDateChange _ => true
  | _ => false
  end.

(** Every [onChange] of a run, in order. *)
Fixpoint notices (p : Props) (s : State) (ops : list Op) : list DateRange :=
  match ops with
  | [] => []
  | op :: ops' => snd (dispatch p s op) ++ notices p (step p s op) ops'
  end.

End Range.

(* ================================================================== *)
(** * Range presets ([DateRangePresets]) *)
(* ================================================================== *)

Module Presets.
Import Cal.

Record Preset : Type := mkPreset
  { label : string;
    getRange : Date -> Range.DateRange }.    (* the argument is [new Date()] *)

Definition range (startDate endDate : Date) : Range.DateRange :=
  Range.mkRange (Some startDate) (Some endDate).

Definition today : Preset :=
  mkPreset "Today" (fun now =>
    let today := now in
    range (startOfDay today) (endOfDay today)).

Definition yesterday : Preset :=
  mkPreset "Yesterday" (fun now =>
    let yesterday := subDays now 1 in
    range (startOfDay yesterday) (endOfDay yesterday)).

Definition thisWeek : Preset :=
  mkPreset "This Week" (fun now =>
    let today := now in
    range (startOfWeek today) (endOfWeek today)).

Definition lastWeek : Preset :=
  mkPreset "Last Week" (fun now =>
    let lastWeekStart := subDays (startOfWeek now) 7 in
    let lastWeekEnd := subDays (endOfWeek now) 7 in
    range lastWeekStart lastWeekEnd).

Definition last7Days : Preset :=
  mkPreset "Last 7 Days" (fun now =>
    let today := now in
    range (startOfDay (subDays today 6)) (endOfDay today)).

Definition thisMonth : Preset :=
  mkPreset "This Month" (fun now =>
    let today := now in
    range (startOfMonth today) (endOfMonth today)).

Definition last3Months : Preset :=
  mkPreset "Last 3 Months" (fun now =>
    let today := now in
    range (startOfDay (subMonths today 3)) (endOfDay today)).

Definition thisYear : Preset :=
  mkPreset "This Year" (fun now =>
    let today := now in
    range (startOfYear today) (endOfYear today)).

Definition lastYear : Preset :=
  mkPreset "Last Year" (fun now =>
    let lastYear := subYears now 1 in
    range (startOfYear lastYear) (endOfYear lastYear)).

Definition presets : list Preset :=
  [today; yesterday; thisWeek; lastWeek; last7Days; thisMonth; last3Months;
   thisYear; lastYear].

(** [handlePresetClick]: the range goes to [onSelectRange]; the highlighted
    label is the component's only state. *)
Definition handlePresetClick (preset : Preset) (now : Date)
  : Range.DateRange * option string :=
  (getRange preset now, Some (label preset)).

(** A range from the start of one day to the end of a day not before it. *)
Definition wholeDays (r : Range.DateRange) : Prop :=
  exists a b, r = Range.mkRange (Some a) (Some b) /\
              Valid a /\ Valid b /\ dTime a = 0 /\ dTime b = msPerDay - 1 /\
              dayOf a <= dayOf b.

(** The day numbers of the first and the last day of a range. *)
Definition daysOf (r : Range.DateRange) : option (Z * Z) :=
  match Range.rStart r, Range.rEnd r with
  | Some a, Some b => Some (dayOf a, dayOf b)
  | _, _ => None
  end.

End Presets.

(* ================================================================== *)
(** * The range input ([DateRangePickerInput]) *)
(* ================================================================== *)

Module RangeInput.
Import Cal Ev.

Record Props : Type := mkProps
  { startDate : DateProp;
    endDate : DateProp;
    dateFormat : string;
    isDisabled : bool;
    showPresets : bool }.

Record State : Type := mkState
  { inputValue : string;
    isOpen : bool;
    localStartDate : option Date;
    localEndDate : option Date }.

(** Calls to the consumer's callbacks. *)
Inductive Notice : Type :=
| OnChange (range : Range.DateRange)
| ClearInput.

Definition Handler : Type := Act State Notice.

Section Format.

(** date-fns [format (date, pattern)]. *)
Variable format : Date -> string -> string.

Definition rangeText (p : Props) (s e : option Date) : string :=
  match s with
  | Some s' =>
      match e with
      | Some e' => (format s' (dateFormat p) ++ " - " ++ format e' (dateFormat p))%string
      | None => format s' (dateFormat p)
      end
  | None => EmptyString
  end.

Definition init (p : Props) : State :=
  {| inputValue := rangeText p (orNull (startDate p)) (orNull (endDate p));
     isOpen := false;
     localStartDate := orNull (startDate p);
     localEndDate := orNull (endDate p) |}.

Definition setInputValue (v : string) : Handler :=
  update (fun s => mkState v (isOpen s) (localStartDate s) (localEndDate s)).
Definition setIsOpen (f : bool -> bool) : Handler :=
  update (fun s => mkState (inputValue s) (f (isOpen s)) (localStartDate s) (localEndDate s)).
Definition setLocalStartDate (v : option Date) : Handler :=
  update (fun s => mkState (inputValue s) (isOpen s) v (localEndDate s)).
Definition setLocalEndDate (v : option Date) : Handler :=
  update (fun s => mkState (inputValue s) (isOpen s) (localStartDate s) v).
Definition onChange (startDate endDate : option Date) : Handler :=
  emit (OnChange (Range.mkRange startDate endDate)).
Definition clearInput : Handler := emit ClearInput.

(** "If only start date is selected, revert to last committed (props)
    values" *)
Definition revertIfOnlyStart (p : Props) (s : State) : Handler :=
  match localStartDate s, localEndDate s with
  | Some _, None =>
      setLocalStartDate (orNull (startDate p)) ;;
      setLocalEndDate (orNull (endDate p))
  | _, _ => skip
  end.

(** The [useOutsideClick] handler, for a click outside the input too. *)
Definition handleOutsideClick (p : Props) (s : State) : Handler :=
  revertIfOnlyStart p s ;;
  setIsOpen (fun _ => false).

Inductive Key : Type := Enter | Escape | OtherKey.

Definition handleKeyDown (key : Key) : Handler :=
  match key with
  | Enter => setIsOpen (fun _ => false)
  | Escape => setIsOpen (fun _ => false)
  | OtherKey => skip
  end.

Definition handleDateChange (dates : Range.DateRange) : Handler :=
  setLocalStartDate (Range.rStart dates) ;;
  setLocalEndDate (Range.rEnd dates).

Definition togglePicker (p : Props) : Handler :=
  when (negb (isDisabled p)) (setIsOpen negb).

Definition handleApply (p : Props) (s : State) : Handler :=
  onChange (localStartDate s) (localEndDate s) ;;
  setInputValue (rangeText p (localStartDate s) (localEndDate s)) ;;
  setIsOpen (fun _ => false).

Definition handleCancel (p : Props) (s : State) : Handler :=
  revertIfOnlyStart p s ;;
  setIsOpen (fun _ => false).

Definition handleClear : Handler :=
  setLocalStartDate None ;;
  setLocalEndDate None ;;
  onChange None None ;;
  setInputValue EmptyString ;;
  clearInput.

(** The effect on [isOpen]: opening re-seeds the buffer from the props. *)
Definition syncOnOpen (p : Props) (before after : State) : State :=
  if negb (isOpen before) && isOpen after
  then mkState (inputValue after) (isOpen after)
               (orNull (startDate p)) (orNull (endDate p))
  else after.

Inductive Op : Type :=
| Toggle
| KeyDown (key : Key)
| OutsideClick
| OverlayChange (dates : Range.DateRange)   (* [onChange] of the overlay *)
| PresetClick (preset : Presets.Preset) (now : Date)
| Apply
| Cancel
| Clear.

Definition handler (p : Props) (s : State) (op : Op) : Handler :=
  match op with
  | Toggle => togglePicker p
  | KeyDown key => handleKeyDown key
  | OutsideClick => handleOutsideClick p s
  | OverlayChange dates => handleDateChange dates
  | PresetClick preset now =>
      handleDateChange (fst (Presets.handlePresetClick preset now))
  | Apply => handleApply p s
  | Cancel => handleCancel p s
  | Clear => handleClear
  end.

Definition dispatch (p : Props) (s : State) (op : Op) : State * list Notice :=
  let r := run (handler p s op) s in
  (syncOnOpen p s (fst r), snd r).

(** A consumer that stores what [onChange] gives it and passes it back as
    [startDate] and [endDate] (the README's [onChange={setRange}]). *)
Definition toProp (d : option Date) : DateProp :=
  match d with Some d' => Given d' | None => Null end.

Definition consume (p : Props) (n : Notice) : Props :=
  match n with
  | OnChange r =>
      mkProps (toProp (Range.rStart r)) (toProp (Range.rEnd r))
              (dateFormat p) (isDisabled p) (showPresets p)
  | ClearInput => p
  end.

(** The effect on the props: the text follows the committed pair. *)
Definition syncInputValue (p : Props) (s : State) : State :=
  match startDate p with
  | Given sd =>
      mkState (rangeText p (Some sd) (orNull (endDate p)))
              (isOpen s) (localStartDate s) (localEndDate s)
  | Null =>
      match endDate p with
      | Null => mkState EmptyString (isOpen s) (localStartDate s) (localEndDate s)
      | _ => s
      end
  | Undefined => s
  end.

(** One event with the storing consumer: the new props, the new state and
    the callbacks made. *)
Definition controlled (p : Props) (s : State) (op : Op)
  : Props * State * list Notice :=
  let r := dispatch p s op in
  let p' := fold_left consume (snd r) p in
  (p', (match snd r with [] => fst r | _ => syncInputValue p' (fst r) end), snd r).

End Format.

(** The events that call no callback of the consumer. *)
Definition quiet (op : Op) : bool :=
  match op with
  | Apply | Clear => false
  | _ => true
  end.

(** A run of events with the storing consumer. *)
Fixpoint runControlled (format : Date -> string -> string)
         (p : Props) (s : State) (ops : list Op) : Props * State * list Notice :=
  match ops with
  | [] => (p, s, [])
  | op :: rest =>
      let r := controlled format p s op in
      let r' := runControlled format (fst (fst r)) (snd (fst r)) rest in
      (fst r', snd r ++ snd r')
  end.

(** The text of the input is the text of the committed pair. *)
Definition textShowsProps (format : Date -> string -> string)
           (p : Props) (s : State) : Prop :=
  inputValue s = rangeText format p (orNull (startDate p)) (orNull (endDate p)).

End RangeInput.

(* ================================================================== *)
(** * The date input ([DatePickerInput]) *)
(* ================================================================== *)

Module DateInput.
Import Cal Ev.

Record Props : Type := mkProps
  { overlay : Basic.Props;       (* [value], the bounds and the rest, passed on *)
    dateFormat : string;
    isDisabled : bool;
    showClearIcon : bool }.

Definition value (p : Props) : DateProp := Basic.value (overlay p).
Definition minDate (p : Props) : option Date := Basic.minDate (overlay p).
Definition maxDate (p : Props) : option Date := Basic.maxDate (overlay p).

Record State : Type := mkState
  { inputValue : string;
    isOpen : bool }.

Inductive Notice : Type :=
| OnChange (date : option Date)
| ClearInput.

Inductive Key : Type := Enter | Escape | OtherKey.

Definition Handler : Type := Act State Notice.

Section Format.

(** date-fns [format (date, pattern)] and [parse (text, pattern, reference)];
    [None] is the Invalid Date. *)
Variable format : Date -> string -> string.
Variable parse : string -> string -> Date -> option Date.

(** [value && isValid (value) ? format (value, dateFormat) : ''] *)
Definition valueText (p : Props) : string :=
  match value p with
  | Given v => format v (dateFormat p)
  | _ => EmptyString
  end.

Definition init (p : Props) : State :=
  {| inputValue := valueText p; isOpen := false |}.

Definition setInputValue (v : string) : Handler :=
  update (fun s => mkState v (isOpen s)).
Definition setIsOpen (f : bool -> bool) : Handler :=
  update (fun s => mkState (inputValue s) (f (isOpen s))).
Definition onChange (date : option Date) : Handler := emit (OnChange date).
Definition clearInput : Handler := emit ClearInput.

Definition isEmpty (s : string) : bool :=
  match s with EmptyString => true | _ => false end.

(** [(!minDate || parsedDate >= minDate) && (!maxDate || parsedDate <= maxDate)] *)
Definition inRange (p : Props) (parsedDate : Date) : bool :=
  match minDate p with
  | None => true
  | Some m => getTime m <=? getTime parsedDate
  end &&
  match maxDate p with
  | None => true
  | Some m => getTime parsedDate <=? getTime m
  end.

(** [now] is the [new Date()] handed to [parse]. *)
Definition handleKeyDown (p : Props) (s : State) (key : Key) (now : Date) : Handler :=
  match key with
  | Enter =>
      if isEmpty (inputValue s) then skip
      else
        match parse (inputValue s) (dateFormat p) now with
        | Some parsedDate =>
            if inRange p parsedDate
            then onChange (Some parsedDate) ;; setIsOpen (fun _ => false)
            else setInputValue (valueText p)
        | None => setInputValue (valueText p)
        end
  | Escape => setIsOpen (fun _ => false)
  | OtherKey => skip
  end.

(** [onChange] of the overlay. *)
Definition handleDateChange (p : Props) (date : option Date) : Handler :=
  onChange date ;;
  setInputValue (match date with
                 | Some d => format d (dateFormat p)
                 | None => EmptyString
                 end) ;;
  setIsOpen (fun _ => false).

Definition togglePicker (p : Props) : Handler :=
  when (negb (isDisabled p)) (setIsOpen negb).

(** The clear icon is there when [inputValue && !isDisabled && showClearIcon]. *)
Definition clearShown (p : Props) (s : State) : bool :=
  negb (isEmpty (inputValue s)) && negb (isDisabled p) && showClearIcon p.

Definition handleClearClick : Handler :=
  onChange None ;; clearInput ;; setInputValue EmptyString.

(** The effect on [value] and [dateFormat]. *)
Definition syncInputValue (p : Props) (s : State) : State :=
  match value p with
  | Given v => mkState (format v (dateFormat p)) (isOpen s)
  | Null => mkState EmptyString (isOpen s)
  | Undefined => s
  end.

End Format.

End DateInput.

(* ================================================================== *)
(** * The time options as the specification words them *)
(* ================================================================== *)

(** Every time of day from the first to the last inclusive, stepping by the
    interval; each with a zero-padded 24-hour key "HH:mm" and a 12-hour
    label "h:mm am/pm" in which the hours 0 and 12 both read 12. Times are
    minutes since midnight. *)
Module TimeSpec.

Definition timesOfDay (first last interval : Z) : list Z :=
  if last <? first then []
  else map (fun k => first + Z.of_nat k * interval)
           (seq 0 (S (Z.to_nat ((last - first) / interval)))).

Definition digit (n : Z) : ascii := ascii_of_nat (48 + Z.to_nat n).

Definition twoDigits (n : Z) : string :=
  String (digit (n / 10)) (String (digit (n mod 10)) EmptyString).

Definition key (t : Z) : string :=
  let hour := twoDigits (t / 60) in
  let minute := twoDigits (t mod 60) in
  (hour ++ ":" ++ minute)%string.

Definition hour12 (h : Z) : Z :=
  match h with
  | 0 | 12 => 12
  | _ => if h <? 12 then h else h - 12
  end.

Definition hourText (h : Z) : string :=
  if h <? 10 then String (digit h) EmptyString else twoDigits h.

Definition label (t : Z) : string :=
  let hour := hourText (hour12 (t / 60)) in
  let minute := twoDigits (t mod 60) in
  let period := if t / 60 <? 12 then " am"%string else " pm"%string in
  (hour ++ ":" ++ minute ++ period)%string.

Definition timeOption (t : Z) : Basic.TimeOption :=
  Basic.mkTimeOption (key t) (label t).

Definition options (first last interval : Z) : list Basic.TimeOption :=
  map timeOption (timesOfDay first last interval).

Definition sameOption (a b : Basic.TimeOption) : bool :=
  String.eqb (Basic.optValue a) (Basic.optValue b) &&
  String.eqb (Basic.displayText a) (Basic.displayText b).

End TimeSpec.

(* ================================================================== *)
(** * Facts about the calendar *)
(* ================================================================== *)

Module CalFacts.
Import Cal.

Ltac zdiv := Z.quot_rem_to_equations; Z.div_mod_to_equations; lia.

Lemma mod100_mod4 y : y mod 100 = 0 -> y mod 4 = 0.
Proof. intros H. zdiv. Qed.

Lemma mod400_mod100 y : y mod 400 = 0 -> y mod 100 = 0.
Proof. intros H. zdiv. Qed.

Lemma quarter_step y :
  (y + 1 - 1969) / 4 = (y - 1969) / 4 + (if y mod 4 =? 0 then 1 else 0).
Proof. destruct (Z.eqb_spec (y mod 4) 0); zdiv. Qed.

Lemma century_step y :
  (y + 1 - 1901) / 100 = (y - 1901) / 100 + (if y mod 100 =? 0 then 1 else 0).
Proof. destruct (Z.eqb_spec (y mod 100) 0); zdiv. Qed.

Lemma quadricentury_step y :
  (y + 1 - 1601) / 400 = (y - 1601) / 400 + (if y mod 400 =? 0 then 1 else 0).
Proof. destruct (Z.eqb_spec (y mod 400) 0); zdiv. Qed.

Lemma dayFromYear_succ y :
  dayFromYear (y + 1) = dayFromYear y + (if isLeapYear y then 366 else 365).
Proof.
  unfold dayFromYear, isLeapYear.
  rewrite quarter_step, century_step, quadricentury_step.
  pose proof (mod100_mod4 y). pose proof (mod400_mod100 y).
  destruct (Z.eqb_spec (y mod 4) 0);
    destruct (Z.eqb_spec (y mod 100) 0);
    destruct (Z.eqb_spec (y mod 400) 0); cbv [andb orb negb]; lia.
Qed.

Ltac month_cases m :=
  let H := fresh "Hm" in
  assert (H : m = 0 \/ m = 1 \/ m = 2 \/ m = 3 \/ m = 4 \/ m = 5 \/ m = 6 \/
              m = 7 \/ m = 8 \/ m = 9 \/ m = 10 \/ m = 11) by lia;
  repeat (destruct H as [H | H]); subst m.

Lemma daysInMonth_bounds y m : 28 <= daysInMonth y m <= 31.
Proof.
  unfold daysInMonth.
  destruct m as [|p|p]; try lia.
  repeat (destruct p as [p|p|]; try lia); destruct (isLeapYear y); lia.
Qed.

Lemma daysBeforeMonth_succ y m :
  0 <= m < 11 ->
  daysBeforeMonth y (m + 1) = daysBeforeMonth y m + daysInMonth y m.
Proof.
  intros Hm. month_cases m; try lia;
    unfold daysBeforeMonth, daysInMonth; cbn -[isLeapYear];
    destruct (isLeapYear y); cbn; lia.
Qed.

Lemma dayFromYear_next y :
  dayFromYear (y + 1) = dayFromYear y + daysBeforeMonth y 11 + 31.
Proof.
  rewrite dayFromYear_succ. unfold daysBeforeMonth.
  destruct (isLeapYear y); cbn; lia.
Qed.

Lemma Valid_validDate d : Valid d <-> validDate d = true.
Proof.
  unfold Valid, validDate. rewrite !andb_true_iff. lia.
Qed.

Lemma dayOf_nextDay d : Valid d -> dayOf (nextDay d) = dayOf d + 1.
Proof.
  destruct d as [y m dd t]. unfold Valid, nextDay, dayOf. cbn [dYear dMonth dDate dTime].
  intros (Hm & Hd & Ht).
  destruct (Z.ltb_spec dd (daysInMonth y m)); cbn [dYear dMonth dDate dTime].
  - unfold dayNumber. lia.
  - destruct (Z.ltb_spec m 11); cbn [dYear dMonth dDate dTime]; unfold dayNumber.
    + rewrite daysBeforeMonth_succ by lia. lia.
    + assert (m = 11) by lia. subst m. rewrite dayFromYear_next.
      change (daysInMonth y 11) with 31 in *.
      change (daysBeforeMonth (y + 1) 0) with (0 + (if isLeapYear (y + 1) && false then 1 else 0)).
      rewrite andb_false_r. lia.
Qed.

Lemma Valid_nextDay d : Valid d -> Valid (nextDay d).
Proof.
  destruct d as [y m dd t]. unfold Valid, nextDay. cbn [dYear dMonth dDate dTime].
  intros (Hm & Hd & Ht).
  destruct (Z.ltb_spec dd (daysInMonth y m)); cbn [dYear dMonth dDate dTime].
  - lia.
  - destruct (Z.ltb_spec m 11); cbn [dYear dMonth dDate dTime].
    + pose proof (daysInMonth_bounds y (m + 1)). lia.
    + pose proof (daysInMonth_bounds (y + 1) 0). lia.
Qed.

Lemma dayOf_prevDay d : Valid d -> dayOf (prevDay d) = dayOf d - 1.
Proof.
  destruct d as [y m dd t]. unfold Valid, prevDay, dayOf. cbn [dYear dMonth dDate dTime].
  intros (Hm & Hd & Ht).
  destruct (Z.ltb_spec 1 dd); cbn [dYear dMonth dDate dTime].
  - unfold dayNumber. lia.
  - destruct (Z.ltb_spec 0 m); cbn [dYear dMonth dDate dTime]; unfold dayNumber.
    + pose proof (daysBeforeMonth_succ y (m - 1)) as E.
      replace (m - 1 + 1) with m in E by lia. rewrite E by lia. lia.
    + assert (m = 0) by lia. subst m.
      pose proof (dayFromYear_next (y - 1)) as E.
      replace (y - 1 + 1) with y in E by lia. rewrite E.
      change (daysBeforeMonth y 0) with (0 + (if isLeapYear y && false then 1 else 0)).
      rewrite andb_false_r. lia.
Qed.

Lemma Valid_prevDay d : Valid d -> Valid (prevDay d).
Proof.
  destruct d as [y m dd t]. unfold Valid, prevDay. cbn [dYear dMonth dDate dTime].
  intros (Hm & Hd & Ht).
  destruct (Z.ltb_spec 1 dd); cbn [dYear dMonth dDate dTime].
  - lia.
  - destruct (Z.ltb_spec 0 m); cbn [dYear dMonth dDate dTime].
    + pose proof (daysInMonth_bounds y (m - 1)). lia.
    + change (daysInMonth (y - 1) 11) with 31. lia.
Qed.

Lemma dTime_nextDay d : dTime (nextDay d) = dTime d.
Proof.
  unfold nextDay. destruct (_ <? _); [reflexivity|]. destruct (_ <? _); reflexivity.
Qed.

Lemma dTime_prevDay d : dTime (prevDay d) = dTime d.
Proof.
  unfold prevDay. destruct (_ <? _); [reflexivity|]. destruct (_ <? _); reflexivity.
Qed.

(** [addDays] moves the day number by [n] and keeps the time of day. *)
Lemma addDays_spec d n :
  Valid d ->
  Valid (addDays d n) /\ dayOf (addDays d n) = dayOf d + n /\
  dTime (addDays d n) = dTime d.
Proof.
  intros Hv. destruct n as [|p|p]; cbn [addDays].
  - split; [exact Hv | split; [lia | reflexivity]].
  - induction p using Pos.peano_ind.
    + cbn. split; [apply Valid_nextDay, Hv | split].
      * rewrite dayOf_nextDay by exact Hv. lia.
      * apply dTime_nextDay.
    + rewrite Pos.iter_succ. destruct IHp as (V & D & T).
      split; [apply Valid_nextDay, V | split].
      * rewrite dayOf_nextDay by exact V. lia.
      * rewrite dTime_nextDay. exact T.
  - induction p using Pos.peano_ind.
    + cbn. split; [apply Valid_prevDay, Hv | split].
      * rewrite dayOf_prevDay by exact Hv. lia.
      * apply dTime_prevDay.
    + rewrite Pos.iter_succ. destruct IHp as (V & D & T).
      split; [apply Valid_prevDay, V | split].
      * rewrite dayOf_prevDay by exact V. lia.
      * rewrite dTime_prevDay. exact T.
Qed.


(** ** Months *)

Lemma monthStartDay_succ mi :
  monthStartDay (mi + 1) = monthStartDay mi + daysInMonth (mi / 12) (mi mod 12).
Proof.
  unfold monthStartDay, dayNumber.
  assert (Hr : 0 <= mi mod 12 < 12) by (apply Z.mod_pos_bound; lia).
  destruct (Z.ltb_spec (mi mod 12) 11) as [Hlt | Hge].
  - replace ((mi + 1) / 12) with (mi / 12) by zdiv.
    replace ((mi + 1) mod 12) with (mi mod 12 + 1) by zdiv.
    rewrite daysBeforeMonth_succ by lia. lia.
  - replace ((mi + 1) / 12) with (mi / 12 + 1) by zdiv.
    replace ((mi + 1) mod 12) with 0 by zdiv.
    replace (mi mod 12) with 11 by lia.
    rewrite dayFromYear_next.
    change (daysInMonth (mi / 12) 11) with 31.
    change (daysBeforeMonth (mi / 12 + 1) 0)
      with (0 + (if isLeapYear (mi / 12 + 1) && false then 1 else 0)).
    rewrite andb_false_r. lia.
Qed.

Lemma monthStartDay_lt a b : a < b -> monthStartDay a < monthStartDay b.
Proof.
  intros Hab. replace b with (a + 1 + (b - a - 1)) by lia.
  assert (Hk : 0 <= b - a - 1) by lia. revert Hk.
  generalize (b - a - 1) as k. intros k Hk. pattern k.
  apply natlike_ind; [| | exact Hk].
  - rewrite Z.add_0_r, monthStartDay_succ.
    pose proof (daysInMonth_bounds (a / 12) (a mod 12)). lia.
  - intros x Hx IH.
    replace (a + 1 + Z.succ x) with (a + 1 + x + 1) by lia.
    rewrite monthStartDay_succ.
    pose proof (daysInMonth_bounds ((a + 1 + x) / 12) ((a + 1 + x) mod 12)). lia.
Qed.

Lemma monthStartDay_le a b : a <= b -> monthStartDay a <= monthStartDay b.
Proof.
  intros Hab. destruct (Z.eq_dec a b) as [-> | Hne]; [lia|].
  pose proof (monthStartDay_lt a b). lia.
Qed.

Lemma monthIndex_split d :
  Valid d -> monthIndex d / 12 = dYear d /\ monthIndex d mod 12 = dMonth d.
Proof. unfold Valid, monthIndex. intros (Hm & _). zdiv. Qed.

Lemma dayOf_in_month d :
  Valid d ->
  monthStartDay (monthIndex d) <= dayOf d < monthStartDay (monthIndex d + 1).
Proof.
  intros Hv. rewrite monthStartDay_succ. unfold monthStartDay.
  destruct (monthIndex_split d Hv) as [-> ->].
  unfold dayOf, dayNumber. destruct Hv as (_ & Hd & _). lia.
Qed.

(** The day number decides the displayed month. *)
Lemma monthIndex_unique d k :
  Valid d -> monthStartDay k <= dayOf d < monthStartDay (k + 1) ->
  monthIndex d = k.
Proof.
  intros Hv Hk. pose proof (dayOf_in_month d Hv) as Hd.
  destruct (Z.lt_trichotomy (monthIndex d) k) as [Hlt | [Heq | Hgt]]; [|exact Heq|].
  - pose proof (monthStartDay_le (monthIndex d + 1) k). lia.
  - pose proof (monthStartDay_le (k + 1) (monthIndex d)). lia.
Qed.

Lemma monthIndex_lt_getTime a b :
  Valid a -> Valid b -> monthIndex a < monthIndex b -> getTime a < getTime b.
Proof.
  intros Ha Hb Hlt.
  pose proof (dayOf_in_month a Ha). pose proof (dayOf_in_month b Hb).
  pose proof (monthStartDay_le (monthIndex a + 1) (monthIndex b)).
  destruct Ha as (_ & _ & Ta). destruct Hb as (_ & _ & Tb).
  unfold getTime, msPerDay in *. lia.
Qed.

Lemma getTime_le_monthIndex a b :
  Valid a -> Valid b -> getTime a <= getTime b -> monthIndex a <= monthIndex b.
Proof.
  intros Ha Hb Hle.
  destruct (Z.le_gt_cases (monthIndex a) (monthIndex b)) as [H | H]; [exact H|].
  pose proof (monthIndex_lt_getTime b a Hb Ha). lia.
Qed.

Lemma monthIndex_addMonths d n : monthIndex (addMonths d n) = monthIndex d + n.
Proof. unfold addMonths, monthIndex. cbn [dYear dMonth]. zdiv. Qed.

Lemma Valid_addMonths d n : Valid d -> Valid (addMonths d n).
Proof.
  unfold Valid, addMonths. cbn [dYear dMonth dDate dTime]. intros (Hm & Hd & Ht).
  pose proof (daysInMonth_bounds ((monthIndex d + n) / 12) ((monthIndex d + n) mod 12)).
  split; [apply Z.mod_pos_bound; lia | split; lia].
Qed.

Lemma Valid_withTime d t : Valid d -> 0 <= t < msPerDay -> Valid (withTime d t).
Proof. unfold Valid, withTime. cbn [dYear dMonth dDate dTime]. tauto. Qed.

Lemma Valid_monthStart y m : Valid (mkDate (y + m / 12) (m mod 12) 1 0).
Proof.
  unfold Valid. cbn [dYear dMonth dDate dTime].
  pose proof (daysInMonth_bounds (y + m / 12) (m mod 12)).
  split; [apply Z.mod_pos_bound; lia | unfold msPerDay; lia].
Qed.

Lemma makeDay_spec y m dt :
  Valid (makeDay y m dt) /\
  dayOf (makeDay y m dt) = monthStartDay (y * 12 + m) + dt - 1 /\
  dTime (makeDay y m dt) = 0.
Proof.
  unfold makeDay.
  destruct (addDays_spec _ (dt - 1) (Valid_monthStart y m)) as (V & D & T).
  split; [exact V | split; [| exact T]].
  rewrite D. unfold dayOf, monthStartDay. cbn [dYear dMonth dDate].
  replace ((y * 12 + m) / 12) with (y + m / 12) by zdiv.
  replace ((y * 12 + m) mod 12) with (m mod 12) by zdiv. lia.
Qed.

Lemma makeDay_first y m : makeDay y m 1 = mkDate (y + m / 12) (m mod 12) 1 0.
Proof. reflexivity. Qed.

Lemma monthIndex_makeDay_first y m : monthIndex (makeDay y m 1) = y * 12 + m.
Proof. rewrite makeDay_first. unfold monthIndex. cbn [dYear dMonth]. zdiv. Qed.

(** A day of the month up to 31 lands in the month asked for or, past its
    last day, in the next one. *)
Lemma monthIndex_makeDay y m dt :
  1 <= dt <= 31 ->
  y * 12 + m <= monthIndex (makeDay y m dt) <= y * 12 + m + 1 /\
  (dt <= daysInMonth ((y * 12 + m) / 12) ((y * 12 + m) mod 12) ->
   monthIndex (makeDay y m dt) = y * 12 + m).
Proof.
  intros Hdt. destruct (makeDay_spec y m dt) as (V & D & _).
  set (mi := y * 12 + m) in *.
  pose proof (monthStartDay_succ mi) as S1.
  pose proof (monthStartDay_succ (mi + 1)) as S2.
  pose proof (daysInMonth_bounds (mi / 12) (mi mod 12)).
  pose proof (daysInMonth_bounds ((mi + 1) / 12) ((mi + 1) mod 12)).
  split.
  - destruct (Z.le_gt_cases (daysInMonth (mi / 12) (mi mod 12)) (dt - 1)).
    + rewrite (monthIndex_unique _ (mi + 1) V); [lia|].
      replace (mi + 1 + 1) with (mi + 1 + 1) by lia. lia.
    + rewrite (monthIndex_unique _ mi V); lia.
  - intros Hle. apply (monthIndex_unique _ mi V). lia.
Qed.

Lemma Valid_setMonth d m : Valid d -> Valid (setMonth d m).
Proof.
  intros Hv. unfold setMonth. apply Valid_withTime; [apply makeDay_spec | apply Hv].
Qed.

Lemma Valid_setFullYear d y : Valid d -> Valid (setFullYear d y).
Proof.
  intros Hv. unfold setFullYear. apply Valid_withTime; [apply makeDay_spec | apply Hv].
Qed.

Lemma monthIndex_withTime d t : monthIndex (withTime d t) = monthIndex d.
Proof. reflexivity. Qed.

Lemma dYear_of_monthIndex d : Valid d -> dYear d = monthIndex d / 12.
Proof. intros Hv. symmetry. apply monthIndex_split, Hv. Qed.

(** [setMonth] with a month of the year stays in the year. *)
Lemma dYear_setMonth d m :
  Valid d -> 0 <= m < 12 -> dYear (setMonth d m) = dYear d.
Proof.
  intros Hv Hm.
  pose proof (Valid_setMonth d m Hv) as Hv'.
  rewrite (dYear_of_monthIndex _ Hv'). unfold setMonth. rewrite monthIndex_withTime.
  assert (Hdt : 1 <= dDate d <= 31).
  { destruct Hv as (_ & Hd & _). pose proof (daysInMonth_bounds (dYear d) (dMonth d)). lia. }
  destruct (monthIndex_makeDay (dYear d) m (dDate d) Hdt) as (Hr & Hin).
  destruct (Z.eq_dec m 11) as [-> | Hne].
  - rewrite Hin; [zdiv|].
    replace ((dYear d * 12 + 11) mod 12) with 11 by zdiv.
    change (daysInMonth ((dYear d * 12 + 11) / 12) 11) with 31. lia.
  - zdiv.
Qed.

Lemma dYear_setFullYear d y : Valid d -> dYear (setFullYear d y) = y.
Proof.
  intros Hv.
  pose proof (Valid_setFullYear d y Hv) as Hv'.
  rewrite (dYear_of_monthIndex _ Hv'). unfold setFullYear. rewrite monthIndex_withTime.
  assert (Hdt : 1 <= dDate d <= 31).
  { destruct Hv as (_ & Hd & _). pose proof (daysInMonth_bounds (dYear d) (dMonth d)). lia. }
  destruct (monthIndex_makeDay y (dMonth d) (dDate d) Hdt) as (Hr & Hin).
  destruct Hv as (Hm & Hd & _).
  destruct (Z.eq_dec (dMonth d) 11) as [E | Hne].
  - rewrite Hin; [zdiv|]. rewrite E.
    replace ((y * 12 + 11) mod 12) with 11 by zdiv.
    change (daysInMonth ((y * 12 + 11) / 12) 11) with 31. lia.
  - zdiv.
Qed.

Lemma dayOf_month_offset d :
  Valid d -> dayOf d = monthStartDay (monthIndex d) + dDate d - 1.
Proof.
  intros Hv. unfold monthStartDay. destruct (monthIndex_split d Hv) as [-> ->].
  unfold dayOf, dayNumber. lia.
Qed.

(** A valid date is its day number and its time of day. *)
Lemma Valid_eq a b :
  Valid a -> Valid b -> dayOf a = dayOf b -> dTime a = dTime b -> a = b.
Proof.
  intros Va Vb Hd Ht.
  assert (Hmi : monthIndex a = monthIndex b).
  { apply monthIndex_unique; [exact Va |]. rewrite Hd. apply dayOf_in_month, Vb. }
  destruct (monthIndex_split a Va) as [Ya Ma].
  destruct (monthIndex_split b Vb) as [Yb Mb].
  rewrite Hmi in Ya, Ma. rewrite Yb in Ya. rewrite Mb in Ma.
  destruct a as [ya ma da ta], b as [yb mb db tb].
  unfold dayOf, dayNumber in Hd. cbn [dYear dMonth dDate dTime] in *. subst.
  f_equal. lia.
Qed.

(** [setMonth] with a month of the year: the same day of that month, or,
    past its last day, the days over in the next month. *)
Lemma setMonth_overflow d m :
  Valid d -> 0 <= m < 12 ->
  setMonth d m =
  if dDate d <=? daysInMonth (dYear d) m
  then mkDate (dYear d) m (dDate d) (dTime d)
  else mkDate (dYear d) (m + 1) (dDate d - daysInMonth (dYear d) m) (dTime d).
Proof.
  intros Hv Hm. pose proof (Valid_setMonth d m Hv) as Vr.
  destruct Hv as (Hmd & Hd & Ht).
  pose proof (daysInMonth_bounds (dYear d) (dMonth d)).
  pose proof (daysInMonth_bounds (dYear d) m) as Bm.
  destruct (makeDay_spec (dYear d) m (dDate d)) as (_ & D & _).
  assert (Dr : dayOf (setMonth d m) = monthStartDay (dYear d * 12 + m) + dDate d - 1)
    by (unfold setMonth; change (dayOf (withTime ?x ?t)) with (dayOf x); exact D).
  assert (Hsplit : (dYear d * 12 + m) / 12 = dYear d /\ (dYear d * 12 + m) mod 12 = m) by zdiv.
  destruct Hsplit as [Hq Hr].
  destruct (Z.leb_spec (dDate d) (daysInMonth (dYear d) m)) as [Hle | Hgt];
    apply Valid_eq; try exact Vr; try reflexivity.
  - unfold Valid. cbn. lia.
  - rewrite Dr. unfold dayOf, monthStartDay, dayNumber. cbn [dYear dMonth dDate].
    rewrite Hq, Hr. lia.
  - assert (m <> 11) by (intros ->; change (daysInMonth (dYear d) 11) with 31 in *; lia).
    pose proof (daysInMonth_bounds (dYear d) (m + 1)).
    unfold Valid. cbn. lia.
  - assert (m <> 11) by (intros ->; change (daysInMonth (dYear d) 11) with 31 in *; lia).
    rewrite Dr. unfold dayOf, monthStartDay, dayNumber. cbn [dYear dMonth dDate].
    rewrite Hq, Hr. rewrite daysBeforeMonth_succ by lia. lia.
Qed.

End CalFacts.

(* ================================================================== *)
(** * The single-date overlay: properties *)
(* ================================================================== *)

Module BasicFacts.
Import Cal Ev Basic CalFacts.

(** ** Time options *)

Lemma timesOfDay_empty first last interval :
  last < first -> TimeSpec.timesOfDay first last interval = [].
Proof.
  intros H. unfold TimeSpec.timesOfDay.
  destruct (Z.ltb_spec last first); [reflexivity | lia].
Qed.

Lemma map_seq_S {A : Type} (f : nat -> A) n :
  map f (seq 0 (S n)) = f O :: map (fun k => f (S k)) (seq 0 n).
Proof. cbn [seq map]. f_equal. rewrite <- seq_shift, map_map. reflexivity. Qed.

Lemma timesOfDay_cons first last interval :
  0 < interval -> first <= last ->
  TimeSpec.timesOfDay first last interval =
  first :: TimeSpec.timesOfDay (first + interval) last interval.
Proof.
  intros Hi Hle. unfold TimeSpec.timesOfDay.
  destruct (Z.ltb_spec last first); [lia|].
  rewrite map_seq_S. f_equal; [cbn; lia|].
  destruct (Z.ltb_spec last (first + interval)) as [Hlt | Hge].
  - replace ((last - first) / interval) with 0 by (symmetry; apply Z.div_small; lia).
    reflexivity.
  - assert (Hq : (last - first) / interval = (last - (first + interval)) / interval + 1).
    { replace (last - first) with (last - (first + interval) + 1 * interval) by lia.
      rewrite Z.div_add by lia. reflexivity. }
    assert (0 <= (last - (first + interval)) / interval)
      by (apply Z.div_pos; lia).
    replace (Z.to_nat ((last - first) / interval))
      with (S (Z.to_nat ((last - (first + interval)) / interval))) by lia.
    apply map_ext. intros k. lia.
Qed.

(** Whole numbers: the sums and comparisons are those of the integers. *)
Lemma representable_whole n : representable (whole n) = true.
Proof. reflexivity. Qed.

Lemma numLeb_whole a b : numLeb (whole a) (whole b) = (a <=? b).
Proof. unfold numLeb, scale, whole. cbn [mant expo]. rewrite !Z.mul_1_r. reflexivity. Qed.

Lemma numPlus_whole a b : numPlus (whole a) (whole b) = whole (a + b).
Proof.
  unfold numPlus, scale, whole. cbn [mant expo Nat.add reduce]. rewrite !Z.mul_1_r.
  reflexivity.
Qed.

Lemma timeLoop_done fuel : forall i last interval options,
  0 < interval -> (iterations i last interval <= fuel)%nat ->
  timeLoop fuel (whole i) (whole last) (whole interval) options =
  Done (options ++ map (fun t : Z => timeOption (whole t))
                       (TimeSpec.timesOfDay i last interval)).
Proof.
  induction fuel as [| fuel IH]; intros i last interval options Hi Hfuel;
    unfold iterations in Hfuel; cbn [timeLoop];
    rewrite representable_whole, numLeb_whole, ?numPlus_whole; cbn [negb].
  - destruct (Z.ltb_spec last i); [|lia].
    destruct (Z.leb_spec i last); [lia|].
    rewrite timesOfDay_empty by lia. cbn. rewrite app_nil_r. reflexivity.
  - destruct (Z.leb_spec i last) as [Hle | Hgt].
    + destruct (Z.ltb_spec last i); [lia|].
      rewrite IH; [| exact Hi |].
      * rewrite (timesOfDay_cons i) by lia. cbn [map].
        rewrite <- app_assoc. reflexivity.
      * unfold iterations. destruct (Z.ltb_spec last (i + interval)); [lia|].
        assert ((last - i) / interval = (last - (i + interval)) / interval + 1).
        { replace (last - i) with (last - (i + interval) + 1 * interval) by lia.
          rewrite Z.div_add by lia. reflexivity. }
        assert (0 <= (last - (i + interval)) / interval) by (apply Z.div_pos; lia).
        lia.
    + rewrite timesOfDay_empty by lia. cbn. rewrite app_nil_r. reflexivity.
Qed.

Lemma timesOfDay_range first last interval t :
  0 < interval -> In t (TimeSpec.timesOfDay first last interval) ->
  first <= t <= last.
Proof.
  intros Hi. unfold TimeSpec.timesOfDay.
  destruct (Z.ltb_spec last first); [intros []|].
  rewrite in_map_iff. intros (k & <- & Hk). apply in_seq in Hk.
  assert (Hq : Z.of_nat k <= (last - first) / interval).
  { assert (0 <= (last - first) / interval) by (apply Z.div_pos; lia). lia. }
  pose proof (Z.mul_div_le (last - first) interval Hi).
  nia.
Qed.

Lemma sameOption_eq a b : TimeSpec.sameOption a b = true -> a = b.
Proof.
  destruct a, b. unfold TimeSpec.sameOption. cbn.
  rewrite andb_true_iff, !String.eqb_eq. intros [-> ->]. reflexivity.
Qed.

Lemma timeOption_table :
  forallb (fun k => TimeSpec.sameOption (timeOption (whole (Z.of_nat k)))
                                        (TimeSpec.timeOption (Z.of_nat k)))
          (seq 0 1440) = true.
Proof. vm_compute. reflexivity. Qed.

(** On the minutes of a day the code's option is the specified one. *)
Lemma timeOption_spec t :
  0 <= t < 1440 -> timeOption (whole t) = TimeSpec.timeOption t.
Proof.
  intros Ht. apply sameOption_eq.
  pose proof timeOption_table as Htab. rewrite forallb_forall in Htab.
  specialize (Htab (Z.to_nat t)). rewrite Z2Nat.id in Htab by lia.
  apply Htab. apply in_seq. lia.
Qed.

Lemma Number_nonneg s n : Number s = Some n -> 0 <= n.
Proof.
  unfold Number. destruct (NilEmpty.uint_of_string s) as [u|]; [|discriminate].
  cbn. intros [= <-]. unfold Z.of_uint. apply N2Z.is_nonneg.
Qed.

Lemma parseTime_nonneg s h m : parseTime s = Some (h, m) -> 0 <= h /\ 0 <= m.
Proof.
  unfold parseTime.
  destruct (splitOn ":" s) as [| x [| y r]]; cbn [map]; try discriminate.
  - destruct (Number x); discriminate.
  - destruct (Number x) as [a|] eqn:Ea; [|discriminate].
    destruct (Number y) as [b|] eqn:Eb; [|discriminate].
    intros [= <- <-]. split; eapply Number_nonneg; eassumption.
Qed.

(** C3 (as the code has it). For time strings [minTime] and [maxTime] (digits,
    a colon, digits; [maxTime] a time of day) and a [timeInterval] that is a
    positive whole number of minutes, the loop of [generateTimeOptions]
    ends, and it returns exactly the options of the
    times [minTime], [minTime + timeInterval], ... up to [maxTime]
    inclusive, in this order: each with the zero-padded key "HH:mm" and the
    label "h:mm am/pm" of the specification. None when [minTime] is after
    [maxTime]; hours 0 and 12 both read 12; and from "09:00" to "10:00" by
    30 the options are 09:00, 09:30 and 10:00. *)
Theorem generateTimeOptions_spec
        (minTime maxTime : string) (h1 m1 h2 m2 timeInterval : Z) :
  parseTime minTime = Some (h1, m1) ->
  parseTime maxTime = Some (h2, m2) ->
  h2 <= 23 -> m2 <= 59 ->
  0 < timeInterval ->
  let first := h1 * 60 + m1 in
  let last := h2 * 60 + m2 in
  (exists enough : nat, forall fuel : nat, (enough <= fuel)%nat ->
     generateTimeOptions fuel minTime maxTime (whole timeInterval) =
     Done (TimeSpec.options first last timeInterval)) /\
  (last < first -> TimeSpec.options first last timeInterval = []) /\
  displayText (TimeSpec.timeOption 0) = "12:00 am"%string /\
  displayText (TimeSpec.timeOption 720) = "12:00 pm"%string /\
  generateTimeOptions 3 "09:00" "10:00" (whole 30) =
  Done [ mkTimeOption "09:00" "9:00 am";
         mkTimeOption "09:30" "9:30 am";
         mkTimeOption "10:00" "10:00 am" ].
Proof.
  intros Hmin Hmax Hh Hm Hi first last.
  destruct (parseTime_nonneg _ _ _ Hmin) as [Hh1 Hm1].
  destruct (parseTime_nonneg _ _ _ Hmax) as [Hh2 Hm2].
  split; [| split; [| split; [| split]]].
  - exists (iterations first last timeInterval). intros fuel Hfuel.
    unfold generateTimeOptions. rewrite Hmin, Hmax.
    fold first. fold last.
    rewrite (timeLoop_done fuel first last timeInterval [] Hi Hfuel).
    cbn [app]. unfold TimeSpec.options. f_equal.
    apply map_ext_in. intros t Ht.
    apply timesOfDay_range in Ht; [| exact Hi].
    apply timeOption_spec. subst first last. lia.
  - intros Hlt. unfold TimeSpec.options.
    rewrite timesOfDay_empty by exact Hlt. reflexivity.
  - reflexivity.
  - reflexivity.
  - vm_compute. reflexivity.
Qed.

Lemma generateTimeOptions_spec_witness :
  exists enough : nat, forall fuel : nat, (enough <= fuel)%nat ->
    generateTimeOptions fuel "09:00" "18:00" (whole 60) =
    Done (TimeSpec.options 540 1080 60).
Proof.
  apply (generateTimeOptions_spec "09:00" "18:00" 9 0 18 0 60);
    [reflexivity | reflexivity | lia | lia | lia].
Defined.

(** C3, as stated, fails for a positive interval that is not whole. With
    [timeInterval] 7.5 (15 halves) from "09:00" to "10:00" the loop runs
    over 540, 547.5, 555, ...: its second option is 547.5 minutes, whose
    minutes [547.5 % 60] are 7.5, so that the key is "09:7.5" and the label
    "9:7.5 am". No time of day has this key: a key "HH:mm" is two digits, a
    colon and two digits. *)
Lemma fractional_interval_breaks_keys :
  let timeInterval := mkNumber 15 1 in
  representable timeInterval = true /\
  numLeb (whole 0) timeInterval = true /\ numLeb timeInterval (whole 0) = false /\
  generateTimeOptions 9 "09:00" "10:00" timeInterval =
  Done [ mkTimeOption "09:00" "9:00 am";
         mkTimeOption "09:7.5" "9:7.5 am";
         mkTimeOption "09:15" "9:15 am";
         mkTimeOption "09:22.5" "9:22.5 am";
         mkTimeOption "09:30" "9:30 am";
         mkTimeOption "09:37.5" "9:37.5 am";
         mkTimeOption "09:45" "9:45 am";
         mkTimeOption "09:52.5" "9:52.5 am";
         mkTimeOption "10:00" "10:00 am" ] /\
  (forall t : Z, TimeSpec.key t <> "09:7.5"%string) /\
  (forall first last interval : Z,
      ~ In (mkTimeOption "09:7.5" "9:7.5 am") (TimeSpec.options first last interval)).
Proof.
  cbv zeta.
  assert (Hkey : forall t : Z, TimeSpec.key t <> "09:7.5"%string).
  { intros t H. apply (f_equal String.length) in H. cbn in H. discriminate H. }
  split; [reflexivity |]. split; [reflexivity |]. split; [reflexivity |].
  split; [vm_compute; reflexivity |]. split; [exact Hkey |].
  intros first last interval Hin. unfold TimeSpec.options in Hin.
  apply in_map_iff in Hin. destruct Hin as (t & Ht & _).
  apply (Hkey t). unfold TimeSpec.timeOption in Ht. congruence.
Qed.


(** ** Picking dates and times *)

Lemma formatHHmm_table :
  forallb (fun k =>
             match parseTime (pad2 (Z.of_nat k / 60) ++ ":" ++ pad2 (Z.of_nat k mod 60)) with
             | Some (h, m) => (h =? Z.of_nat k / 60) && (m =? Z.of_nat k mod 60)
             | None => false
             end)
          (seq 0 1440) = true.
Proof. vm_compute. reflexivity. Qed.

(** The text [format (d, 'HH:mm')] reads back as the hour and minute of [d]. *)
Lemma parseTime_formatHHmm d :
  Valid d -> parseTime (formatHHmm d) = Some (getHours d, getMinutes d).
Proof.
  intros (_ & _ & Ht). unfold formatHHmm, getHours, getMinutes, msPerDay, msPerHour, msPerMinute in *.
  set (k := dTime d / 60000).
  assert (Hk : 0 <= k < 1440) by (unfold k; zdiv).
  replace (dTime d / 3600000) with (k / 60) by (unfold k; zdiv).
  pose proof formatHHmm_table as Htab. rewrite forallb_forall in Htab.
  specialize (Htab (Z.to_nat k)). rewrite Z2Nat.id in Htab by lia.
  assert (Hin : In (Z.to_nat k) (seq 0 1440)) by (apply in_seq; lia).
  specialize (Htab Hin).
  destruct (parseTime (pad2 (k / 60) ++ ":" ++ pad2 (k mod 60))) as [[h m]|]; [|discriminate].
  apply andb_true_iff in Htab. destruct Htab as [H1 H2].
  apply Z.eqb_eq in H1, H2. subst. reflexivity.
Qed.

Lemma mod_minute_in_hour h t :
  (h * 3600000 + t mod 3600000) mod 60000 = t mod 60000.
Proof.
  rewrite (Z.mod_eq t 3600000) by lia.
  replace (h * 3600000 + (t - 3600000 * (t / 3600000)))
    with (t + (h * 60 - 60 * (t / 3600000)) * 60000) by lia.
  apply Z.mod_add. lia.
Qed.

(** [setMinutes (setHours (d, h), mi)] for an hour and a minute of the day. *)
Lemma combine_time d h mi :
  Valid d -> 0 <= h <= 23 -> 0 <= mi <= 59 ->
  setMinutes (setHours d h) mi =
  withTime d (h * msPerHour + mi * msPerMinute + dTime d mod msPerMinute).
Proof.
  intros (_ & _ & Ht) Hh Hmi.
  unfold setMinutes, setHours, makeDate, getHours.
  unfold msPerDay, msPerHour, msPerMinute in *.
  replace ((h * 3600000 + dTime d mod 3600000) / 86400000) with 0 by zdiv.
  cbn [addDays withTime dYear dMonth dDate dTime].
  replace ((h * 3600000 + dTime d mod 3600000) mod 86400000)
    with (h * 3600000 + dTime d mod 3600000) by zdiv.
  replace ((h * 3600000 + dTime d mod 3600000) / 3600000) with h by zdiv.
  rewrite mod_minute_in_hour.
  assert (0 <= dTime d mod 60000 < 60000) by (apply Z.mod_pos_bound; lia).
  replace ((h * 3600000 + mi * 60000 + dTime d mod 60000) / 86400000)
    with 0 by (symmetry; apply Z.div_small; lia).
  cbn [addDays withTime dYear dMonth dDate dTime].
  unfold withTime. cbn [dYear dMonth dDate dTime].
  f_equal. apply Z.mod_small. lia.
Qed.

Lemma time_fields d h mi :
  Valid d -> 0 <= h <= 23 -> 0 <= mi <= 59 ->
  let c := withTime d (h * msPerHour + mi * msPerMinute + dTime d mod msPerMinute) in
  Valid c /\ getHours c = h /\ getMinutes c = mi /\
  getSeconds c = getSeconds d /\ getMilliseconds c = getMilliseconds d.
Proof.
  intros (Hm & Hd & Ht) Hh Hmi c. subst c.
  unfold Valid, getHours, getMinutes, getSeconds, getMilliseconds, withTime.
  cbn [dYear dMonth dDate dTime].
  unfold msPerDay, msPerHour, msPerMinute, msPerSecond in *.
  assert (Hr : 0 <= dTime d mod 60000 < 60000) by (apply Z.mod_pos_bound; lia).
  repeat split; try lia.
  - zdiv.
  - zdiv.
  - zdiv.
  - zdiv.
Qed.

(** C4 (as the code has it). For a valid in-bounds date [d] and a time
    string "HH:mm" of the day: the time-pick that follows the date-pick of
    [d] commits the calendar date of [d] at hour HH and minute mm, with the
    seconds and milliseconds of [d] itself (zero for [d] at a whole minute);
    while time selection is on, the date-pick commits nothing, so a
    time-pick made before it leaves nothing committed for [d]; and a
    time-pick with no date selected never calls [onChange]. *)
Theorem time_pick_commits
        (p : Props) (s : State) (d : Date) (timeString : string) (h mi : Z) :
  Valid d -> isDateInRange p d = true ->
  parseTime timeString = Some (h, mi) -> h <= 23 -> mi <= 59 ->
  let c := withTime d (h * msPerHour + mi * msPerMinute + dTime d mod msPerMinute) in
  (dYear c = dYear d /\ dMonth c = dMonth d /\ dDate c = dDate d /\
   getHours c = h /\ getMinutes c = mi /\
   getSeconds c = getSeconds d /\ getMilliseconds c = getMilliseconds d /\
   (dTime d mod msPerMinute = 0 -> c = atTime d h mi)) /\
  (exists s',
      runEvents p s [DateSelect d; TimeSelect timeString] =
      Some (s', (if showTimeSelect p then [] else [Some d]) ++ [Some c]) /\
      selectedDate s' = Some d /\ selectedTime s' = Some timeString) /\
  (showTimeSelect p = true -> snd (run (handleDateSelect p s d) s) = []) /\
  (showTimeSelect p = true -> selectedDate s = None ->
   exists s', runEvents p s [TimeSelect timeString; DateSelect d] = Some (s', [])) /\
  (selectedDate s = None ->
   option_map (fun k => snd (run k s)) (handleTimeSelect p s timeString) = Some []).
Proof.
  intros Hv Hin Hparse Hh Hmi c.
  apply parseTime_nonneg in Hparse as Hpos.
  assert (Hh' : 0 <= h <= 23) by lia. assert (Hmi' : 0 <= mi <= 59) by lia.
  destruct (time_fields d h mi Hv Hh' Hmi') as (Vc & F1 & F2 & F3 & F4).
  fold c in Vc, F1, F2, F3, F4.
  split; [| split; [| split; [| split]]].
  - repeat split; try assumption; try reflexivity.
    intros Hz. subst c. unfold atTime. rewrite Hz. f_equal. lia.
  - unfold runEvents, handle, handleDateSelect, handleTimeSelect. rewrite Hin.
    destruct s as [cd sd v yr st]. destruct (showTimeSelect p);
      cbn -[combineDateAndTime]; unfold combineDateAndTime; rewrite Hparse;
      rewrite (combine_time d h mi Hv Hh' Hmi'); fold c; cbn;
      eexists; (split; [reflexivity | split; reflexivity]).
  - intros Hts. unfold handleDateSelect. rewrite Hin, Hts. reflexivity.
  - intros Hts Hnone. unfold runEvents, handle, handleDateSelect, handleTimeSelect.
    rewrite Hnone, Hin, Hts. destruct s as [cd sd v yr st]. cbn. eexists. reflexivity.
  - intros Hnone. unfold handleTimeSelect. rewrite Hnone. reflexivity.
Qed.


Lemma time_pick_commits_witness :
  let p := mkProps Undefined None None None true 30 "00:00" "23:59" in
  let d := mkDate 2024 2 10 0 in
  exists s',
    runEvents p (init p d) [DateSelect d; TimeSelect "14:30"] =
    Some (s', [Some (mkDate 2024 2 10 52200000)]).
Proof.
  intros p d.
  destruct (time_pick_commits p (init p d) d "14:30" 14 30) as (_ & (s' & E & _) & _);
    [unfold Valid, msPerDay; cbn; lia | reflexivity | reflexivity | lia | lia |].
  exists s'. exact E.
Defined.

(** C4, as stated, fails: the overlay opens on the committed 2024-03-05 with
    time selection on; the time "14:30" is picked, then the date 2024-03-10.
    Both picks have occurred, and the committed value is still 2024-03-05 at
    14:30, not 2024-03-10 at 14:30. *)
Lemma time_then_date_keeps_old_date :
  let p := mkProps (Given (mkDate 2024 2 5 0)) None None None true 30 "00:00" "23:59" in
  let d := mkDate 2024 2 10 0 in
  isDateInRange p d = true /\
  option_map (fun r => committed (snd r))
             (runEvents p (init p d) [TimeSelect "14:30"; DateSelect d]) =
  Some (Some (Some (mkDate 2024 2 5 52200000))) /\
  mkDate 2024 2 5 52200000 <> atTime d 14 30.
Proof.
  cbv zeta. split; [reflexivity | split; [vm_compute; reflexivity | discriminate]].
Qed.

(** C6 (as the code has it). [isDateInRange] answers true exactly when the
    date is not before [minDate] floored to the start of its day and not
    after [maxDate] raised to the end of its day, an absent bound not
    constraining; an instant before the floored minimum or after the raised
    maximum is rejected; and when the floored minimum is not after the
    raised maximum, both are themselves in range. *)
Theorem isDateInRange_spec (p : Props) (date : Date) :
  (isDateInRange p date = true <->
   (forall lo, minDate p = Some lo -> getTime (startOfDay lo) <= getTime date) /\
   (forall hi, maxDate p = Some hi -> getTime date <= getTime (endOfDay hi))) /\
  (forall lo, minDate p = Some lo -> getTime date < getTime (startOfDay lo) ->
              isDateInRange p date = false) /\
  (forall hi, maxDate p = Some hi -> getTime (endOfDay hi) < getTime date ->
              isDateInRange p date = false) /\
  (boundsOrdered p = true ->
   (forall lo, minDate p = Some lo -> isDateInRange p (startOfDay lo) = true) /\
   (forall hi, maxDate p = Some hi -> isDateInRange p (endOfDay hi) = true)).
Proof.
  unfold isDateInRange, boundsOrdered, normalizedMinDate, normalizedMaxDate,
    beforeMin, afterMax, isBefore, isAfter.
  destruct (minDate p) as [lo|]; destruct (maxDate p) as [hi|]; cbn [option_map];
    repeat split;
    repeat match goal with
           | |- forall _, _ => intro
           | H : Some _ = Some _ |- _ => injection H as <-
           | H : None = Some _ |- _ => discriminate H
           | H : _ /\ _ |- _ => destruct H
           | H : forall x, Some ?a = Some x -> _ |- _ => specialize (H a eq_refl)
           | H : context [if ?b then _ else _] |- _ => destruct b eqn:?
           | |- context [if ?b then _ else _] => destruct b eqn:?
           | H : negb _ = true |- _ => apply negb_true_iff in H
           | H : (_ <? _) = true |- _ => apply Z.ltb_lt in H
           | H : (_ <? _) = false |- _ => apply Z.ltb_ge in H
           end;
    try reflexivity; try discriminate; try lia.
Qed.

Lemma isDateInRange_spec_witness :
  let p := mkProps Undefined None (Some (mkDate 2024 4 1 5)) (Some (mkDate 2024 4 10 7))
                   false 30 "00:00" "23:59" in
  boundsOrdered p = true /\
  isDateInRange p (mkDate 2024 4 1 0) = true /\
  isDateInRange p (mkDate 2024 4 10 86399999) = true.
Proof.
  intros p.
  destruct (isDateInRange_spec p (mkDate 2024 4 1 0)) as (_ & _ & _ & H).
  destruct (H eq_refl) as [Hlo Hhi].
  split; [reflexivity | split].
  - exact (Hlo _ eq_refl).
  - exact (Hhi _ eq_refl).
Defined.

(** C6, as stated, fails for a minimum after the maximum: with
    [minDate] 2024-05-10 and [maxDate] 2024-05-01 the floored minimum is not
    in range (nor is the raised maximum). *)
Lemma inverted_bounds_exclude_themselves :
  let p := mkProps Undefined None (Some (mkDate 2024 4 10 0)) (Some (mkDate 2024 4 1 0))
                   false 30 "00:00" "23:59" in
  normalizedMinDate p = Some (mkDate 2024 4 10 0) /\
  isDateInRange p (mkDate 2024 4 10 0) = false /\
  normalizedMaxDate p = Some (mkDate 2024 4 1 86399999) /\
  isDateInRange p (mkDate 2024 4 1 86399999) = false.
Proof. cbv zeta. repeat split. Qed.

(** C8. [handleSelectToday] twice with the same [today]: when [today] is in
    bounds, each call sets [selectedDate] and [currentDate] to [today] and the
    view to days, and calls [onChange (today)] exactly when time selection is
    off, so both calls commit the same value and the second leaves the state
    as the first left it; when [today] is out of bounds, neither call changes
    the state or calls [onChange]. *)
Theorem selectToday_twice (p : Props) (s : State) (today : Date) :
  let r1 := run (handleSelectToday p s today) s in
  let r2 := run (handleSelectToday p (fst r1) today) (fst r1) in
  (isDateInRange p today = true ->
   selectedDate (fst r1) = Some today /\ currentDate (fst r1) = today /\
   view (fst r1) = days /\
   snd r1 = (if showTimeSelect p then [] else [Some today]) /\
   fst r2 = fst r1 /\ snd r2 = snd r1 /\ committed (snd r2) = committed (snd r1)) /\
  (isDateInRange p today = false -> r1 = (s, []) /\ r2 = (s, [])).
Proof.
  cbv zeta. unfold handleSelectToday. split; intros Hin; rewrite Hin.
  - destruct s as [cd sd v yr st]. destruct (showTimeSelect p); cbn; repeat split.
  - split; reflexivity.
Qed.

Lemma selectToday_twice_witness :
  let p := mkProps Undefined None (Some (mkDate 2024 0 1 0)) None false 30 "00:00" "23:59" in
  let today := mkDate 2024 4 8 52200123 in
  let s := init p today in
  snd (run (handleSelectToday p s today) s) = [Some today] /\
  snd (run (handleSelectToday p (fst (run (handleSelectToday p s today) s)) today)
           (fst (run (handleSelectToday p s today) s))) = [Some today].
Proof.
  intros p today s.
  destruct (selectToday_twice p s today) as [H _].
  destruct (H eq_refl) as (_ & _ & _ & E1 & _ & E2 & _).
  split; [exact E1 | rewrite E2; exact E1].
Defined.

(** C10. The effect on [value]: for null, [selectedDate] and [selectedTime]
    become null while [currentDate], the view and the year window stay; for a
    date, [selectedDate] and [currentDate] become that date and
    [selectedTime] its "HH:mm" text, which reads back as its hour and minute;
    the view stays; [onChange] is not called. *)
Theorem syncValue_frame (s : State) :
  (let s' := fst (run (syncValue Null) s) in
   selectedDate s' = None /\ selectedTime s' = None /\
   currentDate s' = currentDate s /\ view s' = view s /\
   yearRange s' = yearRange s) /\
  (forall d,
      let s' := fst (run (syncValue (Given d)) s) in
      selectedDate s' = Some d /\ currentDate s' = d /\
      selectedTime s' = Some (formatHHmm d) /\
      view s' = view s /\ yearRange s' = yearRange s /\
      (Valid d -> parseTime (formatHHmm d) = Some (getHours d, getMinutes d))) /\
  (fst (run (syncValue Undefined) s) = s) /\
  (forall v, snd (run (syncValue v) s) = []).
Proof.
  destruct s as [cd sd v yr st]. split; [| split; [| split]].
  - cbn. repeat split.
  - intros d. cbn. repeat split. apply parseTime_formatHHmm.
  - reflexivity.
  - intros [| |d]; reflexivity.
Qed.

Lemma syncValue_frame_witness :
  parseTime (formatHHmm (mkDate 2024 2 10 52200123)) = Some (14, 30).
Proof.
  destruct (syncValue_frame (init (mkProps Undefined None None None false 30 "00:00" "23:59")
                                  (mkDate 2024 0 1 0))) as (_ & H & _).
  destruct (H (mkDate 2024 2 10 52200123)) as (_ & _ & _ & _ & _ & P).
  apply P. unfold Valid, msPerDay. cbn. lia.
Defined.

End BasicFacts.

(* ================================================================== *)
(** * The range overlay: properties *)
(* ================================================================== *)

Module RangeFacts.
Import Cal Ev Range CalFacts.

(** Unfolds one event down to the record of the next state. *)
Ltac run_event :=
  cbv beta iota zeta delta
      [step dispatch run handler handleNavigation toggleView handleDateSelect
       handleDateHover handleMonthSelect handleYearSelect syncStartDate
       syncEndDate syncRight when andThen update emit skip onState const
       setLeftCurrentDate setRightCurrentDate setSelectedStartDate
       setSelectedEndDate setHoverDate setSelectionPhase setLeftView
       setRightView setLeftYearRange setRightYearRange setActiveSpecialView
       onChange canPrevMonth canNextMonth canPrevYear canNextYear
       canPrevYearRange canNextYearRange
       fst snd pending leftSet app
       leftCurrentDate rightCurrentDate selectedStartDate selectedEndDate
       hoverDate selectionPhase leftView rightView leftYearRange
       rightYearRange activeSpecialView].

(** C1. In [handleDateSelect], in phase 'end' with an anchor, an in-bounds
    date before the anchor replaces the anchor: the old anchor is gone, the
    selected end is kept, the phase is 'start' again, and [onChange] is
    called once with the new start and the kept end; nothing else of the
    state changes. *)
Theorem pick_before_anchor (p : Props) (s : State) (date anchor : Date) :
  isDateInRange p date = true ->
  selectionPhase s = phaseEnd ->
  selectedStartDate s = Some anchor ->
  isBefore date anchor = true ->
  let r := dispatch p s (DateSelect date) in
  selectedStartDate (fst r) = Some date /\
  selectedEndDate (fst r) = selectedEndDate s /\
  selectionPhase (fst r) = phaseStart /\
  snd r = [mkRange (Some date) (selectedEndDate s)] /\
  leftCurrentDate (fst r) = leftCurrentDate s /\
  rightCurrentDate (fst r) = rightCurrentDate s /\
  hoverDate (fst r) = hoverDate s /\
  leftView (fst r) = leftView s /\ rightView (fst r) = rightView s /\
  activeSpecialView (fst r) = activeSpecialView s.
Proof.
  intros Hin Hphase Hanchor Hbefore r. subst r.
  destruct s as [l r ss se h ph lv rv lyr ryr asv].
  cbn [selectionPhase selectedStartDate selectedEndDate] in *. subst ph ss.
  run_event. rewrite Hin. cbn [negb]. rewrite Hbefore.
  repeat split.
Qed.

Lemma pick_before_anchor_witness :
  let p := mkProps Undefined Undefined None None None false in
  let s := step p (init p (mkDate 2024 4 1 0)) (DateSelect (mkDate 2024 4 10 0)) in
  let r := dispatch p s (DateSelect (mkDate 2024 4 3 0)) in
  selectionPhase s = phaseEnd /\
  selectedStartDate s = Some (mkDate 2024 4 10 0) /\
  selectedStartDate (fst r) = Some (mkDate 2024 4 3 0) /\
  selectedEndDate (fst r) = None /\
  selectionPhase (fst r) = phaseStart /\
  snd r = [mkRange (Some (mkDate 2024 4 3 0)) None].
Proof.
  intros p s r.
  destruct (pick_before_anchor p s (mkDate 2024 4 3 0) (mkDate 2024 4 10 0))
    as (H1 & H2 & H3 & H4 & _);
    [reflexivity | reflexivity | reflexivity | reflexivity |].
  split; [reflexivity |]. split; [reflexivity |]. split; [exact H1 |].
  split; [transitivity (selectedEndDate s); [exact H2 | reflexivity] |].
  split; [exact H3 | exact H4].
Defined.


(** When the consumer passes the new start back as the prop [startDate]
    (as the range input does with its buffer), the effect on that prop puts
    the phase on 'end' again. *)
Lemma pick_then_startDate_prop :
  let p := mkProps Undefined Undefined None None None false in
  let s := step p (init p (mkDate 2024 4 1 0)) (DateSelect (mkDate 2024 4 10 0)) in
  let s' := step p s (DateSelect (mkDate 2024 4 3 0)) in
  selectionPhase s' = phaseStart /\
  selectionPhase (step p s' (StartDateChange (Given (mkDate 2024 4 3 0)))) = phaseEnd.
Proof. cbv zeta. split; reflexivity. Qed.

(** ** The two calendars *)

Lemma clampToBounds_ind (P : Date -> Prop) p d :
  P d ->
  (forall m, minDate p = Some m -> P (startOfDay m)) ->
  (forall m, maxDate p = Some m -> P (endOfDay m)) ->
  P (clampToBounds p d).
Proof.
  intros Hd Hlo Hhi. unfold clampToBounds, normalizedMinDate, normalizedMaxDate, normalizeDate.
  destruct (minDate p) as [lo|]; destruct (maxDate p) as [hi|]; cbn [beforeMin afterMax];
    repeat match goal with |- context [if ?b then _ else _] => destruct b end;
    auto.
Qed.

Lemma Valid_startOfDay d : Valid d -> Valid (startOfDay d).
Proof. intros (Hm & Hd & _). unfold Valid, startOfDay, withTime, msPerDay. cbn. lia. Qed.

Lemma Valid_endOfDay d : Valid d -> Valid (endOfDay d).
Proof. intros (Hm & Hd & _). unfold Valid, endOfDay, withTime, msPerDay. cbn. lia. Qed.

Lemma validOpt_Some d m : validOpt d = true -> d = Some m -> Valid m.
Proof. intros H ->. apply Valid_validDate, H. Qed.

Lemma Valid_clampToBounds p d :
  validOpt (minDate p) = true -> validOpt (maxDate p) = true ->
  Valid d -> Valid (clampToBounds p d).
Proof.
  intros Hlo Hhi Hd. apply clampToBounds_ind; [exact Hd | |]; intros m Hm.
  - apply Valid_startOfDay. exact (validOpt_Some _ _ Hlo Hm).
  - apply Valid_endOfDay. exact (validOpt_Some _ _ Hhi Hm).
Qed.

Lemma fourDigit_clampToBounds p d :
  fourDigitBound (minDate p) = true -> fourDigitBound (maxDate p) = true ->
  100 <= dYear d -> 100 <= dYear (clampToBounds p d).
Proof.
  intros Hlo Hhi Hd. apply clampToBounds_ind; [exact Hd | |]; intros m Hm.
  - rewrite Hm in Hlo. cbn in Hlo. apply Z.leb_le in Hlo. exact Hlo.
  - rewrite Hm in Hhi. cbn in Hhi. apply Z.leb_le in Hhi. exact Hhi.
Qed.

(** The first of a month, for a year that [new Date] takes as it is. *)
Lemma newDateYMD_first y m :
  100 <= y -> newDateYMD y m 1 = mkDate (y + m / 12) (m mod 12) 1 0.
Proof.
  intros Hy. unfold newDateYMD.
  destruct (Z.leb_spec y 99); [lia|]. rewrite andb_false_r. apply makeDay_first.
Qed.

Lemma getTime_newDateYMD_first y m :
  100 <= y -> getTime (newDateYMD y m 1) = monthStartDay (y * 12 + m) * msPerDay.
Proof.
  intros Hy. rewrite newDateYMD_first by exact Hy.
  unfold getTime, dayOf, monthStartDay. cbn [dYear dMonth dDate dTime].
  replace ((y * 12 + m) / 12) with (y + m / 12) by zdiv.
  replace ((y * 12 + m) mod 12) with (m mod 12) by zdiv. lia.
Qed.

Lemma isBefore_firsts y1 m1 y2 m2 :
  100 <= y1 -> 100 <= y2 ->
  isBefore (newDateYMD y1 m1 1) (newDateYMD y2 m2 1) = (y1 * 12 + m1 <? y2 * 12 + m2).
Proof.
  intros H1 H2. unfold isBefore. rewrite !getTime_newDateYMD_first by assumption.
  destruct (Z.ltb_spec (y1 * 12 + m1) (y2 * 12 + m2)) as [Hlt | Hge].
  - apply Z.ltb_lt. pose proof (monthStartDay_lt _ _ Hlt). unfold msPerDay. lia.
  - apply Z.ltb_ge. pose proof (monthStartDay_le _ _ Hge). unfold msPerDay. lia.
Qed.

Lemma newDateYMD_prev_month d :
  Valid d -> 100 <= dYear d ->
  newDateYMD (dYear d) (dMonth d - 1) 1 = subMonths (startOfMonth d) 1.
Proof.
  intros (Hm & _) Hy. rewrite newDateYMD_first by exact Hy.
  unfold subMonths, addMonths, startOfMonth, monthIndex. cbn [dYear dMonth dDate dTime].
  f_equal; try zdiv.
  match goal with |- context [daysInMonth ?y ?m] =>
    pose proof (daysInMonth_bounds y m) end.
  lia.
Qed.

Lemma addMonths_startOfMonth_back d :
  Valid d -> addMonths (subMonths (startOfMonth d) 1) 1 = startOfMonth d.
Proof.
  intros (Hm & _).
  unfold subMonths, addMonths, startOfMonth, monthIndex. cbn [dYear dMonth dDate dTime].
  f_equal; try zdiv.
  match goal with |- Z.min _ (daysInMonth ?y ?m) = _ =>
    pose proof (daysInMonth_bounds y m) end.
  match goal with |- Z.min (Z.min _ (daysInMonth ?y ?m)) _ = _ =>
    pose proof (daysInMonth_bounds y m) end.
  lia.
Qed.

(** The right-side month selection: the date it computes, and the left
    calendar pushed back in lockstep when the month of that date is not
    after its own. *)
Lemma monthSelect_right p s monthIdx :
  validOpt (minDate p) = true -> validOpt (maxDate p) = true ->
  calendarsValid s -> monthSelectGuard p s monthIdx = true ->
  let nd := monthSelectDate p s monthIdx in
  let s' := step p s (MonthSelect right monthIdx) in
  Valid nd /\
  (monthIndex nd <= monthIndex (leftCurrentDate s) ->
   leftCurrentDate s' = subMonths (startOfMonth nd) 1 /\
   rightCurrentDate s' = startOfMonth nd) /\
  (monthIndex (leftCurrentDate s) < monthIndex nd ->
   leftCurrentDate s' = leftCurrentDate s /\ rightCurrentDate s' = nd).
Proof.
  intros Hlo Hhi [Vl Vr] Hg. unfold monthSelectDate.
  destruct s as [l r ss se h ph lv rv lyr ryr asv].
  unfold monthSelectGuard in Hg. cbn [leftCurrentDate rightCurrentDate] in *.
  set (nd := clampToBounds p (setMonth r monthIdx)).
  rewrite !andb_true_iff in Hg.
  destruct Hg as (((((G0 & G1) & Gl) & Gr) & Glo) & Ghi).
  apply Z.leb_le in G0, Gl, Gr. apply Z.ltb_lt in G1.
  assert (Vnd : Valid nd).
  { apply Valid_clampToBounds; [exact Hlo | exact Hhi |]. apply Valid_setMonth, Vr. }
  assert (Ynd : 100 <= dYear nd).
  { apply fourDigit_clampToBounds; [exact Glo | exact Ghi |].
    rewrite dYear_setMonth by (assumption || lia). exact Gr. }
  assert (Hb : isBefore (newDateYMD (getFullYear nd) (getMonth nd) 1)
                        (newDateYMD (getFullYear l) (getMonth l + 1) 1)
               = (monthIndex nd <=? monthIndex l)).
  { rewrite isBefore_firsts by assumption. unfold getFullYear, getMonth, monthIndex.
    destruct (Z.ltb_spec (dYear nd * 12 + dMonth nd) (dYear l * 12 + (dMonth l + 1)));
      symmetry; [apply Z.leb_le | apply Z.leb_gt]; lia. }
  cbv zeta. split; [exact Vnd |].
  run_event. fold nd. rewrite Hb.
  split; intros Hcmp.
  - destruct (Z.leb_spec (monthIndex nd) (monthIndex l)); [| lia].
    unfold getFullYear, getMonth. rewrite newDateYMD_prev_month by assumption.
    rewrite addMonths_startOfMonth_back by assumption. split; reflexivity.
  - destruct (Z.leb_spec (monthIndex nd) (monthIndex l)); [lia |].
    split; reflexivity.
Qed.


(** The right-side year selection: refused, or the right calendar alone
    moves, no further back than the month after the left one. *)
Lemma yearSelect_right p s year :
  validOpt (minDate p) = true -> validOpt (maxDate p) = true ->
  calendarsValid s ->
  let nd := requestedYear p s year in
  let s' := step p s (YearSelect right year) in
  (yearRejected p s year = true -> s' = s) /\
  (yearRejected p s year = false ->
   leftCurrentDate s' = leftCurrentDate s /\
   rightCurrentDate s' =
     (if isBefore nd (addMonths (leftCurrentDate s) 1)
      then addMonths (leftCurrentDate s) 1 else nd) /\
   Valid (rightCurrentDate s') /\
   monthIndex (leftCurrentDate s) + 1 <= monthIndex (rightCurrentDate s')).
Proof.
  intros Hlo Hhi [Vl Vr]. unfold requestedYear, yearRejected.
  destruct s as [l r ss se h ph lv rv lyr ryr asv].
  cbn [leftCurrentDate rightCurrentDate selectedStartDate] in *.
  set (nd := clampToBounds p (setFullYear r year)).
  assert (Vnd : Valid nd).
  { apply Valid_clampToBounds; [exact Hlo | exact Hhi |]. apply Valid_setFullYear, Vr. }
  cbv zeta. run_event. fold nd.
  destruct (isYearSelectable p year); cbn [negb orb].
  - destruct (match ss with Some start => year <? getYear start | None => false end).
    + split; [reflexivity | discriminate].
    + split; [discriminate | intros _].
      split; [reflexivity | split; [reflexivity |]].
      unfold isBefore.
      destruct (Z.ltb_spec (getTime nd) (getTime (addMonths l 1))) as [Hlt | Hge].
      * split; [apply Valid_addMonths, Vl | rewrite monthIndex_addMonths; lia].
      * split; [exact Vnd |].
        pose proof (getTime_le_monthIndex _ _ (Valid_addMonths l 1 Vl) Vnd Hge) as Hmi.
        rewrite monthIndex_addMonths in Hmi. exact Hmi.
  - split; [reflexivity | discriminate].
Qed.

Lemma rightAhead_synced l :
  monthIndex l + 1 <= monthIndex (addMonths l 1).
Proof. rewrite monthIndex_addMonths. lia. Qed.

Ltac close_inv :=
  cbn [leftCurrentDate rightCurrentDate];
  unfold subYears, addYears, subMonths;
  split; [split; auto using Valid_addMonths
         | rewrite ?monthIndex_addMonths; lia].

(** Every admitted operation keeps both calendars on valid dates and the
    right one on a later month than the left one. *)
Lemma step_preserves p s op :
  validOpt (minDate p) = true -> validOpt (maxDate p) = true ->
  calendarsValid s -> rightAhead s -> admits p s op = true ->
  calendarsValid (step p s op) /\ rightAhead (step p s op).
Proof.
  intros Hlo Hhi Hv Ha Hadm.
  destruct op as [direction | side | date | date | | side monthIdx | side year | v | v].
  - (* Navigate *)
    destruct Hv as [Vl Vr]. unfold rightAhead, calendarsValid in *.
    destruct s as [l r ss se h ph lv rv lyr ryr asv].
    cbn [leftCurrentDate rightCurrentDate] in *.
    unfold admits, isRightYearNavigation in Hadm.
    cbn [activeSpecialView rightView] in Hadm.
    unfold step, dispatch, handler, handleNavigation.
    destruct (canNavigate p _) as [[] [] [] [] [] []];
      (destruct asv as [[|]|]; [destruct lv | destruct rv |]); destruct direction;
      try discriminate Hadm; run_event; close_inv.
  - (* ToggleView *)
    destruct s as [l r ss se h ph lv rv lyr ryr asv].
    destruct side; [destruct lv | destruct rv]; exact (conj Hv Ha).
  - (* DateSelect *)
    destruct s as [l r ss se h ph lv rv lyr ryr asv].
    run_event. destruct (isDateInRange p date); cbn [negb];
      [| exact (conj Hv Ha)].
    destruct ph; [exact (conj Hv Ha) |].
    destruct ss as [start|]; [| exact (conj Hv Ha)].
    destruct (isBefore date start); exact (conj Hv Ha).
  - (* DateHover *)
    destruct s as [l r ss se h ph lv rv lyr ryr asv].
    destruct ph; [| destruct ss]; exact (conj Hv Ha).
  - (* MouseLeave *)
    destruct s as [l r ss se h ph lv rv lyr ryr asv]. exact (conj Hv Ha).
  - (* MonthSelect *)
    destruct side.
    + destruct Hv as [Vl Vr]. destruct s as [l r ss se h ph lv rv lyr ryr asv].
      cbn [leftCurrentDate rightCurrentDate] in *.
      unfold rightAhead, calendarsValid. run_event.
      assert (Valid (clampToBounds p (setMonth l monthIdx)))
        by (apply Valid_clampToBounds; [exact Hlo | exact Hhi | apply Valid_setMonth, Vl]).
      close_inv.
    + cbn [admits] in Hadm.
      destruct (monthSelect_right p s monthIdx Hlo Hhi Hv Hadm) as (Vnd & Hpush & Hkeep).
      unfold rightAhead, calendarsValid.
      destruct (Z.le_gt_cases (monthIndex (monthSelectDate p s monthIdx))
                              (monthIndex (leftCurrentDate s))) as [Hle | Hgt].
      * destruct (Hpush Hle) as [-> ->]. unfold subMonths.
        assert (Valid (startOfMonth (monthSelectDate p s monthIdx))).
        { destruct Vnd as (Hm & Hd & _). unfold Valid, startOfMonth, msPerDay. cbn.
          pose proof (daysInMonth_bounds (dYear (monthSelectDate p s monthIdx))
                                         (dMonth (monthSelectDate p s monthIdx))). lia. }
        split; [split; auto using Valid_addMonths |].
        rewrite monthIndex_addMonths. unfold startOfMonth, monthIndex. cbn. lia.
      * destruct (Hkeep Hgt) as [-> ->]. destruct Hv as [Vl Vr].
        split; [split; assumption | lia].
  - (* YearSelect *)
    destruct side.
    + destruct Hv as [Vl Vr]. destruct s as [l r ss se h ph lv rv lyr ryr asv].
      cbn [leftCurrentDate rightCurrentDate] in *.
      unfold rightAhead, calendarsValid in *. run_event.
      destruct (isYearSelectable p year); cbn [negb];
        cbn [leftCurrentDate rightCurrentDate]; [| split; [split |]; assumption].
      assert (Valid (clampToBounds p (setFullYear l year)))
        by (apply Valid_clampToBounds; [exact Hlo | exact Hhi | apply Valid_setFullYear, Vl]).
      close_inv.
    + destruct (yearSelect_right p s year Hlo Hhi Hv) as (Hrej & Hacc).
      destruct (yearRejected p s year).
      * rewrite (Hrej eq_refl). exact (conj Hv Ha).
      * destruct (Hacc eq_refl) as (El & Er & Vr' & Hmi).
        unfold rightAhead, calendarsValid. rewrite El.
        destruct Hv as [Vl Vr]. split; [split |]; assumption.
  - (* StartDateChange *)
    destruct s as [l r ss se h ph lv rv lyr ryr asv]. destruct v; exact (conj Hv Ha).
  - (* EndDateChange *)
    destruct s as [l r ss se h ph lv rv lyr ryr asv]. destruct v; exact (conj Hv Ha).
Qed.


Lemma init_valid p now :
  validProps p = true -> Valid now ->
  calendarsValid (init p now) /\ rightAhead (init p now).
Proof.
  unfold validProps. rewrite !andb_true_iff. intros (((Hs & Hd) & Hlo) & Hhi) Hnow.
  assert (Vl : Valid (initLeftDate p now)).
  { unfold initLeftDate. destruct (startDate p) as [| | d];
      try (apply Valid_clampToBounds; [exact Hlo | exact Hhi |];
           destruct (defaultStartDate p) as [d'|];
           [apply Valid_validDate, Hd | exact Hnow]).
    apply Valid_validDate, Hs. }
  unfold calendarsValid, rightAhead, init. cbn [leftCurrentDate rightCurrentDate].
  split; [split; auto using Valid_addMonths | apply rightAhead_synced].
Qed.

Lemma runOps_preserves p ops : forall s,
  validOpt (minDate p) = true -> validOpt (maxDate p) = true ->
  calendarsValid s -> rightAhead s -> admissible p s ops = true ->
  calendarsValid (runOps p s ops) /\ rightAhead (runOps p s ops).
Proof.
  induction ops as [| op ops IH]; intros s Hlo Hhi Hv Ha Hadm; cbn [runOps].
  - exact (conj Hv Ha).
  - cbn [admissible] in Hadm. apply andb_true_iff in Hadm. destruct Hadm as [H1 H2].
    destruct (step_preserves p s op Hlo Hhi Hv Ha H1) as [Hv' Ha'].
    apply IH; assumption.
Qed.

(** An operation that does not move the right calendar alone leaves it one
    month after the left one. *)
Lemma step_synced p s op :
  rightCurrentDate s = addMonths (leftCurrentDate s) 1 ->
  movesRightAlone s op = false ->
  rightCurrentDate (step p s op) = addMonths (leftCurrentDate (step p s op)) 1.
Proof.
  intros Hs Hm.
  destruct s as [l r ss se h ph lv rv lyr ryr asv].
  cbn [leftCurrentDate rightCurrentDate] in Hs. subst r.
  destruct op as [direction | side | date | date | | side monthIdx | side year | v | v].
  - unfold movesRightAlone, isRightYearNavigation in Hm.
    cbn [activeSpecialView rightView] in Hm.
    unfold step, dispatch, handler, handleNavigation.
    destruct (canNavigate p _) as [[] [] [] [] [] []];
      (destruct asv as [[|]|]; [destruct lv | destruct rv |]); destruct direction;
      try discriminate Hm; reflexivity.
  - destruct side; [destruct lv | destruct rv]; reflexivity.
  - run_event. destruct (isDateInRange p date); cbn [negb]; [| reflexivity].
    destruct ph; [reflexivity |]. destruct ss as [start|]; [| reflexivity].
    destruct (isBefore date start); reflexivity.
  - destruct ph; [| destruct ss]; reflexivity.
  - reflexivity.
  - destruct side; [reflexivity | discriminate Hm].
  - destruct side; [| discriminate Hm].
    run_event. destruct (isYearSelectable p year); reflexivity.
  - destruct v; reflexivity.
  - destruct v; reflexivity.
Qed.

Lemma runOps_synced p ops : forall s,
  rightCurrentDate s = addMonths (leftCurrentDate s) 1 ->
  leftDriven p s ops = true ->
  rightCurrentDate (runOps p s ops) = addMonths (leftCurrentDate (runOps p s ops)) 1.
Proof.
  induction ops as [| op ops IH]; intros s Hs Hd; cbn [runOps].
  - exact Hs.
  - cbn [leftDriven] in Hd. apply andb_true_iff in Hd. destruct Hd as [H1 H2].
    apply negb_true_iff in H1. apply IH; [apply step_synced; assumption | exact H2].
Qed.

(** C2 (as the code has it). From the mount on, with valid dates in the
    props: after every sequence of operations that has no previous-year
    navigation of the right calendar (and whose right-side month selections
    carry indices 0 to 11 in years from 100 on), the right calendar shows a
    month after the left one's; and after every sequence without right-side
    month or year selection or right-side year navigation,
    [rightCurrentDate] is exactly [addMonths (leftCurrentDate, 1)]. *)
Theorem right_calendar_ahead (p : Props) (now : Date) (ops : list Op) :
  validProps p = true -> Valid now ->
  let s := runOps p (init p now) ops in
  (admissible p (init p now) ops = true ->
   monthIndex (leftCurrentDate s) + 1 <= monthIndex (rightCurrentDate s)) /\
  (leftDriven p (init p now) ops = true ->
   rightCurrentDate s = addMonths (leftCurrentDate s) 1).
Proof.
  intros Hp Hnow s. subst s. split.
  - intros Hadm. destruct (init_valid p now Hp Hnow) as [Hv Ha].
    unfold validProps in Hp. rewrite !andb_true_iff in Hp.
    destruct Hp as ((_ & Hlo) & Hhi).
    apply (runOps_preserves p ops (init p now) Hlo Hhi Hv Ha Hadm).
  - intros Hd. apply runOps_synced; [reflexivity | exact Hd].
Qed.

Lemma right_calendar_ahead_witness :
  let p := mkProps Undefined Undefined (Some (mkDate 2024 0 15 0)) None None false in
  let now := mkDate 2024 0 15 0 in
  let s := runOps p (init p now)
                  [Navigate next; ToggleView right; MonthSelect right 5;
                   ToggleView left; MonthSelect left 2] in
  monthIndex (leftCurrentDate s) + 1 <= monthIndex (rightCurrentDate s).
Proof.
  intros p now s.
  apply (right_calendar_ahead p now
           [Navigate next; ToggleView right; MonthSelect right 5;
            ToggleView left; MonthSelect left 2]);
    [reflexivity | unfold Valid, msPerDay; cbn; lia | reflexivity].
Defined.

(** C2, as stated, fails: from January 2024 on the left, the right calendar
    goes to its months view and June is picked there. Both calendars are in
    their days view again, the left on January and the right on June, not
    on February. *)
Lemma right_month_select_breaks_sync :
  let p := mkProps Undefined Undefined (Some (mkDate 2024 0 15 0)) None None false in
  let s := runOps p (init p (mkDate 2024 0 15 0))
                  [ToggleView right; MonthSelect right 5] in
  bothInDays s = true /\ activeSpecialView s = None /\
  leftCurrentDate s = mkDate 2024 0 15 0 /\
  rightCurrentDate s = mkDate 2024 5 15 0 /\
  addMonths (leftCurrentDate s) 1 = mkDate 2024 1 15 0 /\
  rightCurrentDate s <> addMonths (leftCurrentDate s) 1.
Proof.
  cbv zeta. repeat split; try reflexivity. vm_compute. discriminate.
Qed.

(** The previous-year arrow of the right calendar's months view is outside
    the runs above: it is held back by [minDate] only, and takes the right
    calendar behind the left one. *)
Lemma right_prev_year_falls_behind :
  let p := mkProps Undefined Undefined (Some (mkDate 2024 0 15 0)) None None false in
  let s := runOps p (init p (mkDate 2024 0 15 0))
                  [ToggleView right; Navigate prev; ToggleView right; ToggleView right] in
  bothInDays s = true /\ activeSpecialView s = None /\
  leftCurrentDate s = mkDate 2024 0 15 0 /\
  rightCurrentDate s = mkDate 2023 1 15 0.
Proof. cbv zeta. repeat split. Qed.

(** So are the years 0 to 99, which [new Date (y, m, 1)] reads as 1900 to
    1999: with the start in the year 120 and [maxDate] in the year 50, a
    month selection on the right compares June 1950 with February 120 and
    leaves the left calendar where it is. *)
Lemma two_digit_year_month_select :
  let p := mkProps (Given (mkDate 120 0 15 0)) Undefined None None
                   (Some (mkDate 50 5 1 0)) false in
  let s := runOps p (init p (mkDate 2024 0 15 0))
                  [ToggleView right; MonthSelect right 3] in
  leftCurrentDate s = mkDate 120 0 15 0 /\
  rightCurrentDate s = mkDate 50 5 1 86399999.
Proof. cbv zeta. split; vm_compute; reflexivity. Qed.

(** A date in bounds is left alone. *)
Lemma clampToBounds_id p d : isDateInRange p d = true -> clampToBounds p d = d.
Proof.
  unfold isDateInRange, clampToBounds.
  destruct (beforeMin (normalizedMinDate p) d); [discriminate |].
  destruct (afterMax (normalizedMaxDate p) d); [discriminate | reflexivity].
Qed.





(** The day overflow of C5: the left calendar is on 31 July 2024 and the
    right one on 31 August 2024; June is picked on the right. June has no
    31st: the computed date is 1 July 2024, whose month is not after the
    left calendar's, so the left calendar goes to 1 June 2024, the month
    asked for, not to the month before it, and the right one to 1 July. *)
Lemma right_month_select_day_overflow :
  let p := mkProps Undefined Undefined (Some (mkDate 2024 6 31 0)) None None false in
  let s := init p (mkDate 2024 6 31 0) in
  let s' := step p s (MonthSelect right 5) in
  leftCurrentDate s = mkDate 2024 6 31 0 /\
  rightCurrentDate s = mkDate 2024 7 31 0 /\
  setMonth (rightCurrentDate s) 5 = mkDate 2024 6 1 0 /\
  leftCurrentDate s' = mkDate 2024 5 1 0 /\
  rightCurrentDate s' = mkDate 2024 6 1 0 /\
  leftCurrentDate s' <> mkDate 2024 4 1 0.
Proof. cbv zeta. repeat split; try (vm_compute; reflexivity). vm_compute. discriminate. Qed.

End RangeFacts.

(* ================================================================== *)
(** * Presets and the range input: properties *)
(* ================================================================== *)

Module ShellFacts.
Import Cal Ev CalFacts Presets RangeInput.

Lemma setDate_spec d dt :
  Valid d ->
  Valid (setDate d dt) /\ dayOf (setDate d dt) = dayOf d + (dt - dDate d) /\
  dTime (setDate d dt) = dTime d.
Proof.
  intros Hv. unfold setDate.
  destruct (makeDay_spec (dYear d) (dMonth d) dt) as (V & D & _).
  split; [apply Valid_withTime; [exact V | apply Hv] | split; [| reflexivity]].
  change (dayOf (withTime (makeDay (dYear d) (dMonth d) dt) (dTime d)))
    with (dayOf (makeDay (dYear d) (dMonth d) dt)).
  rewrite D, (dayOf_month_offset d Hv). unfold monthIndex. lia.
Qed.

Lemma getDay_range d : 0 <= getDay d < 7.
Proof. unfold getDay. apply Z.mod_pos_bound. lia. Qed.

Lemma startOfWeek_spec now :
  Valid now ->
  let a := startOfWeek now in
  Valid a /\ getDay a = 0 /\ dTime a = 0 /\ dayOf a = dayOf now - getDay now /\
  (getDay now = 0 -> a = startOfDay now).
Proof.
  intros Hv a. subst a. unfold startOfWeek.
  pose proof (getDay_range now) as Hr.
  destruct (Z.ltb_spec (getDay now) 0) as [Hneg | _]; [lia |].
  replace (0 + getDay now - 0) with (getDay now) by lia.
  destruct (setDate_spec now (getDate now - getDay now) Hv) as (V & D & _).
  unfold getDate in *.
  assert (Va : Valid (withTime (setDate now (dDate now - getDay now)) 0))
    by (apply Valid_withTime; [exact V | unfold msPerDay; lia]).
  assert (Da : dayOf (withTime (setDate now (dDate now - getDay now)) 0)
               = dayOf now - getDay now) by (change (dayOf (withTime ?x 0)) with (dayOf x); lia).
  split; [exact Va | split; [| split; [reflexivity | split; [exact Da |]]]].
  - unfold getDay at 1. rewrite Da. unfold getDay. zdiv.
  - intros H0. apply Valid_eq; [exact Va | | | reflexivity].
    + unfold startOfDay. apply Valid_withTime; [exact Hv | unfold msPerDay; lia].
    + rewrite Da, H0. unfold startOfDay. change (dayOf (withTime now 0)) with (dayOf now). lia.
Qed.

Lemma endOfWeek_spec now :
  Valid now ->
  let b := endOfWeek now in
  Valid b /\ getDay b = 6 /\ dTime b = msPerDay - 1 /\
  dayOf b = dayOf now - getDay now + 6.
Proof.
  intros Hv b. subst b. unfold endOfWeek.
  pose proof (getDay_range now) as Hr.
  destruct (Z.ltb_spec (getDay now) 0) as [Hneg | _]; [lia |].
  destruct (setDate_spec now (getDate now + (0 + 6 - (getDay now - 0))) Hv) as (V & D & _).
  unfold getDate in *.
  set (x := setDate now (dDate now + (0 + 6 - (getDay now - 0)))) in *.
  assert (Vb : Valid (withTime x (msPerDay - 1)))
    by (apply Valid_withTime; [exact V | unfold msPerDay; lia]).
  assert (Db : dayOf (withTime x (msPerDay - 1)) = dayOf now - getDay now + 6)
    by (change (dayOf (withTime x (msPerDay - 1))) with (dayOf x); lia).
  split; [exact Vb | split; [| split; [reflexivity | exact Db]]].
  unfold getDay at 1. rewrite Db. unfold getDay. zdiv.
Qed.

(** C9. For every valid [now], "This Week" gives as start the Sunday on or
    before the day of [now] (that day itself on a Sunday) at the start of
    the day, and as end the Saturday six days later at the end of the day;
    and clicking any preset puts its range in the buffer of the range input
    without calling [onChange]: the input text and the open popover stay. *)
Theorem thisWeek_and_presets (now : Date) :
  Valid now ->
  (exists a b,
      getRange thisWeek now = Range.mkRange (Some a) (Some b) /\
      Valid a /\ getDay a = 0 /\ dTime a = 0 /\
      dayOf a <= dayOf now < dayOf a + 7 /\
      (getDay now = 0 -> a = startOfDay now) /\
      Valid b /\ getDay b = 6 /\ dTime b = msPerDay - 1 /\
      dayOf b = dayOf a + 6) /\
  (forall format preset p s,
      In preset presets ->
      let r := dispatch format p s (PresetClick preset now) in
      snd r = [] /\
      localStartDate (fst r) = Range.rStart (getRange preset now) /\
      localEndDate (fst r) = Range.rEnd (getRange preset now) /\
      isOpen (fst r) = isOpen s /\ inputValue (fst r) = inputValue s).
Proof.
  intros Hv. split.
  - exists (startOfWeek now), (endOfWeek now).
    destruct (startOfWeek_spec now Hv) as (Va & Ga & Ta & Da & Sa).
    destruct (endOfWeek_spec now Hv) as (Vb & Gb & Tb & Db).
    pose proof (getDay_range now).
    repeat match goal with |- _ /\ _ => split end;
      try assumption; try reflexivity; lia.
  - intros format preset p s _ r. subst r.
    destruct s as [iv o ls le]. unfold dispatch, syncOnOpen. cbn.
    rewrite andb_negb_l. repeat split.
Qed.

Lemma thisWeek_and_presets_witness :
  exists a b,
    getRange thisWeek (mkDate 2024 4 8 52200123) = Range.mkRange (Some a) (Some b) /\
    getDay a = 0 /\ getDay b = 6.
Proof.
  destruct (thisWeek_and_presets (mkDate 2024 4 8 52200123)) as [(a & b & E & _ & Ga & _ & _ & _ & _ & Gb & _) _];
    [unfold Valid, msPerDay; cbn; lia |].
  exists a, b. split; [exact E | split; [exact Ga | exact Gb]].
Defined.

(** C7 (as the code has it). Apply calls [onChange] once with the buffered
    pair and closes. Cancel closes without calling [onChange]; it puts the
    last committed pair of the props back in the buffer when only a start is
    buffered and leaves the buffer as it is otherwise, and the next opening
    re-seeds the buffer from the props. Clear empties the buffer and the
    text and calls [onChange] with (null, null) and then [clearInput] at
    once; a consumer that stores what [onChange] gives it then holds
    (null, null). *)
Theorem apply_cancel_clear
        (format : Date -> string -> string) (p : Props) (s : State) :
  (let r := dispatch format p s Apply in
   snd r = [OnChange (Range.mkRange (localStartDate s) (localEndDate s))] /\
   isOpen (fst r) = false /\
   localStartDate (fst r) = localStartDate s /\
   localEndDate (fst r) = localEndDate s) /\
  (let r := dispatch format p s Cancel in
   snd r = [] /\ isOpen (fst r) = false /\ inputValue (fst r) = inputValue s /\
   (match localStartDate s, localEndDate s with
    | Some _, None =>
        localStartDate (fst r) = orNull (startDate p) /\
        localEndDate (fst r) = orNull (endDate p)
    | _, _ =>
        localStartDate (fst r) = localStartDate s /\
        localEndDate (fst r) = localEndDate s
    end) /\
   (isDisabled p = false ->
    let r' := dispatch format p (fst r) Toggle in
    isOpen (fst r') = true /\
    localStartDate (fst r') = orNull (startDate p) /\
    localEndDate (fst r') = orNull (endDate p))) /\
  (let r := controlled format p s Clear in
   snd r = [OnChange (Range.mkRange None None); ClearInput] /\
   localStartDate (snd (fst r)) = None /\ localEndDate (snd (fst r)) = None /\
   inputValue (snd (fst r)) = EmptyString /\
   isOpen (snd (fst r)) = isOpen s /\
   startDate (fst (fst r)) = Null /\ endDate (fst (fst r)) = Null).
Proof.
  destruct s as [iv o ls le]. split; [| split].
  - unfold dispatch, syncOnOpen. cbn. rewrite andb_false_r. repeat split.
  - unfold dispatch, syncOnOpen.
    destruct ls as [a|]; destruct le as [b|]; cbn; rewrite ?andb_false_r; cbn;
      (repeat split; try reflexivity);
      unfold togglePicker;
      match goal with H : isDisabled p = false |- _ => rewrite H end;
      reflexivity.
  - unfold controlled, dispatch, syncOnOpen. cbn. rewrite andb_negb_l. cbn. repeat split.
Qed.

Lemma apply_cancel_clear_witness :
  let p := mkProps Null Null "yyyy MMM d" false false in
  let s := mkState EmptyString true (Some (mkDate 2024 4 3 0)) None in
  let r := dispatch (fun _ _ => EmptyString) p s Cancel in
  let r' := dispatch (fun _ _ => EmptyString) p (fst r) Toggle in
  isOpen (fst r') = true /\ localStartDate (fst r') = None /\ localEndDate (fst r') = None.
Proof.
  intros p s r r'.
  destruct (apply_cancel_clear (fun _ _ => EmptyString) p s) as (_ & (_ & _ & _ & _ & H) & _).
  exact (H eq_refl).
Defined.

(** C7, as stated, fails for Cancel with a complete pair in the buffer:
    nothing is committed (the props hold null and null), the buffer holds
    2024-05-03 to 2024-05-10, and Cancel closes the popover with that pair
    still in the buffer, not the committed one. *)
Lemma cancel_keeps_complete_buffer :
  let p := mkProps Null Null "yyyy MMM d" false false in
  let s := mkState EmptyString true (Some (mkDate 2024 4 3 0)) (Some (mkDate 2024 4 10 0)) in
  let r := dispatch (fun _ _ => EmptyString) p s Cancel in
  isOpen (fst r) = false /\ snd r = [] /\
  localStartDate (fst r) = Some (mkDate 2024 4 3 0) /\
  localEndDate (fst r) = Some (mkDate 2024 4 10 0) /\
  localStartDate (fst r) <> orNull (startDate p) /\
  localEndDate (fst r) <> orNull (endDate p).
Proof. cbv zeta. repeat split; try reflexivity; discriminate. Qed.

End ShellFacts.

(* ================================================================== *)
(** * The single-date overlay: further properties *)
(* ================================================================== *)

Module BasicMore.
Import Cal Ev Basic CalFacts BasicFacts.

(** ** Year windows *)

Lemma getYearRange_page (date : Date) :
  let r := getYearRange date in
  alignedWindow r /\
  rangeStart r <= getYear date <= rangeEnd r /\
  (forall date', rangeStart r <= getYear date' <= rangeEnd r ->
                 getYearRange date' = r).
Proof.
  unfold getYearRange, alignedWindow. cbn [rangeStart rangeEnd].
  split; [split; [zdiv | reflexivity] | split; [zdiv |]].
  intros date' H. f_equal; zdiv.
Qed.

(** X1. The year window of a date starts at a multiple of twelve, spans twelve
    years, contains the year of the date, and is the same window for every
    date whose year lies in it. *)
Theorem getYearRange_window (date : Date) :
  let r := getYearRange date in
  alignedWindow r /\
  rangeStart r <= getYear date <= rangeEnd r /\
  (forall date', rangeStart r <= getYear date' <= rangeEnd r ->
                 getYearRange date' = r).
Proof. exact (getYearRange_page date). Qed.

Lemma getYearRange_window_witness :
  getYearRange (mkDate 2027 0 1 0) = getYearRange (mkDate 2024 4 8 52200123).
Proof.
  destruct (getYearRange_window (mkDate 2024 4 8 52200123)) as (_ & _ & H).
  apply H. unfold getYear. cbn. lia.
Defined.

Lemma getTime_startOfDay d : getTime (startOfDay d) = dayOf d * msPerDay.
Proof. unfold getTime, startOfDay, withTime, dayOf. cbn. lia. Qed.

Lemma getTime_endOfDay d : getTime (endOfDay d) = dayOf d * msPerDay + (msPerDay - 1).
Proof. unfold getTime, endOfDay, withTime, dayOf. cbn. lia. Qed.

(** [isDateInRange] by day numbers. *)
Lemma isDateInRange_days p d :
  0 <= dTime d < msPerDay ->
  isDateInRange p d =
  match minDate p with Some m => dayOf m <=? dayOf d | None => true end &&
  match maxDate p with Some m => dayOf d <=? dayOf m | None => true end.
Proof.
  intros Ht. unfold isDateInRange, normalizedMinDate, normalizedMaxDate, beforeMin, afterMax,
    isBefore, isAfter.
  destruct (minDate p) as [lo|]; destruct (maxDate p) as [hi|]; cbn [option_map];
    rewrite ?getTime_startOfDay, ?getTime_endOfDay; unfold getTime, msPerDay in *;
    repeat match goal with
           | |- context [?a <? ?b] => destruct (Z.ltb_spec a b)
           | |- context [?a <=? ?b] => destruct (Z.leb_spec a b)
           end; cbn; try reflexivity; lia.
Qed.

(** X2. The bounds of the overlay look at the calendar day only: two instants of
    the same day are both in range or both out of range, whatever the times
    of day of minDate and maxDate. *)
Theorem isDateInRange_by_day (p : Props) (d d' : Date) :
  0 <= dTime d < msPerDay -> 0 <= dTime d' < msPerDay ->
  dayOf d = dayOf d' ->
  isDateInRange p d = isDateInRange p d'.
Proof.
  intros Ht Ht' Hd. rewrite !isDateInRange_days by assumption. rewrite Hd. reflexivity.
Qed.

Lemma isDateInRange_by_day_witness :
  let p := mkProps Undefined None (Some (mkDate 2024 4 1 0)) (Some (mkDate 2024 4 10 0))
                   false 30 "00:00" "23:59" in
  isDateInRange p (mkDate 2024 4 10 0) = isDateInRange p (mkDate 2024 4 10 86399999).
Proof.
  intros p. apply isDateInRange_by_day; unfold msPerDay; cbn; try lia; reflexivity.
Defined.

Lemma isTimeOfDay_parse t :
  isTimeOfDay t = true ->
  exists h mi, parseTime t = Some (h, mi) /\ 0 <= h <= 23 /\ 0 <= mi <= 59.
Proof.
  unfold isTimeOfDay. destruct (parseTime t) as [[h mi]|] eqn:E; [|discriminate].
  rewrite andb_true_iff, !Z.leb_le. intros [Hh Hmi].
  destruct (parseTime_nonneg _ _ _ E). exists h, mi. repeat split; try assumption; lia.
Qed.

Lemma combine_same_day (p : Props) (d : Date) (timeString : string) :
  Valid d -> isTimeOfDay timeString = true ->
  exists c, combineDateAndTime d timeString = Some c /\
            Valid c /\ dayOf c = dayOf d /\
            isDateInRange p c = isDateInRange p d.
Proof.
  intros Hv Ht. destruct (isTimeOfDay_parse _ Ht) as (h & mi & E & Hh & Hmi).
  unfold combineDateAndTime. rewrite E. rewrite (combine_time d h mi Hv Hh Hmi).
  destruct (time_fields d h mi Hv Hh Hmi) as (Vc & _).
  eexists. split; [reflexivity |]. split; [exact Vc |]. split; [reflexivity |].
  rewrite !isDateInRange_days by (apply Vc || apply Hv). reflexivity.
Qed.

(** X3. Combining a date with a time string of an hour up to 23 and a minute up
    to 59 gives a date on the same calendar day, which is in bounds exactly
    when the date was. *)
Theorem combine_keeps_day (p : Props) (d : Date) (timeString : string) :
  Valid d -> isTimeOfDay timeString = true ->
  exists c, combineDateAndTime d timeString = Some c /\
            Valid c /\ dayOf c = dayOf d /\
            isDateInRange p c = isDateInRange p d.
Proof. exact (combine_same_day p d timeString). Qed.

Lemma combine_keeps_day_witness :
  let p := mkProps Undefined None None (Some (mkDate 2024 2 10 0)) true 30 "00:00" "23:59" in
  exists c, combineDateAndTime (mkDate 2024 2 10 0) "23:30" = Some c /\
            isDateInRange p c = true.
Proof.
  intros p.
  destruct (combine_keeps_day p (mkDate 2024 2 10 0) "23:30") as (c & E & _ & _ & R);
    [unfold Valid, msPerDay; cbn; lia | reflexivity |].
  exists c. split; [exact E | rewrite R; reflexivity].
Defined.

Lemma inBoundsOrNull_Some p d :
  inBoundsOrNull p (Some d) = true <-> Valid d /\ isDateInRange p d = true.
Proof.
  unfold inBoundsOrNull. rewrite andb_true_iff, <- Valid_validDate. tauto.
Qed.

(** One guarded event: what it emits is a date in bounds, and the selected
    date stays in bounds. *)
Lemma event_in_bounds p s e :
  eventGuard e = true -> inBoundsOrNull p (selectedDate s) = true ->
  exists h, handle p s e = Some h /\
            Forall (fun n => n <> None /\ inBoundsOrNull p n = true) (snd (run h s)) /\
            inBoundsOrNull p (selectedDate (fst (run h s))) = true.
Proof.
  intros Hg Hs. destruct s as [cd sd v yr st]. cbn [selectedDate] in Hs.
  destruct e as [date | t | today | val]; cbn [eventGuard] in Hg; try discriminate.
  - eexists. split; [reflexivity |]. unfold handleDateSelect.
    destruct (isDateInRange p date) eqn:Hin.
    + assert (Hb : inBoundsOrNull p (Some date) = true)
        by (unfold inBoundsOrNull; rewrite Hg, Hin; reflexivity).
      destruct (showTimeSelect p); cbn; (split; [| exact Hb]).
      * constructor.
      * repeat constructor; [discriminate | exact Hb].
    + cbn. split; [constructor | exact Hs].
  - unfold handle, handleTimeSelect. cbn [selectedDate].
    destruct sd as [d|].
    + apply inBoundsOrNull_Some in Hs. destruct Hs as [Vd Hin].
      destruct (combine_same_day p d t Vd Hg) as (c & E & Vc & _ & R).
      rewrite E. eexists. split; [reflexivity |]. cbn.
      split; [| apply inBoundsOrNull_Some; split; assumption].
      repeat constructor; [discriminate |].
      apply inBoundsOrNull_Some. split; [exact Vc | rewrite R; exact Hin].
    + eexists. split; [reflexivity |]. cbn. split; [constructor | reflexivity].
  - eexists. split; [reflexivity |]. unfold handleSelectToday.
    destruct (isDateInRange p today) eqn:Hin.
    + assert (Hb : inBoundsOrNull p (Some today) = true)
        by (unfold inBoundsOrNull; rewrite Hg, Hin; reflexivity).
      destruct (showTimeSelect p); cbn; (split; [| exact Hb]).
      * constructor.
      * repeat constructor; [discriminate | exact Hb].
    + cbn. split; [constructor | exact Hs].
Qed.

(** X4. While the value prop does not change, whatever days, times of the day
    and Today the user picks, starting with no selected date or one in
    bounds: no handler fails, every onChange call receives a date (never
    null) that lies within the bounds, and the selected date stays in
    bounds. *)
Theorem onChange_in_bounds (p : Props) (es : list Event) : forall (s : State),
  forallb eventGuard es = true ->
  inBoundsOrNull p (selectedDate s) = true ->
  exists s' out,
    runEvents p s es = Some (s', out) /\
    Forall (fun n => exists d, n = Some d /\ Valid d /\ isDateInRange p d = true) out /\
    inBoundsOrNull p (selectedDate s') = true.
Proof.
  induction es as [| e es IH]; intros s Hg Hs.
  - exists s, []. split; [reflexivity | split; [constructor | exact Hs]].
  - cbn [forallb] in Hg. apply andb_true_iff in Hg. destruct Hg as [Hge Hges].
    destruct (event_in_bounds p s e Hge Hs) as (h & Eh & Hout & Hs1).
    cbn [runEvents]. rewrite Eh. destruct (run h s) as [s1 out1] eqn:Er.
    cbn [fst snd] in *.
    destruct (IH s1 Hges Hs1) as (s2 & out2 & E2 & Hout2 & Hs2).
    rewrite E2. exists s2, (out1 ++ out2).
    split; [reflexivity | split; [| exact Hs2]].
    apply Forall_app. split; [| exact Hout2].
    eapply Forall_impl; [| exact Hout]. intros [d|] [Hn Hb]; [| contradiction].
    exists d. split; [reflexivity |]. apply inBoundsOrNull_Some, Hb.
Qed.

Lemma onChange_in_bounds_witness :
  let p := mkProps Undefined None (Some (mkDate 2024 2 1 0)) (Some (mkDate 2024 2 20 0))
                   true 30 "00:00" "23:59" in
  exists s' out,
    runEvents p (init p (mkDate 2024 2 5 0))
              [DateSelect (mkDate 2024 2 10 0); TimeSelect "14:30";
               DateSelect (mkDate 2024 2 25 0); TimeSelect "09:00"] = Some (s', out) /\
    Forall (fun n => exists d, n = Some d /\ Valid d /\ isDateInRange p d = true) out.
Proof.
  intros p.
  destruct (onChange_in_bounds p
              [DateSelect (mkDate 2024 2 10 0); TimeSelect "14:30";
               DateSelect (mkDate 2024 2 25 0); TimeSelect "09:00"]
              (init p (mkDate 2024 2 5 0))) as (s' & out & E & H & _);
    [reflexivity | reflexivity |].
  exists s', out. split; assumption.
Defined.


(** ** Month and year cells *)

Lemma clampToBounds_cases (P : Date -> Prop) p d :
  P d ->
  (forall m, minDate p = Some m -> P (startOfDay m)) ->
  (forall m, maxDate p = Some m -> P (endOfDay m)) ->
  P (clampToBounds p d).
Proof.
  intros Hd Hlo Hhi. unfold clampToBounds, normalizedMinDate, normalizedMaxDate.
  destruct (minDate p) as [lo|]; destruct (maxDate p) as [hi|]; cbn [option_map beforeMin afterMax];
    repeat match goal with |- context [if ?b then _ else _] => destruct b end;
    auto.
Qed.

Lemma clampToBounds_in_range p d :
  boundsOrdered p = true -> isDateInRange p (clampToBounds p d) = true.
Proof.
  unfold boundsOrdered, clampToBounds, isDateInRange, normalizedMinDate, normalizedMaxDate,
    beforeMin, afterMax, isBefore, isAfter.
  destruct (minDate p) as [lo|]; destruct (maxDate p) as [hi|]; cbn [option_map]; intros Ho;
    try apply negb_true_iff in Ho;
    repeat match goal with
           | H : (_ <? _) = false |- _ => apply Z.ltb_ge in H
           | |- context [?a <? ?b] =>
               lazymatch a with context [if _ then _ else _] => fail | _ => idtac end;
               lazymatch b with context [if _ then _ else _] => fail | _ => idtac end;
               destruct (Z.ltb_spec a b)
           end; try reflexivity; lia.
Qed.

Lemma Valid_clampToBounds_overlay p d :
  validOpt (minDate p) = true -> validOpt (maxDate p) = true ->
  Valid d -> Valid (clampToBounds p d).
Proof.
  intros Hlo Hhi Hd. apply clampToBounds_cases; [exact Hd | |]; intros m Hm.
  - apply RangeFacts.Valid_startOfDay. exact (RangeFacts.validOpt_Some _ _ Hlo Hm).
  - apply RangeFacts.Valid_endOfDay. exact (RangeFacts.validOpt_Some _ _ Hhi Hm).
Qed.

(** X5. When the day of minDate is not after the day of maxDate, a month cell
    always leaves the calendar on a date within the bounds, in days view,
    without calling onChange and without touching the selection or the year
    window; a selectable year cell does the same, and a year cell that is
    not selectable changes nothing. *)
Theorem month_year_select_clamp (p : Props) (s : State) (monthIndex year : Z) :
  boundsOrdered p = true ->
  (let r := run (handleMonthSelect p s monthIndex) s in
   isDateInRange p (currentDate (fst r)) = true /\
   view (fst r) = days /\ snd r = [] /\
   selectedDate (fst r) = selectedDate s /\ selectedTime (fst r) = selectedTime s /\
   yearRange (fst r) = yearRange s) /\
  (let r := run (handleYearSelect p s year) s in
   (isYearSelectable p year = false -> r = (s, [])) /\
   (isYearSelectable p year = true ->
    isDateInRange p (currentDate (fst r)) = true /\
    view (fst r) = days /\ snd r = [] /\
    selectedDate (fst r) = selectedDate s /\ selectedTime (fst r) = selectedTime s /\
    yearRange (fst r) = yearRange s)).
Proof.
  intros Ho. destruct s as [cd sd v yr st]. split.
  - cbn. repeat split. apply clampToBounds_in_range, Ho.
  - unfold handleYearSelect. destruct (isYearSelectable p year).
    + split; [discriminate | intros _]. cbn. repeat split.
      apply clampToBounds_in_range, Ho.
    + split; [reflexivity | discriminate].
Qed.

Lemma month_year_select_clamp_witness :
  let p := mkProps Undefined None (Some (mkDate 2024 2 10 0)) (Some (mkDate 2024 8 20 0))
                   false 30 "00:00" "23:59" in
  let s := init p (mkDate 2024 4 15 0) in
  currentDate (fst (run (handleMonthSelect p s 0) s)) = mkDate 2024 2 10 0 /\
  isDateInRange p (currentDate (fst (run (handleMonthSelect p s 0) s))) = true.
Proof.
  intros p s. split; [reflexivity |].
  destruct (month_year_select_clamp p s 0 2024) as [(H & _) _]; [reflexivity | exact H].
Defined.

Lemma getTime_le_year a b :
  Valid a -> Valid b -> getTime a <= getTime b -> dYear a <= dYear b.
Proof.
  intros Va Vb Hle. pose proof (getTime_le_monthIndex a b Va Vb Hle) as Hmi.
  rewrite (dYear_of_monthIndex a Va), (dYear_of_monthIndex b Vb). zdiv.
Qed.

Lemma isYearSelectable_spec p year :
  isYearSelectable p year = true <->
  (forall m, minDate p = Some m -> dYear m <= year) /\
  (forall m, maxDate p = Some m -> year <= dYear m).
Proof.
  unfold isYearSelectable, normalizedMinDate, normalizedMaxDate, getYear.
  destruct (minDate p) as [lo|]; destruct (maxDate p) as [hi|]; cbn [option_map];
    cbn [startOfDay endOfDay withTime dYear];
    repeat match goal with
           | |- context [?a <? ?b] => destruct (Z.ltb_spec a b)
           end;
    (split;
     [ intros Hsel; try discriminate Hsel;
       split; intros m Hm; (discriminate Hm || (injection Hm as <-; lia))
     | intros [Hmin Hmax]; try reflexivity;
       try (specialize (Hmin _ eq_refl)); try (specialize (Hmax _ eq_refl)); lia ]).
Qed.

Lemma yearSelect_year (p : Props) (s : State) (year : Z) :
  validOpt (minDate p) = true -> validOpt (maxDate p) = true ->
  Valid (currentDate s) ->
  isYearSelectable p year = true ->
  let s' := fst (run (handleYearSelect p s year) s) in
  getYear (currentDate s') = year /\ Valid (currentDate s').
Proof.
  intros Hlo Hhi Hv Hsel. unfold handleYearSelect. rewrite Hsel.
  destruct s as [cd sd v yr st]. cbn [currentDate] in *. cbn.
  pose proof (Valid_setFullYear cd year Hv) as Vn.
  pose proof (dYear_setFullYear cd year Hv) as Yn.
  apply isYearSelectable_spec in Hsel. destruct Hsel as [Smin Smax].
  split; [| apply Valid_clampToBounds_overlay; assumption].
  unfold getYear, clampToBounds, normalizedMinDate, normalizedMaxDate, beforeMin, afterMax,
    isBefore, isAfter.
  destruct (minDate p) as [lo|] eqn:Elo; destruct (maxDate p) as [hi|] eqn:Ehi;
    cbn [option_map];
    repeat match goal with
           | |- context [?a <? ?b] => destruct (Z.ltb_spec a b)
           end; try exact Yn;
    try (specialize (Smin _ eq_refl)); try (specialize (Smax _ eq_refl)).
  all: try match goal with
       | H : getTime _ < getTime (startOfDay ?lo) |- dYear (startOfDay ?lo) = _ =>
           pose proof (getTime_le_year _ _ Vn
                         (RangeFacts.Valid_startOfDay lo (RangeFacts.validOpt_Some _ _ Hlo eq_refl))
                         (Z.lt_le_incl _ _ H));
           cbn [startOfDay withTime dYear] in *; lia
       | H : getTime (endOfDay ?hi) < getTime _ |- dYear (endOfDay ?hi) = _ =>
           pose proof (getTime_le_year _ _
                         (RangeFacts.Valid_endOfDay hi (RangeFacts.validOpt_Some _ _ Hhi eq_refl))
                         Vn (Z.lt_le_incl _ _ H));
           cbn [endOfDay withTime dYear] in *; lia
       end.
Qed.

(** X6. A selectable year cell leaves the calendar on a date of that year, also
    when the date had to be moved to a bound. *)
Theorem year_select_lands_in_year (p : Props) (s : State) (year : Z) :
  validOpt (minDate p) = true -> validOpt (maxDate p) = true ->
  Valid (currentDate s) ->
  isYearSelectable p year = true ->
  let s' := fst (run (handleYearSelect p s year) s) in
  getYear (currentDate s') = year /\ Valid (currentDate s').
Proof. exact (yearSelect_year p s year). Qed.

Lemma year_select_lands_in_year_witness :
  let p := mkProps Undefined None (Some (mkDate 2024 5 10 0)) None false 30 "00:00" "23:59" in
  let s := init p (mkDate 2025 1 15 0) in
  getYear (currentDate (fst (run (handleYearSelect p s 2024) s))) = 2024.
Proof.
  intros p s.
  apply (year_select_lands_in_year p s 2024);
    [reflexivity | reflexivity | unfold Valid, msPerDay; cbn; lia | reflexivity].
Defined.


(** X7. Without bounds, a month cell keeps the day of the month when the chosen
    month has that day; when it has not, the date runs over into the month
    after the chosen one (day 31 and April give 1 May), so the calendar
    shows the month after the cell that was clicked. *)
Theorem month_select_overflow (p : Props) (s : State) (monthIndex : Z) :
  minDate p = None -> maxDate p = None ->
  Valid (currentDate s) -> 0 <= monthIndex < 12 ->
  let c := currentDate s in
  let c' := currentDate (fst (run (handleMonthSelect p s monthIndex) s)) in
  (dDate c <= daysInMonth (dYear c) monthIndex ->
   c' = mkDate (dYear c) monthIndex (dDate c) (dTime c)) /\
  (daysInMonth (dYear c) monthIndex < dDate c ->
   c' = mkDate (dYear c) (monthIndex + 1)
               (dDate c - daysInMonth (dYear c) monthIndex) (dTime c)).
Proof.
  intros Hlo Hhi Hv Hm. destruct s as [cd sd v yr st]. cbn [currentDate] in *. cbn.
  unfold clampToBounds, normalizedMinDate, normalizedMaxDate. rewrite Hlo, Hhi. cbn.
  rewrite (setMonth_overflow cd monthIndex Hv Hm).
  split; intros H.
  - destruct (Z.leb_spec (dDate cd) (daysInMonth (dYear cd) monthIndex)); [reflexivity | lia].
  - destruct (Z.leb_spec (dDate cd) (daysInMonth (dYear cd) monthIndex)); [lia | reflexivity].
Qed.

Lemma month_select_overflow_witness :
  let p := mkProps Undefined None None None false 30 "00:00" "23:59" in
  let s := init p (mkDate 2023 0 31 0) in
  currentDate (fst (run (handleMonthSelect p s 1) s)) = mkDate 2023 2 3 0.
Proof.
  intros p s.
  destruct (month_select_overflow p s 1) as [_ H];
    [reflexivity | reflexivity | unfold Valid, msPerDay; cbn; lia | lia |].
  apply H. cbn. lia.
Defined.

(** ** The arrows *)

Lemma Valid_endOfMonth d : Valid d -> Valid (endOfMonth d).
Proof.
  intros (Hm & Hd & _). pose proof (daysInMonth_bounds (dYear d) (dMonth d)).
  unfold Valid, endOfMonth, msPerDay. cbn. lia.
Qed.

Lemma Valid_startOfMonth d : Valid d -> Valid (startOfMonth d).
Proof.
  intros (Hm & Hd & _). pose proof (daysInMonth_bounds (dYear d) (dMonth d)).
  unfold Valid, startOfMonth, msPerDay. cbn. lia.
Qed.

(** The end of a month is not before a date exactly when the date is in
    that month or an earlier one. *)
Lemma endOfMonth_not_before a b :
  Valid a -> Valid b ->
  (getTime a <= getTime (endOfMonth b) <-> monthIndex a <= monthIndex b).
Proof.
  intros Va Vb. pose proof (Valid_endOfMonth b Vb) as Ve. split.
  - intros H. apply (getTime_le_monthIndex a (endOfMonth b) Va Ve H).
  - intros H. destruct (Z.eq_dec (monthIndex a) (monthIndex b)) as [E | N].
    + unfold getTime. rewrite (dayOf_month_offset a Va),
        (dayOf_month_offset _ Ve).
      change (monthIndex (endOfMonth b)) with (monthIndex b). rewrite E.
      destruct (monthIndex_split a Va) as [Ya Ma]. destruct (monthIndex_split b Vb) as [Yb Mb].
      rewrite E in Ya, Ma. rewrite Yb in Ya. rewrite Mb in Ma.
      destruct Va as (_ & Hd & Ht). rewrite <- Ya, <- Ma in Hd.
      unfold endOfMonth, msPerDay in *. cbn [dDate dTime]. lia.
    + pose proof (monthIndex_lt_getTime a (endOfMonth b) Va Ve).
      change (monthIndex (endOfMonth b)) with (monthIndex b) in *. lia.
Qed.

Lemma startOfMonth_not_after a b :
  Valid a -> Valid b ->
  (getTime (startOfMonth a) <= getTime b <-> monthIndex a <= monthIndex b).
Proof.
  intros Va Vb. pose proof (Valid_startOfMonth a Va) as Vs. split.
  - intros H. apply (getTime_le_monthIndex (startOfMonth a) b Vs Vb H).
  - intros H. destruct (Z.eq_dec (monthIndex a) (monthIndex b)) as [E | N].
    + unfold getTime. rewrite (dayOf_month_offset b Vb),
        (dayOf_month_offset _ Vs).
      change (monthIndex (startOfMonth a)) with (monthIndex a). rewrite E.
      destruct Vb as (_ & Hd & Ht).
      unfold startOfMonth, msPerDay in *. cbn [dDate dTime]. lia.
    + pose proof (monthIndex_lt_getTime (startOfMonth a) b Vs Vb).
      change (monthIndex (startOfMonth a)) with (monthIndex a) in *. lia.
Qed.

Lemma month_arrows_iff (p : Props) (s : State) :
  validOpt (minDate p) = true -> validOpt (maxDate p) = true ->
  Valid (currentDate s) ->
  (canNavigateToPrevMonth p s = true <->
   forall m, minDate p = Some m -> monthIndex m <= monthIndex (currentDate s) - 1) /\
  (canNavigateToNextMonth p s = true <->
   forall m, maxDate p = Some m -> monthIndex (currentDate s) + 1 <= monthIndex m) /\
  (view s = days ->
   currentDate (afterClick p s ClickPrev) =
     (if canNavigateToPrevMonth p s then subMonths (currentDate s) 1 else currentDate s) /\
   currentDate (afterClick p s ClickNext) =
     (if canNavigateToNextMonth p s then addMonths (currentDate s) 1 else currentDate s)).
Proof.
  intros Hlo Hhi Hv. split; [| split].
  - unfold canNavigateToPrevMonth, normalizedMinDate.
    destruct (minDate p) as [lo|] eqn:Elo; cbn [option_map].
    + pose proof (RangeFacts.validOpt_Some _ _ Hlo eq_refl) as Vlo.
      pose proof (endOfMonth_not_before (startOfDay lo) (subMonths (currentDate s) 1)
                    (RangeFacts.Valid_startOfDay lo Vlo)
                    (Valid_addMonths _ _ Hv)) as Hiff.
      unfold subMonths in Hiff. rewrite monthIndex_addMonths in Hiff.
      change (monthIndex (startOfDay lo)) with (monthIndex lo) in Hiff.
      unfold isBefore, subMonths.
      rewrite negb_true_iff, Z.ltb_ge. split.
      * intros H m [= <-]. apply Hiff in H. lia.
      * intros H. apply Hiff. specialize (H lo eq_refl). lia.
    + split; [intros _ m Hm; discriminate Hm | reflexivity].
  - unfold canNavigateToNextMonth, normalizedMaxDate.
    destruct (maxDate p) as [hi|] eqn:Ehi; cbn [option_map].
    + pose proof (RangeFacts.validOpt_Some _ _ Hhi eq_refl) as Vhi.
      pose proof (startOfMonth_not_after (addMonths (currentDate s) 1) (endOfDay hi)
                    (Valid_addMonths _ _ Hv)
                    (RangeFacts.Valid_endOfDay hi Vhi)) as Hiff.
      rewrite monthIndex_addMonths in Hiff.
      change (monthIndex (endOfDay hi)) with (monthIndex hi) in Hiff.
      unfold isAfter. rewrite negb_true_iff, Z.ltb_ge. split.
      * intros H m [= <-]. apply Hiff in H. lia.
      * intros H. apply Hiff. specialize (H hi eq_refl). lia.
    + split; [intros _ m Hm; discriminate Hm | reflexivity].
  - intros Hview. destruct s as [cd sd v yr st]. cbn [view currentDate] in *. subst v.
    unfold afterClick, click, handlePrev, handleNext, prevMonth, nextMonth. cbn [view].
    split.
    + destruct (canNavigateToPrevMonth p _); reflexivity.
    + destruct (canNavigateToNextMonth p _); reflexivity.
Qed.

(** X8. In days view the previous-month arrow is live exactly when minDate is
    absent or lies in a month before the displayed one, and the next-month
    arrow exactly when maxDate is absent or lies in a month after it; a live
    arrow moves the calendar by one month and a dead one leaves it where it
    is. *)
Theorem month_arrows_live (p : Props) (s : State) :
  validOpt (minDate p) = true -> validOpt (maxDate p) = true ->
  Valid (currentDate s) ->
  (canNavigateToPrevMonth p s = true <->
   forall m, minDate p = Some m -> monthIndex m <= monthIndex (currentDate s) - 1) /\
  (canNavigateToNextMonth p s = true <->
   forall m, maxDate p = Some m -> monthIndex (currentDate s) + 1 <= monthIndex m) /\
  (view s = days ->
   currentDate (afterClick p s ClickPrev) =
     (if canNavigateToPrevMonth p s then subMonths (currentDate s) 1 else currentDate s) /\
   currentDate (afterClick p s ClickNext) =
     (if canNavigateToNextMonth p s then addMonths (currentDate s) 1 else currentDate s)).
Proof. exact (month_arrows_iff p s). Qed.

Lemma month_arrows_live_witness :
  let p := mkProps Undefined None (Some (mkDate 2024 4 20 0)) None false 30 "00:00" "23:59" in
  canNavigateToPrevMonth p (init p (mkDate 2024 5 3 0)) = true /\
  canNavigateToPrevMonth p (init p (mkDate 2024 4 25 0)) = false.
Proof.
  intros p. split.
  - destruct (month_arrows_live p (init p (mkDate 2024 5 3 0))) as [[_ H] _];
      [reflexivity | reflexivity | unfold Valid, msPerDay; cbn; lia |].
    apply H. intros m Hm. injection Hm as <-. vm_compute. discriminate.
  - reflexivity.
Defined.


(** X9. No sequence of clicks on the calendar takes the year window off the
    twelve-year pages: it keeps starting at a multiple of twelve and
    spanning twelve years. *)
Theorem window_stays_aligned (p : Props) (cs : list Click) : forall (s : State),
  alignedWindow (yearRange s) ->
  alignedWindow (yearRange (afterClicks p s cs)).
Proof.
  induction cs as [| c cs IH]; intros s Ha; cbn [afterClicks]; [exact Ha |].
  apply IH. destruct s as [cd sd v yr st]. cbn [yearRange] in Ha.
  unfold afterClick, click.
  destruct c as [ | | | | mi | y | d | t].
  - unfold handlePrev, prevMonth, prevYearRange. cbn [view].
    destruct v; [destruct (canNavigateToPrevMonth p _); exact Ha
                | destruct (match normalizedMinDate p with Some _ => _ | None => _ end); exact Ha |].
    destruct (canNavigateToPrevYearRange p _); [| exact Ha].
    cbn. unfold alignedWindow in *. cbn [rangeStart rangeEnd]. destruct Ha. split; [zdiv | lia].
  - unfold handleNext, nextMonth, nextYearRange. cbn [view].
    destruct v; [destruct (canNavigateToNextMonth p _); exact Ha
                | destruct (match normalizedMaxDate p with Some _ => _ | None => _ end); exact Ha |].
    destruct (canNavigateToNextYearRange p _); [| exact Ha].
    cbn. unfold alignedWindow in *. cbn [rangeStart rangeEnd]. destruct Ha. split; [zdiv | lia].
  - exact Ha.
  - cbn. apply getYearRange_page.
  - exact Ha.
  - unfold handleYearSelect. destruct (isYearSelectable p y); exact Ha.
  - unfold handleDateSelect. destruct (isDateInRange p d); [destruct (showTimeSelect p) |]; exact Ha.
  - unfold handleSelectToday. destruct (isDateInRange p t); [destruct (showTimeSelect p) |]; exact Ha.
Qed.

Lemma window_stays_aligned_witness :
  let p := mkProps Undefined None None None false 30 "00:00" "23:59" in
  alignedWindow (yearRange (afterClicks p (init p (mkDate 2024 4 15 0))
                                        [ClickYears; ClickPrev; ClickPrev; ClickYear 2001;
                                         ClickYears; ClickNext])).
Proof.
  intros p. apply (window_stays_aligned p). apply getYearRange_page.
Defined.

(** X10. In years view the previous arrow moves the window back by one page of
    twelve years when minDate is absent or its year is not after the first
    year of that page, and leaves it otherwise; the next arrow moves it on
    by one page when maxDate is absent or its year is not before the first
    year of the next page, and leaves it otherwise. The displayed date does
    not change. *)
Theorem year_window_arrows (p : Props) (s : State) :
  view s = years ->
  let w := yearRange s in
  let wp := yearRange (afterClick p s ClickPrev) in
  let wn := yearRange (afterClick p s ClickNext) in
  ((forall m, minDate p = Some m -> getYear m <= rangeStart w - 12) ->
   wp = mkYearRange (rangeStart w - 12) (rangeStart w - 1) /\
   forall y, rangeStart wp <= y -> forall m, minDate p = Some m -> getYear m <= y) /\
  ((exists m, minDate p = Some m /\ rangeStart w - 12 < getYear m) -> wp = w) /\
  ((forall m, maxDate p = Some m -> rangeEnd w + 1 <= getYear m) ->
   wn = mkYearRange (rangeEnd w + 1) (rangeEnd w + 12)) /\
  ((exists m, maxDate p = Some m /\ getYear m < rangeEnd w + 1) -> wn = w) /\
  currentDate (afterClick p s ClickPrev) = currentDate s /\
  currentDate (afterClick p s ClickNext) = currentDate s.
Proof.
  intros Hview. destruct s as [cd sd v yr st]. cbn [view yearRange] in *. subst v.
  unfold afterClick, click, handlePrev, handleNext, prevYearRange, nextYearRange,
    canNavigateToPrevYearRange, canNavigateToNextYearRange, normalizedMinDate, normalizedMaxDate.
  cbn [view yearRange].
  destruct (minDate p) as [lo|]; destruct (maxDate p) as [hi|]; cbn [option_map];
    change (getYear (startOfDay ?x)) with (getYear x);
    change (getYear (endOfDay ?x)) with (getYear x);
    repeat match goal with
           | |- context [?a <=? ?b] => destruct (Z.leb_spec a b)
           end; cbn;
    repeat split;
    repeat match goal with
           | |- forall _, _ => intro
           | H : exists _, _ |- _ => destruct H as (? & ? & ?)
           | H : Some _ = Some _ |- _ => injection H as <-
           | H : None = Some _ |- _ => discriminate H
           | H : forall m, Some ?a = Some m -> _ |- _ => specialize (H a eq_refl)
           end; try reflexivity; try lia; try (f_equal; lia).
Qed.

Lemma year_window_arrows_witness :
  let p := mkProps Undefined None (Some (mkDate 2020 0 1 0)) None false 30 "00:00" "23:59" in
  let s := afterClick p (afterClick p (init p (mkDate 2030 0 1 0)) ClickYears) ClickPrev in
  yearRange s = mkYearRange 2028 2039.
Proof.
  intros p s.
  destruct (year_window_arrows p (afterClick p (init p (mkDate 2030 0 1 0)) ClickYears))
    as (_ & H & _); [reflexivity |].
  apply H. exists (mkDate 2020 0 1 0). split; [reflexivity | cbn; lia].
Defined.


Lemma div12_le a b : a <= b -> a / 12 <= b / 12.
Proof. intros H. zdiv. Qed.

Lemma Valid_newDateYMD_jan1 y : 100 <= y -> newDateYMD y 0 1 = mkDate y 0 1 0.
Proof.
  intros Hy. rewrite RangeFacts.newDateYMD_first by exact Hy.
  f_equal. change (0 / 12) with 0. lia.
Qed.

Lemma Valid_jan1 y : Valid (mkDate y 0 1 0).
Proof. unfold Valid, msPerDay. cbn. lia. Qed.

Lemma isDateInRange_bounds p d :
  isDateInRange p d = true ->
  (forall m, minDate p = Some m -> getTime (startOfDay m) <= getTime d) /\
  (forall m, maxDate p = Some m -> getTime d <= getTime (endOfDay m)).
Proof.
  unfold isDateInRange, normalizedMinDate, normalizedMaxDate, beforeMin, afterMax,
    isBefore, isAfter.
  destruct (minDate p) as [lo|]; destruct (maxDate p) as [hi|]; cbn [option_map];
    repeat match goal with
           | |- context [?a <? ?b] => destruct (Z.ltb_spec a b)
           end;
    intros Hin; try discriminate Hin;
    (split; intros m Hm; (discriminate Hm || (injection Hm as <-; lia))).
Qed.

Lemma isDateInRange_year p d :
  validOpt (minDate p) = true -> validOpt (maxDate p) = true ->
  Valid d -> isDateInRange p d = true -> isYearSelectable p (getYear d) = true.
Proof.
  intros Hlo Hhi Vd Hin. apply isYearSelectable_spec.
  apply isDateInRange_bounds in Hin. destruct Hin as [H1 H2].
  split; intros m Hm.
  - pose proof (RangeFacts.validOpt_Some _ _ Hlo Hm) as Vm.
    apply (getTime_le_year (startOfDay m) d (RangeFacts.Valid_startOfDay m Vm) Vd (H1 m Hm)).
  - pose proof (RangeFacts.validOpt_Some _ _ Hhi Hm) as Vm.
    apply (getTime_le_year d (endOfDay m) Vd (RangeFacts.Valid_endOfDay m Vm) (H2 m Hm)).
Qed.


Lemma click_keeps_year p s c :
  validOpt (minDate p) = true -> validOpt (maxDate p) = true ->
  yearShown p s -> clickGuard s c = true -> yearShown p (afterClick p s c).
Proof.
  intros Hlo Hhi [Hv Hy] Hg.
  pose proof Hy as Hy'. apply isYearSelectable_spec in Hy'. destruct Hy' as [Ymin Ymax].
  destruct (month_arrows_iff p s Hlo Hhi Hv) as (Prev & Next & _).
  destruct s as [cd sd v yr st]. cbn [currentDate view] in *.
  unfold yearShown, afterClick, click.
  destruct c as [ | | | | mi | y | d | t]; cbn [clickGuard view currentDate] in Hg.
  - unfold handlePrev, prevMonth, prevYearRange. cbn [view currentDate].
    destruct v.
    + destruct (canNavigateToPrevMonth p _) eqn:E; [| split; assumption]. cbn.
      split; [apply Valid_addMonths, Hv |].
      apply isYearSelectable_spec. unfold subMonths.
      pose proof (monthIndex_addMonths cd (- (1))) as Hmi.
      pose proof (dYear_of_monthIndex _ (Valid_addMonths cd (- (1)) Hv)) as Yp.
      pose proof (dYear_of_monthIndex _ Hv) as Yc.
      split; intros m Hm.
      * pose proof (RangeFacts.validOpt_Some _ _ Hlo Hm) as Vm.
        pose proof (proj1 Prev eq_refl m Hm) as Hle.
        pose proof (dYear_of_monthIndex _ Vm) as Ym.
        unfold getYear. rewrite Ym. apply div12_le. lia.
      * specialize (Ymax m Hm). unfold getYear in *.
        rewrite Yc in Ymax.
        pose proof (div12_le (monthIndex cd + (-1)) (monthIndex cd)). lia.
    + apply Z.leb_le in Hg. unfold getYear in *.
      destruct (match normalizedMinDate p with Some _ => _ | None => _ end) eqn:E;
        [| split; assumption].
      unfold run, setCurrentDate, update. cbn [fst snd currentDate].
      rewrite Valid_newDateYMD_jan1 by lia.
      split; [apply Valid_jan1 |]. cbn [dYear].
      apply isYearSelectable_spec. split; intros m Hm.
      * unfold normalizedMinDate in E. rewrite Hm in E. cbn in E. apply Z.leb_le in E. exact E.
      * specialize (Ymax m Hm). lia.
    + destruct (canNavigateToPrevYearRange p _); split; assumption.
  - unfold handleNext, nextMonth, nextYearRange. cbn [view currentDate].
    destruct v.
    + destruct (canNavigateToNextMonth p _) eqn:E; [| split; assumption]. cbn.
      split; [apply Valid_addMonths, Hv |].
      apply isYearSelectable_spec.
      pose proof (monthIndex_addMonths cd 1) as Hmi.
      pose proof (dYear_of_monthIndex _ (Valid_addMonths cd 1 Hv)) as Yp.
      pose proof (dYear_of_monthIndex _ Hv) as Yc.
      split; intros m Hm.
      * specialize (Ymin m Hm). unfold getYear in *.
        rewrite Yc in Ymin. pose proof (div12_le (monthIndex cd) (monthIndex cd + 1)). lia.
      * pose proof (RangeFacts.validOpt_Some _ _ Hhi Hm) as Vm.
        pose proof (proj1 Next eq_refl m Hm) as Hle.
        pose proof (dYear_of_monthIndex _ Vm) as Ym.
        unfold getYear. rewrite Ym. apply div12_le, Hle.
    + apply Z.leb_le in Hg. unfold getYear in *.
      destruct (match normalizedMaxDate p with Some _ => _ | None => _ end) eqn:E;
        [| split; assumption].
      unfold run, setCurrentDate, update. cbn [fst snd currentDate].
      rewrite Valid_newDateYMD_jan1 by lia.
      split; [apply Valid_jan1 |]. cbn [dYear].
      apply isYearSelectable_spec. split; intros m Hm.
      * specialize (Ymin m Hm). lia.
      * unfold normalizedMaxDate in E. rewrite Hm in E. cbn in E. apply Z.leb_le in E. exact E.
    + destruct (canNavigateToNextYearRange p _); split; assumption.
  - split; assumption.
  - split; assumption.
  - apply andb_true_iff in Hg. destruct Hg as [G0 G1].
    apply Z.leb_le in G0. apply Z.ltb_lt in G1. cbn.
    split; [apply Valid_clampToBounds_overlay; try assumption; apply Valid_setMonth, Hv |].
    apply isYearSelectable_spec. unfold getYear in *.
    apply (clampToBounds_cases
             (fun d => (forall m, minDate p = Some m -> dYear m <= dYear d) /\
                       (forall m, maxDate p = Some m -> dYear d <= dYear m))).
    + rewrite dYear_setMonth by (assumption || lia). split; assumption.
    + intros m Hm. cbn [startOfDay withTime dYear]. split; intros m' Hm'.
      * rewrite Hm in Hm'. injection Hm' as <-. lia.
      * specialize (Ymin m Hm). specialize (Ymax m' Hm'). lia.
    + intros m Hm. cbn [endOfDay withTime dYear]. split; intros m' Hm'.
      * specialize (Ymin m' Hm'). specialize (Ymax m Hm). lia.
      * rewrite Hm in Hm'. injection Hm' as <-. lia.
  - unfold handleYearSelect. destruct (isYearSelectable p y) eqn:E; [| split; assumption].
    destruct (yearSelect_year p (mkState cd sd v yr st) y Hlo Hhi Hv E) as [Hyear Hval].
    unfold handleYearSelect in Hyear, Hval. rewrite E in Hyear, Hval.
    split; [exact Hval | rewrite Hyear; exact E].
  - apply Valid_validDate in Hg. unfold handleDateSelect.
    destruct (isDateInRange p d) eqn:E; [| split; assumption].
    pose proof (isDateInRange_year p d Hlo Hhi Hg E).
    destruct (showTimeSelect p); cbn; split; assumption.
  - apply Valid_validDate in Hg. unfold handleSelectToday.
    destruct (isDateInRange p t) eqn:E; [| split; assumption].
    pose proof (isDateInRange_year p t Hlo Hhi Hg E).
    destruct (showTimeSelect p); cbn; split; assumption.
Qed.

(** X11. From a displayed date in a year within the years of the bounds, no
    sequence of clicks (arrows, header buttons, month, year and day cells,
    Today) takes the displayed date to a year outside them; month cells
    carry the indices 0 to 11 and the year arrows of the months view are
    followed from the year 101 on. *)
Theorem clicks_keep_year (p : Props) (cs : list Click) : forall (s : State),
  validOpt (minDate p) = true -> validOpt (maxDate p) = true ->
  Valid (currentDate s) ->
  isYearSelectable p (getYear (currentDate s)) = true ->
  clicksGuard p s cs = true ->
  isYearSelectable p (getYear (currentDate (afterClicks p s cs))) = true.
Proof.
  induction cs as [| c cs IH]; intros s Hlo Hhi Hv Hy Hg; cbn [afterClicks]; [exact Hy |].
  cbn [clicksGuard] in Hg. apply andb_true_iff in Hg. destruct Hg as [G1 G2].
  destruct (click_keeps_year p s c Hlo Hhi (conj Hv Hy) G1) as [Hv' Hy'].
  apply IH; assumption.
Qed.

Lemma clicks_keep_year_witness :
  let p := mkProps Undefined None (Some (mkDate 2023 5 10 0)) (Some (mkDate 2025 2 20 0))
                   false 30 "00:00" "23:59" in
  let s := afterClicks p (init p (mkDate 2024 4 15 0))
                       [ClickMonths; ClickPrev; ClickPrev; ClickNext; ClickNext; ClickNext;
                        ClickMonth 11; ClickNext; ClickNext] in
  isYearSelectable p (getYear (currentDate s)) = true.
Proof.
  intros p s.
  apply (clicks_keep_year p);
    [reflexivity | reflexivity | unfold Valid, msPerDay; cbn; lia | reflexivity | reflexivity].
Defined.


Lemma monthIndex_lt_dayOf a b :
  Valid a -> Valid b -> monthIndex a < monthIndex b -> dayOf a < dayOf b.
Proof.
  intros Va Vb H. pose proof (dayOf_in_month a Va). pose proof (dayOf_in_month b Vb).
  pose proof (monthStartDay_le (monthIndex a + 1) (monthIndex b)). lia.
Qed.

Lemma year_lt_dayOf a b :
  Valid a -> Valid b -> dYear a < dYear b -> dayOf a < dayOf b.
Proof.
  intros Va Vb H. apply monthIndex_lt_dayOf; try assumption.
  destruct Va as (Ha & _). destruct Vb as (Hb & _). unfold monthIndex. lia.
Qed.

(** X12. In months view, from the year 101 on and with the displayed year within
    the years of the bounds, the next arrow puts the calendar on 1 January
    of the next year when maxDate is absent or not in an earlier year, and
    that date is in bounds; the previous arrow puts it on 1 January of the
    previous year when minDate is absent or not in a later year, a date that
    is in bounds only if minDate is not after that 1 January. Otherwise the
    arrows change nothing. *)
Theorem months_view_arrows (p : Props) (s : State) :
  validOpt (minDate p) = true -> validOpt (maxDate p) = true ->
  view s = months -> 101 <= getYear (currentDate s) ->
  isYearSelectable p (getYear (currentDate s)) = true ->
  let y := getYear (currentDate s) in
  ((forall m, maxDate p = Some m -> y + 1 <= getYear m) ->
   currentDate (afterClick p s ClickNext) = mkDate (y + 1) 0 1 0 /\
   isDateInRange p (mkDate (y + 1) 0 1 0) = true) /\
  ((exists m, maxDate p = Some m /\ getYear m < y + 1) ->
   afterClick p s ClickNext = s) /\
  ((forall m, minDate p = Some m -> getYear m <= y - 1) ->
   currentDate (afterClick p s ClickPrev) = mkDate (y - 1) 0 1 0 /\
   (isDateInRange p (mkDate (y - 1) 0 1 0) = true <->
    forall m, minDate p = Some m -> dayOf m <= dayOf (mkDate (y - 1) 0 1 0))) /\
  ((exists m, minDate p = Some m /\ y - 1 < getYear m) ->
   afterClick p s ClickPrev = s).
Proof.
  intros Hlo Hhi Hview Hy Hsel y.
  apply isYearSelectable_spec in Hsel. destruct Hsel as [Ymin Ymax].
  destruct s as [cd sd v yr st]. cbn [view currentDate] in *. subst v. subst y.
  unfold getYear in *.
  assert (T0 : forall z, 0 <= dTime (mkDate z 0 1 0) < msPerDay)
    by (intros z; unfold msPerDay; cbn; lia).
  split; [| split; [| split]].
  - intros Hmax. split.
    + unfold afterClick, click, handleNext, normalizedMaxDate. cbn [view currentDate].
      destruct (maxDate p) as [hi|]; cbn [option_map].
      * specialize (Hmax hi eq_refl). unfold getYear. cbn [endOfDay withTime dYear].
        destruct (Z.leb_spec (dYear cd + 1) (dYear hi)); [| lia].
        unfold run, setCurrentDate, update. cbn [fst snd currentDate].
        apply Valid_newDateYMD_jan1. lia.
      * unfold run, setCurrentDate, update. cbn [fst snd currentDate].
        apply Valid_newDateYMD_jan1. lia.
    + rewrite isDateInRange_days by apply T0. apply andb_true_iff. split.
      * destruct (minDate p) as [lo|] eqn:Elo; [| reflexivity]. apply Z.leb_le.
        pose proof (RangeFacts.validOpt_Some _ _ Hlo eq_refl) as Vlo.
        specialize (Ymin lo eq_refl).
        pose proof (year_lt_dayOf lo (mkDate (dYear cd + 1) 0 1 0) Vlo (Valid_jan1 _)).
        cbn [dYear] in *. lia.
      * destruct (maxDate p) as [hi|] eqn:Ehi; [| reflexivity]. apply Z.leb_le.
        pose proof (RangeFacts.validOpt_Some _ _ Hhi eq_refl) as Vhi.
        specialize (Hmax hi eq_refl). unfold getYear in Hmax.
        pose proof (dayOf_in_month hi Vhi) as Hin.
        pose proof (monthStartDay_le ((dYear cd + 1) * 12) (monthIndex hi)) as Hle.
        assert (Hj : dayOf (mkDate (dYear cd + 1) 0 1 0) = monthStartDay ((dYear cd + 1) * 12)).
        { rewrite (dayOf_month_offset _ (Valid_jan1 _)).
          unfold monthIndex. cbn [dYear dMonth dDate].
          replace ((dYear cd + 1) * 12 + 0) with ((dYear cd + 1) * 12) by lia. lia. }
        destruct Vhi as (Hm & _). unfold monthIndex in *. lia.
  - intros (m & Hm & Hlt).
    unfold afterClick, click, handleNext, normalizedMaxDate. cbn [view currentDate].
    rewrite Hm. cbn [option_map]. unfold getYear in *. cbn [endOfDay withTime dYear].
    destruct (Z.leb_spec (dYear cd + 1) (dYear m)); [lia | reflexivity].
  - intros Hmin. split.
    + unfold afterClick, click, handlePrev, normalizedMinDate. cbn [view currentDate].
      destruct (minDate p) as [lo|]; cbn [option_map].
      * specialize (Hmin lo eq_refl). unfold getYear. cbn [startOfDay withTime dYear].
        destruct (Z.leb_spec (dYear lo) (dYear cd - 1)); [| lia].
        unfold run, setCurrentDate, update. cbn [fst snd currentDate].
        apply Valid_newDateYMD_jan1. lia.
      * unfold run, setCurrentDate, update. cbn [fst snd currentDate].
        apply Valid_newDateYMD_jan1. lia.
    + rewrite isDateInRange_days by apply T0.
      assert (Hupper : match maxDate p with
                       | Some m => dayOf (mkDate (dYear cd - 1) 0 1 0) <=? dayOf m
                       | None => true
                       end = true).
      { destruct (maxDate p) as [hi|] eqn:Ehi; [| reflexivity]. apply Z.leb_le.
        pose proof (RangeFacts.validOpt_Some _ _ Hhi eq_refl) as Vhi.
        specialize (Ymax hi eq_refl).
        pose proof (year_lt_dayOf (mkDate (dYear cd - 1) 0 1 0) hi (Valid_jan1 _) Vhi).
        cbn [dYear] in *. lia. }
      rewrite Hupper, andb_true_r.
      destruct (minDate p) as [lo|].
      * rewrite Z.leb_le. split; [intros H m [= <-]; exact H | intros H; exact (H lo eq_refl)].
      * split; [intros _ m Hm; discriminate Hm | reflexivity].
  - intros (m & Hm & Hlt).
    unfold afterClick, click, handlePrev, normalizedMinDate. cbn [view currentDate].
    rewrite Hm. cbn [option_map]. unfold getYear in *. cbn [startOfDay withTime dYear].
    destruct (Z.leb_spec (dYear m) (dYear cd - 1)); [lia | reflexivity].
Qed.

Lemma months_view_arrows_witness :
  let p := mkProps Undefined None (Some (mkDate 2024 5 15 0)) None false 30 "00:00" "23:59" in
  let s := afterClick p (init p (mkDate 2025 2 10 0)) ClickMonths in
  currentDate (afterClick p s ClickPrev) = mkDate 2024 0 1 0 /\
  isDateInRange p (mkDate 2024 0 1 0) = false.
Proof.
  intros p s.
  destruct (months_view_arrows p s) as (_ & _ & H & _);
    [reflexivity | reflexivity | reflexivity | cbn; lia | reflexivity |].
  destruct H as [E _]; [intros m [= <-]; cbn; lia |].
  split; [exact E | reflexivity].
Defined.

(** X13. The first state: with a value, the calendar shows it and holds it as the
    selected date with its time; without one nothing is selected and the
    calendar shows the default date (or now) when that is in bounds, and in
    any case a date in bounds when the day of minDate is not after the day
    of maxDate. The view is days and the year window is the twelve-year page
    of the displayed year. *)
Theorem init_seed (p : Props) (now : Date) :
  (forall v, value p = Given v ->
     currentDate (init p now) = v /\ selectedDate (init p now) = Some v /\
     selectedTime (init p now) = Some (formatHHmm v)) /\
  ((forall v, value p <> Given v) ->
     selectedDate (init p now) = None /\ selectedTime (init p now) = None /\
     (boundsOrdered p = true -> isDateInRange p (currentDate (init p now)) = true) /\
     (isDateInRange p (match defaultValue p with Some d => d | None => now end) = true ->
      currentDate (init p now) = match defaultValue p with Some d => d | None => now end)) /\
  view (init p now) = days /\
  alignedWindow (yearRange (init p now)) /\
  rangeStart (yearRange (init p now)) <= getYear (currentDate (init p now))
    <= rangeEnd (yearRange (init p now)).
Proof.
  split; [| split; [| split; [reflexivity | split]]].
  - intros v Hv. unfold init, initCurrentDate. rewrite Hv. cbn. repeat split.
  - intros Hno. unfold init, initCurrentDate. cbn [currentDate selectedDate selectedTime].
    destruct (value p) as [| | v] eqn:Ev; try (exfalso; apply (Hno v); reflexivity);
      cbn [orNull option_map];
      (split; [reflexivity | split; [reflexivity | split]]).
    all: try (intros Ho; apply (clampToBounds_in_range p _ Ho)).
    all: unfold isDateInRange; intros Hin;
      destruct (beforeMin (normalizedMinDate p) _); [discriminate Hin |];
      destruct (afterMax (normalizedMaxDate p) _); [discriminate Hin | reflexivity].
  - apply getYearRange_page.
  - apply getYearRange_page.
Qed.

Lemma init_seed_witness :
  let p := mkProps Undefined (Some (mkDate 2024 0 5 0)) (Some (mkDate 2024 2 10 0)) None
                   false 30 "00:00" "23:59" in
  currentDate (init p (mkDate 2024 6 1 0)) = mkDate 2024 2 10 0 /\
  isDateInRange p (currentDate (init p (mkDate 2024 6 1 0))) = true.
Proof.
  intros p. split; [reflexivity |].
  destruct (init_seed p (mkDate 2024 6 1 0)) as (_ & H & _).
  destruct H as (_ & _ & Hin & _); [intros v Hv; discriminate Hv |].
  apply Hin. reflexivity.
Defined.

End BasicMore.

(* ================================================================== *)
(** * The range overlay: further properties *)
(* ================================================================== *)

Module RangeMore.
Import Cal Ev Range CalFacts RangeFacts.

Lemma startOfDay_time d : getTime (startOfDay d) = dayOf d * msPerDay.
Proof. unfold getTime, startOfDay, withTime, dayOf. cbn. lia. Qed.

(** X14. Which day cells are shown as selected: none without a start; with start
    and end, the days from the day of the start to the day of the end; with
    a start only, in phase [end] with a hovered date, the instants between
    start and hover in either order; with a start only otherwise, the day of
    the start. *)
Theorem isInSelectedRange_spec (s : State) (day : Date) :
  (selectedStartDate s = None -> isInSelectedRange s day = false) /\
  (forall a b, selectedStartDate s = Some a -> selectedEndDate s = Some b ->
     isInSelectedRange s day = (dayOf a <=? dayOf day) && (dayOf day <=? dayOf b)) /\
  (forall a h, selectedStartDate s = Some a -> selectedEndDate s = None ->
     selectionPhase s = phaseEnd -> hoverDate s = Some h ->
     isInSelectedRange s day =
     (Z.min (getTime a) (getTime h) <=? getTime day) &&
     (getTime day <=? Z.max (getTime a) (getTime h))) /\
  (forall a, selectedStartDate s = Some a -> selectedEndDate s = None ->
     selectionPhase s = phaseStart \/ hoverDate s = None ->
     isInSelectedRange s day = (dayOf day =? dayOf a)).
Proof.
  destruct s as [l r ss se h ph lv rv lyr ryr asv]. unfold isInSelectedRange.
  cbn [selectedStartDate selectedEndDate selectionPhase hoverDate].
  split; [| split; [| split]].
  - intros ->. reflexivity.
  - intros a b -> ->. unfold isAfter, isBefore, isSameDay.
    rewrite !startOfDay_time. unfold msPerDay.
    repeat match goal with
           | |- context [?x <? ?y] => destruct (Z.ltb_spec x y)
           | |- context [?x <=? ?y] => destruct (Z.leb_spec x y)
           | |- context [?x =? ?y] => destruct (Z.eqb_spec x y)
           end; cbn; try reflexivity; lia.
  - intros a hv -> -> -> ->. unfold isBefore, isWithinInterval.
    repeat match goal with
           | |- context [?x <? ?y] => destruct (Z.ltb_spec x y)
           | |- context [?x <=? ?y] => destruct (Z.leb_spec x y)
           end; cbn; try reflexivity; lia.
  - intros a -> -> Hor. unfold isSameDay. rewrite !startOfDay_time. unfold msPerDay.
    assert (E : (dayOf day * 86400000 =? dayOf a * 86400000) = (dayOf day =? dayOf a)).
    { destruct (Z.eqb_spec (dayOf day) (dayOf a)) as [-> | N];
        [apply Z.eqb_refl | apply Z.eqb_neq; lia]. }
    destruct Hor as [-> | ->]; [exact E |]. destruct ph; exact E.
Qed.

Lemma isInSelectedRange_spec_witness :
  let p := mkProps Undefined Undefined None None None false in
  let s := runOps p (init p (mkDate 2024 4 1 0))
                  [DateSelect (mkDate 2024 4 3 0); DateSelect (mkDate 2024 4 10 0)] in
  isInSelectedRange s (mkDate 2024 4 10 86399999) = true /\
  isInSelectedRange s (mkDate 2024 4 11 0) = false.
Proof.
  intros p s.
  destruct (isInSelectedRange_spec s (mkDate 2024 4 10 86399999)) as (_ & H1 & _).
  destruct (isInSelectedRange_spec s (mkDate 2024 4 11 0)) as (_ & H2 & _).
  split; [rewrite (H1 _ _ eq_refl eq_refl) | rewrite (H2 _ _ eq_refl eq_refl)]; reflexivity.
Defined.

(** ** Phases *)

Lemma step_anchored p s op : anchored s -> anchored (step p s op).
Proof.
  intros Ha. destruct s as [l r ss se h ph lv rv lyr ryr asv].
  unfold anchored in *. cbn [selectionPhase selectedStartDate] in Ha.
  destruct op as [direction | side | date | date | | side monthIdx | side year | v | v].
  - unfold step, dispatch, handler, handleNavigation.
    destruct (canNavigate p _) as [[] [] [] [] [] []];
      (destruct asv as [[|]|]; [destruct lv | destruct rv |]); destruct direction;
      exact Ha.
  - destruct side; [destruct lv | destruct rv]; exact Ha.
  - run_event. destruct (isDateInRange p date); cbn [negb]; [| exact Ha].
    destruct ph; [cbn; intros _; discriminate |].
    destruct ss as [start|]; [| cbn; intros _; discriminate].
    destruct (isBefore date start); cbn; intros H; discriminate H.
  - destruct ph; [| destruct ss]; exact Ha.
  - exact Ha.
  - destruct side; run_event;
      repeat match goal with |- context [if ?b then _ else _] => destruct b end; exact Ha.
  - destruct side; run_event;
      repeat match goal with
             | |- context [if ?b then _ else _] => destruct b
             end; exact Ha.
  - destruct v; [exact Ha | cbn; intros H; discriminate H | cbn; intros _; discriminate].
  - destruct v; exact Ha.
Qed.

(** X15. After any sequence of events from the first state, the range overlay in
    phase [end] has a selected start. *)
Theorem phase_end_has_anchor (p : Props) (now : Date) (ops : list Op) :
  let s := runOps p (init p now) ops in
  selectionPhase s = phaseEnd -> exists a, selectedStartDate s = Some a.
Proof.
  cbv zeta.
  assert (H : forall ops s, anchored s -> anchored (runOps p s ops)).
  { clear ops. induction ops as [| op ops IH]; intros s Ha; cbn [runOps]; [exact Ha |].
    apply IH, step_anchored, Ha. }
  assert (Hi : anchored (init p now)).
  { unfold anchored, init. cbn. destruct (startDate p); cbn; intros E; discriminate. }
  intros Hph. specialize (H ops _ Hi Hph).
  destruct (selectedStartDate (runOps p (init p now) ops)) as [a|]; [exists a; reflexivity |].
  contradiction.
Qed.

Lemma phase_end_has_anchor_witness :
  let p := mkProps Undefined Undefined None None None false in
  exists a, selectedStartDate
              (runOps p (init p (mkDate 2024 4 1 0))
                      [DateSelect (mkDate 2024 4 3 0); StartDateChange Undefined]) = Some a.
Proof.
  intros p.
  apply (phase_end_has_anchor p (mkDate 2024 4 1 0)
           [DateSelect (mkDate 2024 4 3 0); StartDateChange Undefined]).
  reflexivity.
Defined.


Lemma step_ordered p s op :
  isPropChange op = false -> anchored s -> rangeOrdered s ->
  rangeOrdered (step p s op) /\ Forall orderedRange (snd (dispatch p s op)).
Proof.
  intros Hop Ha Ho. destruct s as [l r ss se h ph lv rv lyr ryr asv].
  unfold anchored, rangeOrdered in *.
  cbn [selectionPhase selectedStartDate selectedEndDate] in Ha, Ho.
  destruct op as [direction | side | date | date | | side monthIdx | side year | v | v];
    try discriminate Hop.
  - unfold step, dispatch, handler, handleNavigation.
    destruct (canNavigate p _) as [[] [] [] [] [] []];
      (destruct asv as [[|]|]; [destruct lv | destruct rv |]); destruct direction;
      (split; [exact Ho | constructor]).
  - destruct side; [destruct lv | destruct rv]; (split; [exact Ho | constructor]).
  - run_event. destruct (isDateInRange p date); cbn [negb]; [| split; [exact Ho | constructor]].
    destruct ph.
    + cbn. split; [intros a b _ Hb; discriminate Hb |].
      repeat constructor. intros a b _ Hb. discriminate Hb.
    + destruct ss as [start|]; [| exfalso; apply (Ha eq_refl); reflexivity].
      unfold isBefore. destruct (Z.ltb_spec (getTime date) (getTime start)) as [Hlt | Hge]; cbn.
      * split.
        -- intros a b [= <-] Hb. specialize (Ho start b eq_refl Hb). lia.
        -- repeat constructor. intros a b [= <-] Hb. cbn in Hb.
           specialize (Ho start b eq_refl Hb). lia.
      * split.
        -- intros a b [= <-] [= <-]. exact Hge.
        -- repeat constructor. intros a b [= <-] [= <-]. exact Hge.
  - destruct ph; [| destruct ss]; (split; [exact Ho | constructor]).
  - split; [exact Ho | constructor].
  - destruct side; run_event;
      repeat match goal with |- context [if ?b then _ else _] => destruct b end;
      (split; [exact Ho | constructor]).
  - destruct side; run_event;
      repeat match goal with |- context [if ?b then _ else _] => destruct b end;
      (split; [exact Ho | constructor]).
Qed.

Lemma init_anchored p now : anchored (init p now).
Proof. unfold anchored, init. cbn. destruct (startDate p); cbn; intros E; discriminate. Qed.

(** From a state with an anchor in phase [end] and a selected end not before
    the selected start, picks keep it so. *)
Lemma runOps_ordered p ops : forall s,
  forallb (fun op => negb (isPropChange op)) ops = true ->
  anchored s -> rangeOrdered s ->
  rangeOrdered (runOps p s ops) /\ Forall orderedRange (notices p s ops).
Proof.
  induction ops as [| op ops IH]; intros s Hops Ha Ho; cbn [runOps notices].
  - split; [exact Ho | constructor].
  - cbn [forallb] in Hops. apply andb_true_iff in Hops. destruct Hops as [H1 H2].
    apply negb_true_iff in H1.
    destruct (step_ordered p s op H1 Ha Ho) as [Ho' Hn].
    destruct (IH (step p s op) H2 (step_anchored p s op Ha) Ho') as [Hfinal Hrest].
    split; [exact Hfinal | apply Forall_app; split; assumption].
Qed.

(** X16. When the startDate prop is not after the endDate prop (or one of them
    is missing), then from the first state on, and as long as the two props
    do not change, the selected end is never before the selected start, in
    the state and in every range handed to onChange. *)
Theorem picks_keep_order (p : Props) (now : Date) (ops : list Op) :
  (forall a b, startDate p = Given a -> endDate p = Given b -> getTime a <= getTime b) ->
  forallb (fun op => negb (isPropChange op)) ops = true ->
  let s := runOps p (init p now) ops in
  (forall a b, selectedStartDate s = Some a -> selectedEndDate s = Some b ->
               getTime a <= getTime b) /\
  Forall (fun r => forall a b, rStart r = Some a -> rEnd r = Some b ->
                               getTime a <= getTime b)
         (notices p (init p now) ops).
Proof.
  intros Hprops Hops s.
  apply (runOps_ordered p ops (init p now) Hops (init_anchored p now)).
  unfold rangeOrdered, init. cbn [selectedStartDate selectedEndDate].
  intros a b Ea Eb. apply Hprops.
  - destruct (startDate p); cbn in Ea; congruence.
  - destruct (endDate p); cbn in Eb; congruence.
Qed.

Lemma picks_keep_order_witness :
  let p := mkProps (Given (mkDate 2024 4 10 0)) (Given (mkDate 2024 4 20 0)) None None None false in
  let s := runOps p (init p (mkDate 2024 4 1 0)) [DateSelect (mkDate 2024 4 3 0)] in
  selectedStartDate s = Some (mkDate 2024 4 3 0) /\
  selectedEndDate s = Some (mkDate 2024 4 20 0) /\
  getTime (mkDate 2024 4 3 0) <= getTime (mkDate 2024 4 20 0).
Proof.
  intros p s. split; [reflexivity | split; [reflexivity |]].
  destruct (picks_keep_order p (mkDate 2024 4 1 0) [DateSelect (mkDate 2024 4 3 0)])
    as [H _].
  - intros a b [= <-] [= <-]. vm_compute. discriminate.
  - reflexivity.
  - apply H; reflexivity.
Defined.

(** Without the condition on the props the order can fail: with a startDate
    prop of 20 May 2024 and an endDate prop of 10 May, a click on 15 May
    makes it the start and hands 15 May to 10 May to onChange. *)
Lemma inverted_props_break_order :
  let p := mkProps (Given (mkDate 2024 4 20 0)) (Given (mkDate 2024 4 10 0)) None None None false in
  let s := init p (mkDate 2024 4 1 0) in
  snd (dispatch p s (DateSelect (mkDate 2024 4 15 0))) =
    [mkRange (Some (mkDate 2024 4 15 0)) (Some (mkDate 2024 4 10 0))] /\
  getTime (mkDate 2024 4 10 0) < getTime (mkDate 2024 4 15 0).
Proof. cbv zeta. split; vm_compute; reflexivity. Qed.

(** X17. From phase [start], two clicks on days in bounds end in phase [start]
    again: when the second day is not before the first, onChange receives
    the first day alone and then the pair; when it is before, the second day
    becomes the start and onChange receives it alone. A third click starts a
    new range at that day with no end. *)
Theorem two_clicks (p : Props) (s : State) (d1 d2 d3 : Date) :
  selectionPhase s = phaseStart ->
  isDateInRange p d1 = true -> isDateInRange p d2 = true -> isDateInRange p d3 = true ->
  let s2 := runOps p s [DateSelect d1; DateSelect d2] in
  let s3 := step p s2 (DateSelect d3) in
  selectionPhase s2 = phaseStart /\
  (isBefore d2 d1 = false ->
   notices p s [DateSelect d1; DateSelect d2] =
     [mkRange (Some d1) None; mkRange (Some d1) (Some d2)] /\
   selectedStartDate s2 = Some d1 /\ selectedEndDate s2 = Some d2) /\
  (isBefore d2 d1 = true ->
   notices p s [DateSelect d1; DateSelect d2] =
     [mkRange (Some d1) None; mkRange (Some d2) None] /\
   selectedStartDate s2 = Some d2 /\ selectedEndDate s2 = None) /\
  selectedStartDate s3 = Some d3 /\ selectedEndDate s3 = None /\
  selectionPhase s3 = phaseEnd.
Proof.
  intros Hph H1 H2 H3. destruct s as [l r ss se h ph lv rv lyr ryr asv].
  cbn [selectionPhase] in Hph. subst ph.
  cbn [runOps notices]. run_event. rewrite H1. cbn [negb]. run_event. rewrite H2. cbn [negb].
  destruct (isBefore d2 d1); run_event; rewrite H3; cbn [negb];
    repeat split; intros; try reflexivity; discriminate.
Qed.

Lemma two_clicks_witness :
  let p := mkProps Undefined Undefined None None None false in
  notices p (init p (mkDate 2024 4 1 0))
          [DateSelect (mkDate 2024 4 10 0); DateSelect (mkDate 2024 4 3 0)] =
  [mkRange (Some (mkDate 2024 4 10 0)) None; mkRange (Some (mkDate 2024 4 3 0)) None].
Proof.
  intros p.
  destruct (two_clicks p (init p (mkDate 2024 4 1 0))
                       (mkDate 2024 4 10 0) (mkDate 2024 4 3 0) (mkDate 2024 4 3 0))
    as (_ & _ & H & _); [reflexivity | reflexivity | reflexivity | reflexivity |].
  apply H. reflexivity.
Defined.

(** X18. In phase [end] a day cell of the right calendar that can be clicked is
    never before the selected start: the click keeps the start, makes the
    day the end, returns to phase [start] and hands the pair to onChange. *)
Theorem right_day_completes (p : Props) (s : State) (date anchor : Date) :
  dayClickable p s right date = true ->
  selectionPhase s = phaseEnd -> selectedStartDate s = Some anchor ->
  let r := dispatch p s (DateSelect date) in
  selectedStartDate (fst r) = Some anchor /\
  selectedEndDate (fst r) = Some date /\
  selectionPhase (fst r) = phaseStart /\
  snd r = [mkRange (Some anchor) (Some date)] /\
  getTime anchor <= getTime date.
Proof.
  intros Hc Hph Hs. destruct s as [l r ss se h ph lv rv lyr ryr asv].
  cbn [selectionPhase selectedStartDate] in *. subst ph ss.
  unfold dayClickable, dayCellDisabled in Hc.
  cbn [selectionPhase selectedStartDate isRight andb] in Hc.
  rewrite !andb_true_iff, negb_true_iff, !orb_false_iff in Hc.
  destruct Hc as (_ & (_ & Hin) & Hb). apply negb_false_iff in Hin.
  cbv zeta. run_event. rewrite Hin. cbn [negb]. rewrite Hb.
  repeat split. unfold isBefore in Hb. apply Z.ltb_ge in Hb. exact Hb.
Qed.

Lemma right_day_completes_witness :
  let p := mkProps Undefined Undefined (Some (mkDate 2024 4 1 0)) None None false in
  let s := step p (init p (mkDate 2024 4 1 0)) (DateSelect (mkDate 2024 4 10 0)) in
  snd (dispatch p s (DateSelect (mkDate 2024 5 2 0))) =
  [mkRange (Some (mkDate 2024 4 10 0)) (Some (mkDate 2024 5 2 0))].
Proof.
  intros p s.
  destruct (right_day_completes p s (mkDate 2024 5 2 0) (mkDate 2024 4 10 0))
    as (_ & _ & _ & H & _); [reflexivity | reflexivity | reflexivity | exact H].
Defined.


(** ** Views *)

Lemma init_viewsConsistent p now : viewsConsistent (init p now).
Proof. unfold viewsConsistent, init. cbn. split; reflexivity. Qed.

Lemma step_viewsConsistent p s op :
  viewsConsistent s -> available p s op = true -> viewsConsistent (step p s op).
Proof.
  intros Hc Hav. destruct s as [l r ss se h ph lv rv lyr ryr asv].
  unfold viewsConsistent in *. cbn [activeSpecialView leftView rightView] in Hc.
  destruct op as [direction | side | date | date | | side monthIdx | side year | v | v].
  - unfold step, dispatch, handler, handleNavigation.
    destruct (canNavigate p _) as [[] [] [] [] [] []];
      (destruct asv as [[|]|]; [destruct lv | destruct rv |]); destruct direction;
      exact Hc.
  - unfold available, rendered in Hav. cbn [activeSpecialView] in Hav.
    apply andb_true_iff in Hav. destruct Hav as [Hr _].
    destruct asv as [[|]|]; destruct side; try discriminate Hr;
      destruct Hc as [H1 H2]; subst;
      try (destruct lv; try congruence); try (destruct rv; try congruence);
      run_event; split; congruence.
  - run_event. destruct (isDateInRange p date); cbn [negb]; [| exact Hc].
    destruct ph; [exact Hc |]. destruct ss as [start|]; [| exact Hc].
    destruct (isBefore date start); exact Hc.
  - destruct ph; [| destruct ss]; exact Hc.
  - exact Hc.
  - unfold available, rendered in Hav. cbn [activeSpecialView viewOf leftView rightView] in Hav.
    rewrite !andb_true_iff in Hav. destruct Hav as ((((Hr & Hm) & _) & _) & _).
    destruct asv as [[|]|]; destruct side; try discriminate Hr;
      destruct Hc as [H1 H2]; subst; try discriminate Hm;
      unfold step, dispatch, handler, handleMonthSelect;
      try destruct (isBefore _ _);
      run_event; split; reflexivity.
  - unfold available, rendered in Hav. cbn [activeSpecialView viewOf leftView rightView] in Hav.
    rewrite !andb_true_iff in Hav. destruct Hav as ((((Hr & Hm) & _) & _) & _).
    destruct asv as [[|]|]; destruct side; try discriminate Hr;
      destruct Hc as [H1 H2]; subst; try discriminate Hm;
      unfold step, dispatch, handler, handleYearSelect;
      destruct (isYearSelectable p year); cbn [negb];
      try destruct (match ss with Some _ => _ | None => _ end);
      run_event; split; congruence.
  - destruct v; exact Hc.
  - destruct v; exact Hc.
Qed.

(** X19. Through the controls on screen, at most one of the two calendars is out
    of its days view at any time, and activeSpecialView names exactly that
    calendar. *)
Theorem one_special_view (p : Props) (now : Date) (ops : list Op) :
  availableRun p (init p now) ops = true ->
  let s := runOps p (init p now) ops in
  match activeSpecialView s with
  | None => leftView s = days /\ rightView s = days
  | Some left => leftView s <> days /\ rightView s = days
  | Some right => rightView s <> days /\ leftView s = days
  end.
Proof.
  intros Hav. cbv zeta.
  assert (H : forall ops s, viewsConsistent s -> availableRun p s ops = true ->
                            viewsConsistent (runOps p s ops)).
  { clear ops Hav. induction ops as [| op ops IH]; intros s Hc Hav; cbn [runOps]; [exact Hc |].
    cbn [availableRun] in Hav. apply andb_true_iff in Hav. destruct Hav as [H1 H2].
    apply IH; [apply step_viewsConsistent; assumption | exact H2]. }
  exact (H ops _ (init_viewsConsistent p now) Hav).
Qed.

Lemma one_special_view_witness :
  let p := mkProps Undefined Undefined (Some (mkDate 2024 0 15 0)) None None false in
  let s := runOps p (init p (mkDate 2024 0 15 0))
                  [ToggleView right; ToggleView right; YearSelect right 2026;
                   ToggleView left; MonthSelect left 3; ToggleView left] in
  activeSpecialView s = Some left /\ leftView s <> days /\ rightView s = days.
Proof.
  intros p s. split; [reflexivity |].
  exact (one_special_view p (mkDate 2024 0 15 0)
           [ToggleView right; ToggleView right; YearSelect right 2026;
            ToggleView left; MonthSelect left 3; ToggleView left] eq_refl).
Defined.


(** ** Cells and arrows *)

Lemma isDateInRange_range_bounds p d :
  isDateInRange p d = true ->
  (forall m, minDate p = Some m -> getTime (startOfDay m) <= getTime d) /\
  (forall m, maxDate p = Some m -> getTime d <= getTime (endOfDay m)).
Proof.
  unfold isDateInRange, normalizedMinDate, normalizedMaxDate, normalizeDate, beforeMin, afterMax,
    isBefore, isAfter.
  destruct (minDate p) as [lo|]; destruct (maxDate p) as [hi|];
    repeat match goal with
           | |- context [?a <? ?b] => destruct (Z.ltb_spec a b)
           end;
    intros Hin; try discriminate Hin;
    (split; intros m Hm; (discriminate Hm || (injection Hm as <-; lia))).
Qed.

(** X20. With years of four digits, a month cell of the right calendar that can
    be clicked moves the right calendar only. The left calendar stays; the
    right one takes its own date with the month set to the cell's, brought
    within the bounds: a date in bounds, in a month after the left
    calendar's. That month is the cell's when it has the day of the right
    calendar's date. When it is too short for the day the date runs over:
    the right calendar then shows the month after the cell's (on 31 August
    the September cell gives 1 October), unless maxDate holds the date
    back, and never a month further on. *)
Theorem right_month_cell_keeps_left (p : Props) (s : State) (index : Z) :
  validOpt (minDate p) = true -> validOpt (maxDate p) = true ->
  Valid (leftCurrentDate s) -> Valid (rightCurrentDate s) ->
  monthSelectGuard p s index = true ->
  available p s (MonthSelect right index) = true ->
  let r := rightCurrentDate s in
  let cell := dYear r * 12 + index in
  let s' := step p s (MonthSelect right index) in
  leftCurrentDate s' = leftCurrentDate s /\
  rightCurrentDate s' = clampToBounds p (setMonth r index) /\
  monthIndex (leftCurrentDate s) < monthIndex (rightCurrentDate s') /\
  isDateInRange p (rightCurrentDate s') = true /\
  cell <= monthIndex (rightCurrentDate s') <= cell + 1 /\
  (dDate r <= daysInMonth (dYear r) index -> monthIndex (rightCurrentDate s') = cell) /\
  (daysInMonth (dYear r) index < dDate r ->
   isDateInRange p (setMonth r index) = true ->
   rightCurrentDate s' =
     mkDate (dYear r) (index + 1) (dDate r - daysInMonth (dYear r) index) (dTime r) /\
   monthIndex (rightCurrentDate s') = cell + 1).
Proof.
  intros Hlo Hhi Vl Vr Hg Hav.
  destruct (monthSelect_right p s index Hlo Hhi (conj Vl Vr) Hg) as (Vnd & _ & Hkeep).
  pose proof Hg as Hg'. unfold monthSelectGuard in Hg'. rewrite !andb_true_iff in Hg'.
  destruct Hg' as (((((G0 & G1) & Gl) & Gr) & Glo) & Ghi).
  apply Z.leb_le in G0, Gl, Gr. apply Z.ltb_lt in G1.
  unfold available, monthCellDisabled in Hav. cbn [isRight andb currentOf] in Hav.
  rewrite !andb_true_iff, negb_true_iff, !orb_false_iff in Hav.
  destruct Hav as (_ & (_ & Hin) & (Hsame & Hyear)). apply negb_false_iff in Hin.
  unfold getYear, getMonth in *.
  rewrite newDateYMD_first in Hin by exact Gr.
  replace (dYear (rightCurrentDate s) + index / 12) with (dYear (rightCurrentDate s)) in Hin by zdiv.
  replace (index mod 12) with index in Hin by zdiv.
  set (first := mkDate (dYear (rightCurrentDate s)) index 1 0) in *.
  assert (Vf : Valid first).
  { unfold Valid, first, msPerDay. cbn.
    pose proof (daysInMonth_bounds (dYear (rightCurrentDate s)) index). lia. }
  assert (Mf : monthIndex first = dYear (rightCurrentDate s) * 12 + index) by reflexivity.
  assert (Hmi : monthIndex (leftCurrentDate s) < monthIndex first).
  { unfold monthIndex, first. cbn [dYear dMonth]. destruct Vl as (Hm & _).
    apply Z.ltb_ge in Hyear. apply andb_false_iff in Hsame.
    destruct Hsame as [Hne | Hgt]; [apply Z.eqb_neq in Hne | apply Z.leb_gt in Hgt]; lia. }
  pose proof (Valid_setMonth (rightCurrentDate s) index Vr) as Vset.
  assert (Hge : getTime first <= getTime (setMonth (rightCurrentDate s) index)).
  { destruct (makeDay_spec (dYear (rightCurrentDate s)) index (dDate (rightCurrentDate s)))
      as (_ & D & _).
    unfold getTime, setMonth.
    change (dayOf (withTime ?x ?t)) with (dayOf x). rewrite D.
    assert (dayOf first = monthStartDay (dYear (rightCurrentDate s) * 12 + index)).
    { unfold dayOf, first, monthStartDay, dayNumber. cbn [dYear dMonth dDate].
      replace ((dYear (rightCurrentDate s) * 12 + index) / 12)
        with (dYear (rightCurrentDate s)) by zdiv.
      replace ((dYear (rightCurrentDate s) * 12 + index) mod 12) with index by zdiv. lia. }
    destruct Vr as (_ & Hd & Ht). rewrite H.
    unfold first, withTime, msPerDay in *. cbn [dTime]. lia. }
  destruct (isDateInRange_range_bounds p first Hin) as [Bmin Bmax].
  pose proof (getTime_le_monthIndex first _ Vf Vset Hge) as Hm1.
  assert (Hreq : monthIndex first <= monthIndex (monthSelectDate p s index)
                 <= monthIndex (setMonth (rightCurrentDate s) index) /\
                 isDateInRange p (monthSelectDate p s index) = true).
  { unfold monthSelectDate, clampToBounds, isDateInRange, normalizedMinDate, normalizedMaxDate,
      normalizeDate, beforeMin, afterMax, isBefore, isAfter.
    destruct (minDate p) as [lo|] eqn:Elo; destruct (maxDate p) as [hi|] eqn:Ehi;
      try (specialize (Bmin _ eq_refl)); try (specialize (Bmax _ eq_refl));
      try (pose proof (Valid_endOfDay hi (validOpt_Some _ _ Hhi eq_refl)) as Vhi;
           pose proof (getTime_le_monthIndex first (endOfDay hi) Vf Vhi Bmax) as Hm2);
      repeat match goal with
             | |- context [?a <? ?b] =>
                 lazymatch a with context [if _ then _ else _] => fail | _ => idtac end;
                 lazymatch b with context [if _ then _ else _] => fail | _ => idtac end;
                 destruct (Z.ltb_spec a b)
             end; try lia; (split; [| reflexivity || lia]); try lia.
    all: pose proof (getTime_le_monthIndex (endOfDay hi) _ Vhi Vset); lia. }
  destruct Hreq as [[Hlow Hup] Hrange].
  assert (Hlt : monthIndex (leftCurrentDate s) < monthIndex (monthSelectDate p s index)) by lia.
  destruct (Hkeep Hlt) as [El Er]. cbv zeta. rewrite El, Er.
  fold (monthSelectDate p s index).
  assert (Hdt : 1 <= dDate (rightCurrentDate s) <= 31).
  { destruct Vr as (_ & Hd & _).
    pose proof (daysInMonth_bounds (dYear (rightCurrentDate s)) (dMonth (rightCurrentDate s))). lia. }
  destruct (monthIndex_makeDay (dYear (rightCurrentDate s)) index
              (dDate (rightCurrentDate s)) Hdt) as (Hr & Hsame').
  replace ((dYear (rightCurrentDate s) * 12 + index) / 12)
    with (dYear (rightCurrentDate s)) in Hsame' by zdiv.
  replace ((dYear (rightCurrentDate s) * 12 + index) mod 12) with index in Hsame' by zdiv.
  assert (Ms : monthIndex (setMonth (rightCurrentDate s) index) =
               monthIndex (makeDay (dYear (rightCurrentDate s)) index
                                   (dDate (rightCurrentDate s)))) by reflexivity.
  split; [reflexivity |]. split; [reflexivity |]. split; [exact Hlt |].
  split; [exact Hrange |]. split; [lia |]. split.
  - intros Hday. specialize (Hsame' Hday). lia.
  - intros Hday Hset.
    assert (E : monthSelectDate p s index = setMonth (rightCurrentDate s) index)
      by (apply clampToBounds_id, Hset).
    rewrite E.
    pose proof (setMonth_overflow (rightCurrentDate s) index Vr (conj G0 G1)) as Ho.
    destruct (Z.leb_spec (dDate (rightCurrentDate s))
                         (daysInMonth (dYear (rightCurrentDate s)) index)); [lia |].
    rewrite Ho. split; [reflexivity |]. unfold monthIndex. cbn [dYear dMonth]. lia.
Qed.

Lemma right_month_cell_keeps_left_witness :
  let p := mkProps Undefined Undefined (Some (mkDate 2024 6 31 0)) None None false in
  let s := step p (init p (mkDate 2024 6 31 0)) (ToggleView right) in
  let s' := step p s (MonthSelect right 8) in
  leftCurrentDate s' = mkDate 2024 6 31 0 /\
  rightCurrentDate s' = mkDate 2024 9 1 0.
Proof.
  intros p s s'.
  destruct (right_month_cell_keeps_left p s 8) as (El & _ & _ & _ & _ & _ & Ho);
    [reflexivity | reflexivity | unfold Valid, msPerDay; cbn; lia
     | unfold Valid, msPerDay; cbn; lia | reflexivity | reflexivity |].
  split; [exact El |].
  destruct Ho as [Er _]; [cbn; lia | reflexivity |]. exact Er.
Defined.

(** X21. The month arrows of the two calendars: previous is live exactly when
    minDate is absent or in a month before the left calendar's, next exactly
    when maxDate is absent or in a month after the right calendar's; with
    both calendars in days view a live arrow moves the left calendar by one
    month and the right calendar follows one month after it, and a dead
    arrow leaves the left calendar where it is. *)
Theorem range_month_arrows (p : Props) (s : State) :
  validOpt (minDate p) = true -> validOpt (maxDate p) = true ->
  Valid (leftCurrentDate s) -> Valid (rightCurrentDate s) ->
  (canPrevMonth (canNavigate p s) = true <->
   forall m, minDate p = Some m -> monthIndex m <= monthIndex (leftCurrentDate s) - 1) /\
  (canNextMonth (canNavigate p s) = true <->
   forall m, maxDate p = Some m -> monthIndex (rightCurrentDate s) + 1 <= monthIndex m) /\
  (activeSpecialView s = None ->
   let sp := step p s (Navigate prev) in
   let sn := step p s (Navigate next) in
   leftCurrentDate sp =
     (if canPrevMonth (canNavigate p s) then subMonths (leftCurrentDate s) 1
      else leftCurrentDate s) /\
   leftCurrentDate sn =
     (if canNextMonth (canNavigate p s) then addMonths (leftCurrentDate s) 1
      else leftCurrentDate s) /\
   (canPrevMonth (canNavigate p s) = true ->
    rightCurrentDate sp = addMonths (leftCurrentDate sp) 1) /\
   (canNextMonth (canNavigate p s) = true ->
    rightCurrentDate sn = addMonths (leftCurrentDate sn) 1)).
Proof.
  intros Hlo Hhi Vl Vr. split; [| split].
  - unfold canNavigate, canPrevMonth, normalizedMinDate, normalizeDate.
    destruct (minDate p) as [lo|] eqn:Elo; cbn [beforeMin].
    + pose proof (validOpt_Some _ _ Hlo eq_refl) as Vlo.
      pose proof (BasicMore.endOfMonth_not_before (startOfDay lo)
                    (subMonths (leftCurrentDate s) 1)
                    (Valid_startOfDay lo Vlo) (Valid_addMonths _ _ Vl)) as Hiff.
      unfold subMonths in Hiff. rewrite monthIndex_addMonths in Hiff.
      change (monthIndex (startOfDay lo)) with (monthIndex lo) in Hiff.
      unfold isBefore, subMonths. rewrite negb_true_iff, Z.ltb_ge. split.
      * intros H m [= <-]. apply Hiff in H. lia.
      * intros H. apply Hiff. specialize (H lo eq_refl). lia.
    + split; [intros _ m Hm; discriminate Hm | reflexivity].
  - unfold canNavigate, canNextMonth, normalizedMaxDate, normalizeDate.
    destruct (maxDate p) as [hi|] eqn:Ehi; cbn [afterMax].
    + pose proof (validOpt_Some _ _ Hhi eq_refl) as Vhi.
      pose proof (BasicMore.startOfMonth_not_after (addMonths (rightCurrentDate s) 1)
                    (endOfDay hi) (Valid_addMonths _ _ Vr) (Valid_endOfDay hi Vhi)) as Hiff.
      rewrite monthIndex_addMonths in Hiff.
      change (monthIndex (endOfDay hi)) with (monthIndex hi) in Hiff.
      unfold isAfter. rewrite negb_true_iff, Z.ltb_ge. split.
      * intros H m [= <-]. apply Hiff in H. lia.
      * intros H. apply Hiff. specialize (H hi eq_refl). lia.
    + split; [intros _ m Hm; discriminate Hm | reflexivity].
  - intros Hsp. destruct s as [l r ss se h ph lv rv lyr ryr asv].
    cbn [activeSpecialView leftCurrentDate rightCurrentDate] in *. subst asv.
    cbv zeta. unfold step, dispatch, handler, handleNavigation. cbn [activeSpecialView].
    destruct (canNavigate p _) as [[] [] c3 c4 c5 c6]; run_event;
      repeat split; intros; try reflexivity; discriminate.
Qed.

Lemma range_month_arrows_witness :
  let p := mkProps Undefined Undefined (Some (mkDate 2024 0 15 0)) None
                   (Some (mkDate 2024 2 10 0)) false in
  let s := init p (mkDate 2024 0 15 0) in
  canNextMonth (canNavigate p s) = true /\
  canNextMonth (canNavigate p (step p s (Navigate next))) = false.
Proof.
  intros p s. split; [| reflexivity].
  destruct (range_month_arrows p s) as (_ & [_ H] & _);
    [reflexivity | reflexivity | unfold Valid, msPerDay; cbn; lia
     | unfold Valid, msPerDay; cbn; lia |].
  apply H. intros m Hm. injection Hm as <-. vm_compute. discriminate.
Defined.

End RangeMore.

(* ================================================================== *)
(** * More on the presets and the two inputs *)
(* ================================================================== *)

Module ShellMore.
Import Cal Ev CalFacts Presets RangeFacts ShellFacts BasicMore.

(** ** Presets *)

Lemma wholeDays_intro a b :
  Valid a -> Valid b -> dTime a = 0 -> dTime b = msPerDay - 1 -> dayOf a <= dayOf b ->
  wholeDays (range a b).
Proof. intros. exists a, b. split; [reflexivity | tauto]. Qed.

Lemma dayOf_startOfDay d : dayOf (startOfDay d) = dayOf d.
Proof. reflexivity. Qed.
Lemma dayOf_endOfDay d : dayOf (endOfDay d) = dayOf d.
Proof. reflexivity. Qed.

Lemma subDays_spec d n :
  Valid d -> Valid (subDays d n) /\ dayOf (subDays d n) = dayOf d - n /\
             dTime (subDays d n) = dTime d.
Proof.
  intros Hv. unfold subDays. destruct (addDays_spec d (- n) Hv) as (V & D & T).
  split; [exact V |]. split; [lia | exact T].
Qed.

Lemma Valid_startOfYear d : Valid (startOfYear d).
Proof. unfold Valid, startOfYear, msPerDay. cbn. lia. Qed.
Lemma Valid_endOfYear d : Valid (endOfYear d).
Proof. unfold Valid, endOfYear, msPerDay. cbn. lia. Qed.

Lemma year_span d : dayOf (startOfYear d) < dayOf (endOfYear d).
Proof.
  apply monthIndex_lt_dayOf; [apply Valid_startOfYear | apply Valid_endOfYear |].
  unfold monthIndex, startOfYear, endOfYear. cbn. lia.
Qed.

Lemma month_span d : Valid d ->
  dayOf (startOfMonth d) <= dayOf d <= dayOf (endOfMonth d).
Proof.
  intros Hv. pose proof (Valid_startOfMonth d Hv) as Vs. pose proof (Valid_endOfMonth d Hv) as Ve.
  rewrite (dayOf_month_offset _ Vs), (dayOf_month_offset _ Ve), (dayOf_month_offset _ Hv).
  change (monthIndex (startOfMonth d)) with (monthIndex d).
  change (monthIndex (endOfMonth d)) with (monthIndex d).
  destruct Hv as (_ & Hd & _). unfold startOfMonth, endOfMonth. cbn [dDate]. lia.
Qed.

Lemma year_contains d : Valid d ->
  dayOf (startOfYear d) <= dayOf d <= dayOf (endOfYear d).
Proof.
  intros Hv.
  pose proof (Valid_startOfYear d) as Vs. pose proof (Valid_endOfYear d) as Ve.
  rewrite (dayOf_month_offset _ Vs), (dayOf_month_offset _ Ve), (dayOf_month_offset _ Hv).
  pose proof (monthStartDay_le (monthIndex (startOfYear d)) (monthIndex d)) as H1.
  pose proof (monthStartDay_le (monthIndex d) (monthIndex (endOfYear d))) as H2.
  pose proof (monthStartDay_succ (monthIndex d)) as H3.
  pose proof (monthStartDay_le (monthIndex d + 1) (monthIndex (endOfYear d))) as H4.
  destruct (monthIndex_split d Hv) as [Yq Mq]. rewrite Yq, Mq in H3.
  destruct Hv as (Hm & Hd & _).
  unfold monthIndex, startOfYear, endOfYear in *. cbn [dYear dMonth dDate] in *.
  split; [lia |].
  destruct (Z.eq_dec (dMonth d) 11) as [E | N].
  - rewrite E in *. change (daysInMonth (dYear d) 11) with 31 in Hd. lia.
  - pose proof (daysInMonth_bounds (dYear d) (dMonth d)). lia.
Qed.

Lemma subMonths_before d n : Valid d -> 0 < n -> dayOf (subMonths d n) < dayOf d.
Proof.
  intros Hv Hn. apply monthIndex_lt_dayOf; [apply Valid_addMonths, Hv | exact Hv |].
  unfold subMonths. rewrite monthIndex_addMonths. lia.
Qed.

(** X22. Every preset gives a range of whole days: a start at the first
    millisecond of a day and an end at the last millisecond of a day that is
    not before the start's day. *)
Theorem presets_whole_days (preset : Preset) (now : Date) :
  In preset presets -> Valid now ->
  exists a b, getRange preset now = Range.mkRange (Some a) (Some b) /\
              Valid a /\ Valid b /\ dTime a = 0 /\ dTime b = msPerDay - 1 /\
              dayOf a <= dayOf b.
Proof.
  intros Hin Hv. change (wholeDays (getRange preset now)). unfold presets in Hin. cbn [In] in Hin.
  assert (T0 : forall d, Valid d -> Valid (startOfDay d)) by apply Valid_startOfDay.
  assert (T1 : forall d, Valid d -> Valid (endOfDay d)) by apply Valid_endOfDay.
  destruct (startOfWeek_spec now Hv) as (Va & _ & Ta & Da & _).
  destruct (endOfWeek_spec now Hv) as (Vb & _ & Tb & Db).
  repeat (destruct Hin as [<- | Hin]); try contradiction; cbn [getRange today yesterday
    thisWeek lastWeek last7Days thisMonth last3Months thisYear lastYear].
  - apply wholeDays_intro; auto. rewrite dayOf_startOfDay, dayOf_endOfDay. lia.
  - destruct (subDays_spec now 1 Hv) as (V & _). apply wholeDays_intro; auto.
    rewrite dayOf_startOfDay, dayOf_endOfDay. lia.
  - apply wholeDays_intro; auto. lia.
  - destruct (subDays_spec _ 7 Va) as (V1 & D1 & T1').
    destruct (subDays_spec _ 7 Vb) as (V2 & D2 & T2').
    apply wholeDays_intro; auto; try congruence. lia.
  - destruct (subDays_spec now 6 Hv) as (V & D & _). apply wholeDays_intro; auto.
    rewrite dayOf_startOfDay, dayOf_endOfDay. lia.
  - apply wholeDays_intro; [apply Valid_startOfMonth, Hv | apply Valid_endOfMonth, Hv
                            | reflexivity | reflexivity |].
    pose proof (month_span now Hv). lia.
  - apply wholeDays_intro; auto; [apply T0, Valid_addMonths, Hv |].
    rewrite dayOf_startOfDay, dayOf_endOfDay.
    pose proof (subMonths_before now 3 Hv). lia.
  - apply wholeDays_intro; [apply Valid_startOfYear | apply Valid_endOfYear
                            | reflexivity | reflexivity |].
    pose proof (year_span now). lia.
  - apply wholeDays_intro; [apply Valid_startOfYear | apply Valid_endOfYear
                            | reflexivity | reflexivity |].
    pose proof (year_span (subYears now 1)). lia.
Qed.

Lemma presets_whole_days_witness :
  exists a b, getRange lastWeek (mkDate 2024 4 8 52200123) = Range.mkRange (Some a) (Some b) /\
              dayOf a <= dayOf b.
Proof.
  destruct (presets_whole_days lastWeek (mkDate 2024 4 8 52200123))
    as (a & b & E & _ & _ & _ & _ & H);
    [cbn; tauto | unfold Valid, msPerDay; cbn; lia |].
  exists a, b. split; assumption.
Defined.

(** X23. Where the presets lie: Today is the day of now and Yesterday the day
    before; This Week runs from the Sunday on or before now to the Saturday
    after, and Last Week is the seven days before it; Last 7 Days ends today
    and starts six days earlier; This Month is the month of now from its
    first to its last day; Last 3 Months ends today and starts in the month
    three before; This Year runs from 1 January to 31 December of the year
    of now and contains now, and Last Year is the year before, wholly before
    now. *)
Theorem presets_days (now : Date) :
  Valid now ->
  let n := dayOf now in
  let w := n - getDay now in
  daysOf (getRange today now) = Some (n, n) /\
  daysOf (getRange yesterday now) = Some (n - 1, n - 1) /\
  daysOf (getRange thisWeek now) = Some (w, w + 6) /\
  daysOf (getRange lastWeek now) = Some (w - 7, w - 1) /\
  daysOf (getRange last7Days now) = Some (n - 6, n) /\
  daysOf (getRange thisMonth now) =
    Some (n - (dDate now - 1), n + (daysInMonth (dYear now) (dMonth now) - dDate now)) /\
  (exists a, daysOf (getRange last3Months now) = Some (a, n) /\ a < n /\
             a = dayOf (subMonths now 3) /\
             monthIndex (subMonths now 3) = monthIndex now - 3) /\
  (exists a b, daysOf (getRange thisYear now) = Some (a, b) /\ a <= n <= b /\
               a = dayOf (mkDate (dYear now) 0 1 0) /\
               b = dayOf (mkDate (dYear now) 11 31 0)) /\
  (exists a b, daysOf (getRange lastYear now) = Some (a, b) /\ b < n /\
               a = dayOf (mkDate (dYear now - 1) 0 1 0) /\
               b = dayOf (mkDate (dYear now - 1) 11 31 0)).
Proof.
  intros Hv n w. subst n w.
  destruct (startOfWeek_spec now Hv) as (Va & _ & Ta & Da & _).
  destruct (endOfWeek_spec now Hv) as (Vb & _ & Tb & Db).
  destruct (subDays_spec now 1 Hv) as (_ & D1 & _).
  destruct (subDays_spec now 6 Hv) as (_ & D6 & _).
  destruct (subDays_spec _ 7 Va) as (_ & Da7 & _).
  destruct (subDays_spec _ 7 Vb) as (_ & Db7 & _).
  unfold daysOf. cbn [getRange today yesterday thisWeek lastWeek last7Days thisMonth
                      last3Months thisYear lastYear range Range.rStart Range.rEnd].
  rewrite ?dayOf_startOfDay, ?dayOf_endOfDay.
  split; [reflexivity |]. split; [rewrite D1; reflexivity |].
  split; [rewrite Da, Db; f_equal; f_equal; lia |].
  split; [rewrite Da7, Db7, Da, Db; f_equal; f_equal; lia |].
  split; [rewrite D6; reflexivity |].
  split.
  { pose proof (Valid_startOfMonth now Hv) as Vs. pose proof (Valid_endOfMonth now Hv) as Ve.
    rewrite (dayOf_month_offset _ Vs), (dayOf_month_offset _ Ve), (dayOf_month_offset _ Hv).
    change (monthIndex (startOfMonth now)) with (monthIndex now).
    change (monthIndex (endOfMonth now)) with (monthIndex now).
    unfold startOfMonth, endOfMonth. cbn [dDate]. f_equal. f_equal; lia. }
  split.
  { eexists. split; [reflexivity |]. split; [apply subMonths_before; [exact Hv | lia] |].
    split; [reflexivity |]. unfold subMonths. rewrite monthIndex_addMonths. lia. }
  split.
  { eexists. eexists. split; [reflexivity |]. split; [exact (year_contains now Hv) |].
    split; reflexivity. }
  eexists. eexists. split; [reflexivity |].
  assert (Vy : Valid (subYears now 1)) by (apply Valid_addMonths, Hv).
  assert (Yy : dYear (subYears now 1) = dYear now - 1).
  { rewrite (dYear_of_monthIndex _ Vy). unfold subYears, addYears.
    rewrite monthIndex_addMonths. destruct Hv as (Hm & _). unfold monthIndex. zdiv. }
  split.
  - apply year_lt_dayOf; [apply Valid_endOfYear | exact Hv |].
    unfold endOfYear. cbn [dYear]. lia.
  - unfold startOfYear, endOfYear. rewrite Yy. split; reflexivity.
Qed.

Lemma presets_days_witness :
  daysOf (getRange lastWeek (mkDate 2024 4 8 52200123)) =
  Some (dayOf (mkDate 2024 3 28 0), dayOf (mkDate 2024 4 4 0)).
Proof.
  destruct (presets_days (mkDate 2024 4 8 52200123)) as (_ & _ & _ & H & _);
    [unfold Valid, msPerDay; cbn; lia |].
  exact (eq_trans H eq_refl).
Defined.


(** ** The range input *)

Import RangeInput.

Lemma controlled_text format p s op :
  textShowsProps format p s ->
  let r := controlled format p s op in
  textShowsProps format (fst (fst r)) (snd (fst r)) /\
  (quiet op = true -> fst (fst r) = p /\ snd r = []).
Proof.
  unfold textShowsProps. intros Ht.
  destruct s as [iv o ls le]. cbn [inputValue] in Ht. subst iv.
  destruct p as [sd ed df dis sp].
  destruct op as [| key | | dates | preset now | | |]; try destruct key;
    destruct o; destruct dis; destruct ls as [a |]; destruct le as [b |];
    unfold controlled, dispatch, syncOnOpen, handler, togglePicker, handleOutsideClick,
      handleCancel, revertIfOnlyStart; cbn;
    (split; [reflexivity | first [discriminate | intros _; split; reflexivity]]).
Qed.

(** X24. With a consumer that stores what onChange gives it, after any sequence
    of events the text of the range input is the text of the committed pair;
    and a sequence without Apply and Clear calls no callback and leaves the
    committed pair as it was. *)
Theorem text_follows_commits
        (format : Date -> string -> string) (p : Props) (ops : list Op) :
  let r := runControlled format p (init format p) ops in
  let p' := fst (fst r) in
  inputValue (snd (fst r)) =
    rangeText format p' (orNull (startDate p')) (orNull (endDate p')) /\
  (forallb quiet ops = true -> p' = p /\ snd r = []).
Proof.
  cbv zeta.
  assert (H0 : textShowsProps format p (init format p)) by reflexivity.
  revert H0. generalize (init format p) as s. revert p.
  induction ops as [| op rest IH]; intros p s Ht.
  - split; [exact Ht | intros _; split; reflexivity].
  - destruct (controlled_text format p s op Ht) as [Ht' Hq].
    cbn [runControlled forallb fst snd].
    destruct (IH _ _ Ht') as [IH1 IH2]. split; [exact IH1 |].
    intros Hall. apply andb_prop in Hall. destruct Hall as [Hop Hrest].
    destruct (Hq Hop) as [Ep En]. rewrite Ep in IH2.
    destruct (IH2 Hrest) as [Ep' En']. rewrite Ep in *.
    split; [exact Ep' |]. rewrite En, En'. reflexivity.
Qed.

Lemma text_follows_commits_witness :
  let f := fun (d : Date) (_ : string) => if dDate d =? 3 then "a"%string else "b"%string in
  let p := mkProps Null Null "yyyy MMM d" false false in
  let ops := [Toggle; OverlayChange (Range.mkRange (Some (mkDate 2024 4 3 0)) None);
              OutsideClick; Toggle; KeyDown Escape] in
  let r := runControlled f p (init f p) ops in
  fst (fst r) = p /\ snd r = [].
Proof.
  intros f p ops r.
  destruct (text_follows_commits f p ops) as [_ H]. exact (H eq_refl).
Defined.


(** X25. With a consumer that stores what onChange gives it, Apply commits the
    buffered pair and shows its text; opening the picker again then shows
    the same pair in the buffer, with the text unchanged and no further
    callback. *)
Theorem apply_then_reopen
        (format : Date -> string -> string) (p : Props) (s : State) :
  isDisabled p = false ->
  let r := controlled format p s Apply in
  let p' := fst (fst r) in
  let r' := controlled format p' (snd (fst r)) Toggle in
  orNull (startDate p') = localStartDate s /\
  orNull (endDate p') = localEndDate s /\
  inputValue (snd (fst r)) = rangeText format p (localStartDate s) (localEndDate s) /\
  isOpen (snd (fst r')) = true /\
  localStartDate (snd (fst r')) = localStartDate s /\
  localEndDate (snd (fst r')) = localEndDate s /\
  inputValue (snd (fst r')) = inputValue (snd (fst r)) /\
  snd r' = [].
Proof.
  destruct p as [sd ed df dis sp]. destruct s as [iv o ls le].
  cbn [isDisabled]. intros ->.
  destruct o; destruct ls as [a |]; destruct le as [b |];
    unfold controlled, dispatch, syncOnOpen, handler, togglePicker; cbn;
    repeat split.
Qed.

Lemma apply_then_reopen_witness :
  let f := fun (d : Date) (_ : string) => if dDate d =? 3 then "a"%string else "b"%string in
  let p := mkProps Null Null "yyyy MMM d" false false in
  let s := mkState EmptyString true (Some (mkDate 2024 4 3 0)) (Some (mkDate 2024 4 10 0)) in
  let r := controlled f p s Apply in
  let r' := controlled f (fst (fst r)) (snd (fst r)) Toggle in
  localStartDate (snd (fst r')) = Some (mkDate 2024 4 3 0) /\
  localEndDate (snd (fst r')) = Some (mkDate 2024 4 10 0).
Proof.
  intros f p s r r'.
  destruct (apply_then_reopen f p s eq_refl) as (_ & _ & _ & _ & A & B & _).
  split; [exact A | exact B].
Defined.

(** ** The date input *)

Lemma inRange_overlay (p : DateInput.Props) (d : Date) :
  validOpt (DateInput.minDate p) = true -> validOpt (DateInput.maxDate p) = true ->
  DateInput.inRange p d = true ->
  Basic.isDateInRange (DateInput.overlay p) d = true.
Proof.
  unfold DateInput.inRange, DateInput.minDate, DateInput.maxDate.
  intros Vlo Vhi H. apply andb_prop in H. destruct H as [Hlo Hhi].
  unfold Basic.isDateInRange, Basic.normalizedMinDate, Basic.normalizedMaxDate,
    Basic.beforeMin, Basic.afterMax, isBefore, isAfter.
  destruct (Basic.minDate (DateInput.overlay p)) as [lo |] eqn:Elo;
    destruct (Basic.maxDate (DateInput.overlay p)) as [hi |] eqn:Ehi; cbn [option_map];
    try (pose proof (validOpt_Some _ _ Vlo eq_refl) as (_ & _ & Hl);
         apply Z.leb_le in Hlo; rewrite getTime_startOfDay);
    try (pose proof (validOpt_Some _ _ Vhi eq_refl) as (_ & _ & Hh);
         apply Z.leb_le in Hhi; rewrite getTime_endOfDay);
    unfold getTime in *;
    repeat match goal with
           | |- context [?a <? ?b] => destruct (Z.ltb_spec a b)
           end; cbn; try reflexivity; lia.
Qed.

(** X26. Enter in the date input with a text that is not empty: when the text
    parses to a date within minDate and maxDate, onChange receives it once,
    the picker closes, the text stays, and the date is one the overlay
    accepts too; when it does not parse or lies outside, nothing is
    committed, the text goes back to that of the value and the picker stays
    as it is. *)
Theorem enter_commits_in_bounds
        (format : Date -> string -> string)
        (parse : string -> string -> Date -> option Date)
        (p : DateInput.Props) (s : DateInput.State) (now : Date) :
  validOpt (DateInput.minDate p) = true -> validOpt (DateInput.maxDate p) = true ->
  DateInput.inputValue s <> EmptyString ->
  let r := run (DateInput.handleKeyDown format parse p s DateInput.Enter now) s in
  match parse (DateInput.inputValue s) (DateInput.dateFormat p) now with
  | Some d =>
      if DateInput.inRange p d
      then snd r = [DateInput.OnChange (Some d)] /\
           DateInput.isOpen (fst r) = false /\
           DateInput.inputValue (fst r) = DateInput.inputValue s /\
           Basic.isDateInRange (DateInput.overlay p) d = true
      else snd r = [] /\
           fst r = DateInput.mkState (DateInput.valueText format p) (DateInput.isOpen s)
  | None =>
      snd r = [] /\
      fst r = DateInput.mkState (DateInput.valueText format p) (DateInput.isOpen s)
  end.
Proof.
  intros Vlo Vhi Hne r. subst r. unfold DateInput.handleKeyDown.
  destruct s as [iv o]. cbn [DateInput.inputValue DateInput.isOpen] in *.
  destruct iv as [| c iv]; [congruence |]. cbn [DateInput.isEmpty].
  destruct (parse _ _ now) as [d |]; [| split; reflexivity].
  destruct (DateInput.inRange p d) eqn:Er; [| split; reflexivity].
  split; [reflexivity |]. split; [reflexivity |]. split; [reflexivity |].
  apply inRange_overlay; assumption.
Qed.


Lemma enter_commits_in_bounds_witness :
  let f := fun (_ : Date) (_ : string) => "x"%string in
  let g := fun (_ _ : string) (_ : Date) => Some (mkDate 2024 4 8 0) in
  let p := DateInput.mkProps
             (Basic.mkProps Null None (Some (mkDate 2024 4 1 0)) (Some (mkDate 2024 4 10 0))
                            false 30 "00:00" "23:59") "yyyy-MM-dd" false true in
  let s := DateInput.mkState "2024-05-08" true in
  snd (run (DateInput.handleKeyDown f g p s DateInput.Enter (mkDate 2024 4 3 100)) s) =
  [DateInput.OnChange (Some (mkDate 2024 4 8 0))].
Proof.
  intros f g p s.
  pose proof (enter_commits_in_bounds f g p s (mkDate 2024 4 3 100) eq_refl eq_refl) as H.
  cbv zeta in H.
  assert (Hne : DateInput.inputValue s <> EmptyString) by discriminate.
  exact (proj1 (H Hne)).
Defined.

(** X27. Enter compares with minDate to the millisecond while the overlay
    compares by day: a typed date on the day of minDate but earlier in the
    day (maxDate, if any, being on no earlier day) is in range for the
    overlay, yet Enter commits nothing and puts the text of the value back. *)
Theorem enter_refuses_early_min_day
        (format : Date -> string -> string)
        (parse : string -> string -> Date -> option Date)
        (p : DateInput.Props) (s : DateInput.State) (now m d : Date) :
  DateInput.minDate p = Some m ->
  match DateInput.maxDate p with Some hi => dayOf m <= dayOf hi | None => True end ->
  DateInput.inputValue s <> EmptyString ->
  parse (DateInput.inputValue s) (DateInput.dateFormat p) now = Some d ->
  dayOf d = dayOf m -> 0 <= dTime d < dTime m -> dTime m < msPerDay ->
  let r := run (DateInput.handleKeyDown format parse p s DateInput.Enter now) s in
  Basic.isDateInRange (DateInput.overlay p) d = true /\
  snd r = [] /\
  fst r = DateInput.mkState (DateInput.valueText format p) (DateInput.isOpen s).
Proof.
  intros Em Hhi Hne Ep Hd Ht Hm r. subst r. split.
  - rewrite isDateInRange_days by lia.
    unfold DateInput.minDate, DateInput.maxDate in *. rewrite Em.
    destruct (Basic.maxDate (DateInput.overlay p)) as [hi |];
      rewrite Hd, Z.leb_refl; cbn [andb]; [apply Z.leb_le; exact Hhi | reflexivity].
  - unfold DateInput.handleKeyDown.
    destruct s as [iv o]. cbn [DateInput.inputValue DateInput.isOpen] in *.
    destruct iv as [| c iv]; [congruence |]. cbn [DateInput.isEmpty].
    rewrite Ep.
    assert (Er : DateInput.inRange p d = false).
    { unfold DateInput.inRange. rewrite Em.
      assert (L : (getTime m <=? getTime d) = false)
        by (apply Z.leb_gt; unfold getTime, dayOf in *; lia).
      rewrite L. reflexivity. }
    rewrite Er. split; reflexivity.
Qed.

Lemma enter_refuses_early_min_day_witness :
  let f := fun (_ : Date) (_ : string) => "x"%string in
  let g := fun (_ _ : string) (_ : Date) => Some (mkDate 2024 4 1 0) in
  let p := DateInput.mkProps
             (Basic.mkProps Null None (Some (mkDate 2024 4 1 32400000)) None
                            false 30 "00:00" "23:59") "yyyy-MM-dd" false true in
  let s := DateInput.mkState "2024-05-01" true in
  Basic.isDateInRange (DateInput.overlay p) (mkDate 2024 4 1 0) = true /\
  snd (run (DateInput.handleKeyDown f g p s DateInput.Enter (mkDate 2024 4 3 100)) s) = [].
Proof.
  intros f g p s.
  assert (Hne : DateInput.inputValue s <> EmptyString) by discriminate.
  assert (Ht : 0 <= dTime (mkDate 2024 4 1 0) < dTime (mkDate 2024 4 1 32400000))
    by (cbn; lia).
  assert (Hm : dTime (mkDate 2024 4 1 32400000) < msPerDay) by (unfold msPerDay; cbn; lia).
  destruct (enter_refuses_early_min_day f g p s (mkDate 2024 4 3 100)
              (mkDate 2024 4 1 32400000) (mkDate 2024 4 1 0)
              eq_refl I Hne eq_refl eq_refl Ht Hm) as (A & B & _).
  split; [exact A | exact B].
Defined.

End ShellMore.
